(** * CrossDexArbitrageWithFlashLoan: a shallow embedding of the contract

    The contract borrows a token with a Balancer V2 flash loan, runs two
    swaps through caller-supplied routers and repays the loan.  This file
    embeds its storage, its events and every entry point that can change
    storage as Rocq functions over an explicit contract state, and proves
    the properties the specification states about them.

    Conventions.
    - [uint256], [int256], [address] and [bytes32] values are [Z]; checked
      arithmetic of Solidity 0.8 is written out: an addition or a
      multiplication that leaves the [uint256] range, and a signed operation
      that leaves the [int256] range, fail with [Panic(0x11)].  A
      subtraction the source guards with a comparison is plain subtraction.
    - [bytes] and [string] values are [string].
    - A Solidity [mapping] is a [gmap] read with the zero value as default;
      a [mapping] to [bool] that is only ever set to [true] is a [gset].
    - A call of an entry point is a computation in the monad [M]: it takes
      the storage and the log written so far and either returns a value
      with the new storage and log, or reverts.  A revert carries the log
      attempted up to the failure; the caller that catches it throws the
      storage changes and that log away.
    - What other contracts answer (token balances, the outcome of a swap,
      what the vault does during [flashLoan]) is an input of the call, the
      "world" of that call.  A world says how each external call ends and
      which calls that contract makes back into this one meanwhile.

    What is taken from the environment.  A view call ([balanceOf],
    [allowance]) answers; a call through an interface reaches a contract;
    gas does not run out.  The modifiers and [safeTransfer] are those of
    OpenZeppelin 4.x, which the contract imports. *)

From Stdlib Require Import ZArith String Ascii List Lia Bool.
From stdpp Require Import gmap strings.
Import ListNotations.
Open Scope string_scope.
Open Scope list_scope.
Open Scope Z_scope.

(** ** Machine integers *)

Definition MAX_UINT256 : Z := 2 ^ 256 - 1.
Definition MAX_INT256 : Z := 2 ^ 255 - 1.
Definition MIN_INT256 : Z := - 2 ^ 255.
Definition MAX_BPS : Z := 10000.
Definition MAX_GAS_FOR_CALL : Z := 3000000.

Definition is_uint256 (v : Z) : Prop := 0 <= v <= MAX_UINT256.
Definition is_int256 (v : Z) : Prop := MIN_INT256 <= v <= MAX_INT256.

(** ** Errors

    The custom errors of the contract, and the three shapes of revert data
    Solidity's [try]/[catch] tells apart: [Error(string)], [Panic(uint256)]
    and anything else. *)

Inductive Error : Type :=
| InvalidSetup (code : Z)
| InvalidTokens
| ZeroAmount
| InvalidVaultAddress
| DisabledToken
| UnauthorizedCaller
| InvalidExecutionId
| FirstSwapFailed (reason : string)
| NoIntermediateTokens
| SecondSwapFailed (reason : string)
| InsufficientProfit
| InsufficientRepayment
| TestModeShortfall
| NegativeValueConversion
| ErrorString (reason : string)
| Panic (code : Z)
| RawRevert (data : string).

(** How a [try] statement sorts a failure into its [catch] clauses. *)
Inductive Caught : Type :=
| CaughtError (reason : string)
| CaughtPanic (errorCode : Z)
| CaughtBytes (e : Error).

Definition classify (e : Error) : Caught :=
  match e with
  | ErrorString reason => CaughtError reason
  | Panic code => CaughtPanic code
  | _ => CaughtBytes e
  end.

(** ** Events and the log *)

Inductive Event : Type :=
| DexConfigured (dexName : string) (router defaultFee maxGasUsage : Z)
| PoolConfigured (pool fee minLiquidity dexRouter : Z)
| TokenConfigured (token maxAmount minAmount decimals : Z)
| ApprovalUpdated (token spender newAmount : Z)
| ArbitrageExecuted (sourceToken targetToken tradeInputAmount
                     finalAccountBalance tradeFinalBalance tradeProfit
                     expectedProfit : Z) (testMode : bool)
| StateLog (executionId : Z) (stage data : string)
| SwapEvent (executionId eventType : Z) (stage : string)
            (token actualBalance expectedBalance : Z)
| FlashLoanEvent (executionId eventType token amount feeOrProfit : Z)
| OwnershipTransferred (previousOwner newOwner : Z)
| Paused (account : Z)
| Unpaused (account : Z).

(** The log of a call records the events it emits and the calls it makes
    to other contracts, in order. *)
Inductive Action : Type :=
| Emit (ev : Event)
| CallTo (target : Z) (method : string).

Definition Trace : Type := list Action.

(** ** Storage *)

Record DexConfig : Type := mkDexConfig {
  dex_router : Z;
  dex_isEnabled : bool;
  dex_defaultFee : Z;
  dex_maxGasUsage : Z;
  dex_supportedPools : gset Z;
  dex_supportedFees : gset Z
}.

Record PoolConfig : Type := mkPoolConfig {
  pool_isEnabled : bool;
  pool_fee : Z;
  pool_minLiquidity : Z;
  pool_dexRouter : Z
}.

Record TokenConfig : Type := mkTokenConfig {
  token_isEnabled : bool;
  token_maxAmount : Z;
  token_minAmount : Z;
  token_decimals : Z
}.

Record ArbitrageParams : Type := mkArbitrageParams {
  sourceToken : Z;
  targetToken : Z;
  amount : Z;
  firstSwapData : string;
  secondSwapData : string;
  firstRouter : Z;
  secondRouter : Z;
  testMode : bool;
  expectedFirstOutput : Z;
  expectedSecondOutput : Z;
  executionId : Z
}.

Record TradeContext : Type := mkTradeContext {
  sourceTokenStartBalance : Z;
  targetTokenStartBalance : Z;
  tradeInputAmount : Z;
  intermediateTokenAmount : Z;
  tradeFinalBalance : Z;
  expectedFirstLegOutput : Z;
  actualFirstLegOutput : Z;
  tc_expectedSecondOutput : Z;
  actualSecondOutput : Z;
  executed : bool
}.

(** [FlashLoanContext] has the fields of [ArbitrageParams]; the contract
    copies one into the other field by field. *)
Definition FlashLoanContext : Type := ArbitrageParams.

Record Metrics : Type := mkMetrics {
  totalExecutions : Z;
  successfulExecutions : Z;
  failedExecutions : Z;
  totalProfit : Z;
  flashLoanExecutions : Z;
  flashLoanSuccessful : Z;
  flashLoanFailed : Z;
  flashLoanProfit : Z
}.

Record State : Type := mkState {
  owner : Z;                         (* Ownable *)
  paused : bool;                     (* Pausable *)
  entered : bool;                    (* ReentrancyGuard: status is ENTERED *)
  balancerVault : Z;
  uniswapRouterAddress : Z;
  traderJoeRouterAddress : Z;
  dexConfigs : gmap string DexConfig;
  poolConfigs : gmap Z PoolConfig;
  tokenConfigs : gmap Z TokenConfig;
  executedTrades : gset Z;
  tradeContexts : gmap Z TradeContext;
  flashLoanContexts : gmap Z FlashLoanContext;
  metrics : Metrics
}.

(** Zero values, read where a mapping has no entry. *)
Definition zeroDexConfig : DexConfig := mkDexConfig 0 false 0 0 ∅ ∅.
Definition zeroPoolConfig : PoolConfig := mkPoolConfig false 0 0 0.
Definition zeroTokenConfig : TokenConfig := mkTokenConfig false 0 0 0.
Definition zeroTradeContext : TradeContext :=
  mkTradeContext 0 0 0 0 0 0 0 0 0 false.
Definition zeroFlashLoanContext : FlashLoanContext :=
  mkArbitrageParams 0 0 0 "" "" 0 0 false 0 0 0.
Definition zeroMetrics : Metrics := mkMetrics 0 0 0 0 0 0 0 0.

Definition dexConfigOf (s : State) (dexName : string) : DexConfig :=
  default zeroDexConfig (dexConfigs s !! dexName).
Definition poolConfigOf (s : State) (pool : Z) : PoolConfig :=
  default zeroPoolConfig (poolConfigs s !! pool).
Definition tokenConfigOf (s : State) (token : Z) : TokenConfig :=
  default zeroTokenConfig (tokenConfigs s !! token).
Definition tradeContextOf (s : State) (id : Z) : TradeContext :=
  default zeroTradeContext (tradeContexts s !! id).
Definition flashLoanContextOf (s : State) (id : Z) : FlashLoanContext :=
  default zeroFlashLoanContext (flashLoanContexts s !! id).
Definition isExecuted (s : State) (id : Z) : bool :=
  bool_decide (id ∈ executedTrades s).

(** Field updates of the storage record. *)
Definition set_owner (v : Z) (s : State) : State :=
  mkState v (paused s) (entered s) (balancerVault s) (uniswapRouterAddress s)
    (traderJoeRouterAddress s) (dexConfigs s) (poolConfigs s) (tokenConfigs s)
    (executedTrades s) (tradeContexts s) (flashLoanContexts s) (metrics s).
Definition set_paused (v : bool) (s : State) : State :=
  mkState (owner s) v (entered s) (balancerVault s) (uniswapRouterAddress s)
    (traderJoeRouterAddress s) (dexConfigs s) (poolConfigs s) (tokenConfigs s)
    (executedTrades s) (tradeContexts s) (flashLoanContexts s) (metrics s).
Definition set_entered (v : bool) (s : State) : State :=
  mkState (owner s) (paused s) v (balancerVault s) (uniswapRouterAddress s)
    (traderJoeRouterAddress s) (dexConfigs s) (poolConfigs s) (tokenConfigs s)
    (executedTrades s) (tradeContexts s) (flashLoanContexts s) (metrics s).
Definition set_routers (uni joe : Z) (s : State) : State :=
  mkState (owner s) (paused s) (entered s) (balancerVault s) uni joe
    (dexConfigs s) (poolConfigs s) (tokenConfigs s)
    (executedTrades s) (tradeContexts s) (flashLoanContexts s) (metrics s).
Definition set_dexConfigs (v : gmap string DexConfig) (s : State) : State :=
  mkState (owner s) (paused s) (entered s) (balancerVault s)
    (uniswapRouterAddress s) (traderJoeRouterAddress s) v (poolConfigs s)
    (tokenConfigs s) (executedTrades s) (tradeContexts s)
    (flashLoanContexts s) (metrics s).
Definition set_poolConfigs (v : gmap Z PoolConfig) (s : State) : State :=
  mkState (owner s) (paused s) (entered s) (balancerVault s)
    (uniswapRouterAddress s) (traderJoeRouterAddress s) (dexConfigs s) v
    (tokenConfigs s) (executedTrades s) (tradeContexts s)
    (flashLoanContexts s) (metrics s).
Definition set_tokenConfigs (v : gmap Z TokenConfig) (s : State) : State :=
  mkState (owner s) (paused s) (entered s) (balancerVault s)
    (uniswapRouterAddress s) (traderJoeRouterAddress s) (dexConfigs s)
    (poolConfigs s) v (executedTrades s) (tradeContexts s)
    (flashLoanContexts s) (metrics s).
Definition set_executedTrades (v : gset Z) (s : State) : State :=
  mkState (owner s) (paused s) (entered s) (balancerVault s)
    (uniswapRouterAddress s) (traderJoeRouterAddress s) (dexConfigs s)
    (poolConfigs s) (tokenConfigs s) v (tradeContexts s)
    (flashLoanContexts s) (metrics s).
Definition set_tradeContexts (v : gmap Z TradeContext) (s : State) : State :=
  mkState (owner s) (paused s) (entered s) (balancerVault s)
    (uniswapRouterAddress s) (traderJoeRouterAddress s) (dexConfigs s)
    (poolConfigs s) (tokenConfigs s) (executedTrades s) v
    (flashLoanContexts s) (metrics s).
Definition set_flashLoanContexts (v : gmap Z FlashLoanContext) (s : State)
  : State :=
  mkState (owner s) (paused s) (entered s) (balancerVault s)
    (uniswapRouterAddress s) (traderJoeRouterAddress s) (dexConfigs s)
    (poolConfigs s) (tokenConfigs s) (executedTrades s) (tradeContexts s)
    v (metrics s).
Definition set_metrics (v : Metrics) (s : State) : State :=
  mkState (owner s) (paused s) (entered s) (balancerVault s)
    (uniswapRouterAddress s) (traderJoeRouterAddress s) (dexConfigs s)
    (poolConfigs s) (tokenConfigs s) (executedTrades s) (tradeContexts s)
    (flashLoanContexts s) v.

(** Writes through a storage pointer [dexConfigs[name]], [tradeContexts[id]],
    [tokenConfigs[token]]: the entry is read with its default and written
    back. *)
Definition updDex (dexName : string) (f : DexConfig -> DexConfig) (s : State)
  : State :=
  set_dexConfigs (<[dexName := f (dexConfigOf s dexName)]> (dexConfigs s)) s.
Definition updToken (token : Z) (f : TokenConfig -> TokenConfig) (s : State)
  : State :=
  set_tokenConfigs (<[token := f (tokenConfigOf s token)]> (tokenConfigs s)) s.
Definition updTrade (id : Z) (f : TradeContext -> TradeContext) (s : State)
  : State :=
  set_tradeContexts (<[id := f (tradeContextOf s id)]> (tradeContexts s)) s.
Definition updMetrics (f : Metrics -> Metrics) (s : State) : State :=
  set_metrics (f (metrics s)) s.

(** ** The monad of contract calls *)

Inductive Result (A : Type) : Type :=
| Ok (a : A) (s : State) (t : Trace)
| Revert (e : Error) (t : Trace).
Arguments Ok {A} a s t.
Arguments Revert {A} e t.

Definition M (A : Type) : Type := State -> Trace -> Result A.

Definition ret {A} (a : A) : M A := fun s t => Ok a s t.
Definition bind {A B} (m : M A) (f : A -> M B) : M B :=
  fun s t =>
    match m s t with
    | Ok a s' t' => f a s' t'
    | Revert e t' => Revert e t'
    end.
Definition revert {A} (e : Error) : M A := fun _ t => Revert e t.
Definition get : M State := fun s t => Ok s s t.
Definition modify (f : State -> State) : M unit := fun s t => Ok tt (f s) t.
Definition emit (ev : Event) : M unit := fun s t => Ok tt s (t ++ [Emit ev]).
Definition logCall (target : Z) (method : string) : M unit :=
  fun s t => Ok tt s (t ++ [CallTo target method]).
Definition when (b : bool) (m : M unit) : M unit := if b then m else ret tt.

Declare Scope sol_scope.
Delimit Scope sol_scope with sol.
Notation "'let*' x ':=' c1 'in' c2" := (bind c1 (fun x => c2))
  (at level 10, x pattern, c1 at level 100, c2 at level 200) : sol_scope.
Notation "c1 ;; c2" := (bind c1 (fun _ => c2))
  (at level 100, c2 at level 200, right associativity) : sol_scope.
Open Scope sol_scope.

(** [tryCall m]: an external call whose failure the caller catches.  On failure
    the storage and the log are those from before the call. *)
Definition tryCall {A} (m : M A) : M (A + Error) :=
  fun s t =>
    match m s t with
    | Ok a s' t' => Ok (inl a) s' t'
    | Revert e _ => Ok (inr e) s t
    end.

(** Checked [uint256] arithmetic. *)
Definition checkedAdd (a b : Z) : M Z :=
  if a + b <=? MAX_UINT256 then ret (a + b) else revert (Panic 17).
Definition checkedMul (a b : Z) : M Z :=
  if a * b <=? MAX_UINT256 then ret (a * b) else revert (Panic 17).

(** ** Strings and ABI words

    The helpers the contract uses to build the text of its [StateLog]
    events, and the two ABI conversions it relies on: a 32-byte word
    ([abi.encode] and [abi.decode] of a [bytes32]) and a [bool] return
    value. *)

Definition byteOf (v : Z) : ascii := ascii_of_N (Z.to_N (v mod 256)).
Definition valueOf (c : ascii) : Z := Z.of_N (N_of_ascii c).

(** [toHexChar]: a nibble as a lower-case hexadecimal digit. *)
Definition toHexChar (nibble : Z) : ascii :=
  if nibble <? 10 then byteOf (48 + nibble) else byteOf (97 + nibble - 10).

Definition hexOfByte (c : ascii) : string :=
  String (toHexChar (valueOf c / 16))
    (String (toHexChar (valueOf c mod 16)) EmptyString).

Fixpoint hexOfBytes (d : string) : string :=
  match d with
  | EmptyString => EmptyString
  | String c d' => hexOfByte c +:+ hexOfBytes d'
  end.

(** The [n] big-endian bytes of [v]. *)
Fixpoint bytesOfZ (n : nat) (v : Z) : string :=
  match n with
  | O => EmptyString
  | S n' => String (byteOf (v / 256 ^ Z.of_nat n')) (bytesOfZ n' v)
  end.

(** The first [n] bytes of [d], read past its end as zero bytes. *)
Fixpoint firstBytes (n : nat) (d : string) : string :=
  match n with
  | O => EmptyString
  | S n' =>
      match d with
      | EmptyString => String zero (firstBytes n' EmptyString)
      | String c d' => String c (firstBytes n' d')
      end
  end.

(** [bytes4ToString]: "0x" and the eight hexadecimal digits of a [bytes4]. *)
Definition bytes4ToString (sig : string) : string :=
  "0x" +:+ hexOfBytes (firstBytes 4 sig).

(** [addressToString]: "0x" and the forty hexadecimal digits of an address. *)
Definition addressToString (addr : Z) : string :=
  "0x" +:+ hexOfBytes (bytesOfZ 20 addr).

(** [uint2str]: the decimal digits of an unsigned integer.  The source
    counts the digits and then fills a buffer from its last position; a
    [uint256] has at most 78 digits. *)
Fixpoint uint2str_digits (fuel : nat) (i : Z) (buffer : string) : string :=
  match fuel with
  | O => buffer
  | S fuel' =>
      if i =? 0 then buffer
      else uint2str_digits fuel' (i / 10) (String (byteOf (48 + i mod 10)) buffer)
  end.

Definition uint2str (i : Z) : string :=
  if i =? 0 then "0" else uint2str_digits 78 i EmptyString.

(** [int2str]: the decimal text of a signed integer. *)
Definition int2str (value : Z) : string :=
  if value =? 0 then "0"
  else if value =? MIN_INT256 then
    "-57896044618658097711785492504343953926634992332820282019728792003956564819968"
  else if value <? 0 then "-" +:+ uint2str (- value)
  else uint2str value.

Definition boolText (b : bool) : string := if b then "true" else "false".

(** [abi.encode] of one 32-byte word, and its [abi.decode]: the data must
    hold at least 32 bytes, read big-endian. *)
Definition abiEncodeWord (v : Z) : string := bytesOfZ 32 v.

Fixpoint readBytes (n : nat) (acc : Z) (d : string) : option Z :=
  match n with
  | O => Some acc
  | S n' =>
      match d with
      | EmptyString => None
      | String c d' => readBytes n' (acc * 256 + valueOf c) d'
      end
  end.

Definition abiDecodeWord (d : string) : option Z := readBytes 32 0 d.

(** A [bool] is a word that is 0 or 1; any other word fails decoding. *)
Definition abiDecodeBool (d : string) : option bool :=
  match abiDecodeWord d with
  | Some 0 => Some false
  | Some 1 => Some true
  | _ => None
  end.

Definition strlen (d : string) : Z := Z.of_nat (String.length d).

(** [_compareStrings] compares the keccak256 hashes of the two strings;
    with a collision-free hash this is equality of the strings. *)
Definition _compareStrings (a b : string) : bool := String.eqb a b.

(** ** Conversions between signed and unsigned integers *)

(** [safeToUint256]: fails on a negative value. *)
Definition safeToUint256 (value : Z) : M Z :=
  if value <? 0 then revert NegativeValueConversion else ret value.

(** [safeToInt256]: values above [type(int256).max] become that maximum. *)
Definition safeToInt256 (value : Z) : Z :=
  if MAX_INT256 <? value then MAX_INT256 else value.

(** ** The world of a call

    [External C] describes one call the contract makes to another
    contract: how the call ends, and the calls that contract makes back
    into this one before it returns ([C] is the type of such call lists; it
    is instantiated below).  A view call ([balanceOf], [allowance]) cannot
    change storage, so its world is the value it returns. *)

Inductive Outcome : Type :=
| Returned (data : string)
| Reverted (e : Error).

Record External (C : Type) : Type := mkExternal {
  reentry : C;
  outcome : Outcome
}.
Arguments mkExternal {C} _ _.
Arguments reentry {C} _.
Arguments outcome {C} _.

(** The three calls [_safeApprove] may make. *)
Record ApproveWorld (C : Type) : Type := mkApproveWorld {
  w_directApprove : External C;
  w_resetApprove : External C;
  w_retryApprove : External C
}.
Arguments mkApproveWorld {C} _ _ _.
Arguments w_directApprove {C} _.
Arguments w_resetApprove {C} _.
Arguments w_retryApprove {C} _.

(** What [executeArbitrageInternal] meets, in the order it asks. *)
Record EngineWorld (C : Type) : Type := mkEngineWorld {
  w_initialAccountBalance : Z;
  w_initialTargetBalance : Z;
  w_currentAllowanceFirst : Z;
  w_approveFirst : ApproveWorld C;
  w_firstSwap : External C;
  w_currentTargetBalance : Z;
  w_currentAllowanceSecond : Z;
  w_approveSecond : ApproveWorld C;
  w_secondSwap : External C;
  w_finalAccountBalance : Z
}.
Arguments mkEngineWorld {C} _ _ _ _ _ _ _ _ _ _.
Arguments w_initialAccountBalance {C} _.
Arguments w_initialTargetBalance {C} _.
Arguments w_currentAllowanceFirst {C} _.
Arguments w_approveFirst {C} _.
Arguments w_firstSwap {C} _.
Arguments w_currentTargetBalance {C} _.
Arguments w_currentAllowanceSecond {C} _.
Arguments w_approveSecond {C} _.
Arguments w_secondSwap {C} _.
Arguments w_finalAccountBalance {C} _.

(** What [receiveFlashLoan] meets. *)
Record CallbackWorld (C : Type) : Type := mkCallbackWorld {
  w_engine : EngineWorld C;
  w_currentBalance : Z;
  w_transferFrom : External C;
  w_transfer : External C
}.
Arguments mkCallbackWorld {C} _ _ _ _.
Arguments w_engine {C} _.
Arguments w_currentBalance {C} _.
Arguments w_transferFrom {C} _.
Arguments w_transfer {C} _.

(** What [executeFlashLoanArbitrage] meets. *)
Record LoanWorld (C : Type) : Type := mkLoanWorld {
  w_preCallBalance : Z;
  w_flashLoan : External C;
  w_postCallBalance : Z
}.
Arguments mkLoanWorld {C} _ _ _.
Arguments w_preCallBalance {C} _.
Arguments w_flashLoan {C} _.
Arguments w_postCallBalance {C} _.

(** What [emergencyWithdraw] and [withdrawFunds] meet. *)
Record WithdrawWorld (C : Type) : Type := mkWithdrawWorld {
  w_balance : Z;
  w_safeTransfer : External C
}.
Arguments mkWithdrawWorld {C} _ _.
Arguments w_balance {C} _.
Arguments w_safeTransfer {C} _.

(** Field updates of [Metrics], [DexConfig], [TokenConfig] and
    [TradeContext]. *)
Definition set_totalExecutions (v : Z) (m : Metrics) : Metrics :=
  mkMetrics v (successfulExecutions m) (failedExecutions m) (totalProfit m)
    (flashLoanExecutions m) (flashLoanSuccessful m) (flashLoanFailed m)
    (flashLoanProfit m).
Definition set_successfulExecutions (v : Z) (m : Metrics) : Metrics :=
  mkMetrics (totalExecutions m) v (failedExecutions m) (totalProfit m)
    (flashLoanExecutions m) (flashLoanSuccessful m) (flashLoanFailed m)
    (flashLoanProfit m).
Definition set_totalProfit (v : Z) (m : Metrics) : Metrics :=
  mkMetrics (totalExecutions m) (successfulExecutions m) (failedExecutions m) v
    (flashLoanExecutions m) (flashLoanSuccessful m) (flashLoanFailed m)
    (flashLoanProfit m).
Definition set_flashLoanExecutions (v : Z) (m : Metrics) : Metrics :=
  mkMetrics (totalExecutions m) (successfulExecutions m) (failedExecutions m)
    (totalProfit m) v (flashLoanSuccessful m) (flashLoanFailed m)
    (flashLoanProfit m).
Definition set_flashLoanSuccessful (v : Z) (m : Metrics) : Metrics :=
  mkMetrics (totalExecutions m) (successfulExecutions m) (failedExecutions m)
    (totalProfit m) (flashLoanExecutions m) v (flashLoanFailed m)
    (flashLoanProfit m).
Definition set_flashLoanFailed (v : Z) (m : Metrics) : Metrics :=
  mkMetrics (totalExecutions m) (successfulExecutions m) (failedExecutions m)
    (totalProfit m) (flashLoanExecutions m) (flashLoanSuccessful m) v
    (flashLoanProfit m).
Definition set_flashLoanProfit (v : Z) (m : Metrics) : Metrics :=
  mkMetrics (totalExecutions m) (successfulExecutions m) (failedExecutions m)
    (totalProfit m) (flashLoanExecutions m) (flashLoanSuccessful m)
    (flashLoanFailed m) v.

Definition set_dex_settings (router defaultFee maxGasUsage : Z) (c : DexConfig)
  : DexConfig :=
  mkDexConfig router true defaultFee maxGasUsage
    (dex_supportedPools c) (dex_supportedFees c).
Definition set_dex_isEnabled (v : bool) (c : DexConfig) : DexConfig :=
  mkDexConfig (dex_router c) v (dex_defaultFee c) (dex_maxGasUsage c)
    (dex_supportedPools c) (dex_supportedFees c).
Definition add_dex_supportedFee (fee : Z) (c : DexConfig) : DexConfig :=
  mkDexConfig (dex_router c) (dex_isEnabled c) (dex_defaultFee c)
    (dex_maxGasUsage c) (dex_supportedPools c) ({[fee]} ∪ dex_supportedFees c).
Definition add_dex_supportedPool (pool : Z) (c : DexConfig) : DexConfig :=
  mkDexConfig (dex_router c) (dex_isEnabled c) (dex_defaultFee c)
    (dex_maxGasUsage c) ({[pool]} ∪ dex_supportedPools c) (dex_supportedFees c).

Definition set_token_isEnabled (v : bool) (c : TokenConfig) : TokenConfig :=
  mkTokenConfig v (token_maxAmount c) (token_minAmount c) (token_decimals c).

Definition set_executed (v : bool) (c : TradeContext) : TradeContext :=
  mkTradeContext (sourceTokenStartBalance c) (targetTokenStartBalance c)
    (tradeInputAmount c) (intermediateTokenAmount c) (tradeFinalBalance c)
    (expectedFirstLegOutput c) (actualFirstLegOutput c)
    (tc_expectedSecondOutput c) (actualSecondOutput c) v.
Definition set_startBalances (src tgt input : Z) (c : TradeContext)
  : TradeContext :=
  mkTradeContext src tgt input (intermediateTokenAmount c)
    (tradeFinalBalance c) (expectedFirstLegOutput c) (actualFirstLegOutput c)
    (tc_expectedSecondOutput c) (actualSecondOutput c) (executed c).
Definition set_expectedOutputs (first second : Z) (c : TradeContext)
  : TradeContext :=
  mkTradeContext (sourceTokenStartBalance c) (targetTokenStartBalance c)
    (tradeInputAmount c) (intermediateTokenAmount c) (tradeFinalBalance c)
    first (actualFirstLegOutput c) second (actualSecondOutput c) (executed c).
Definition set_firstLeg (received : Z) (c : TradeContext) : TradeContext :=
  mkTradeContext (sourceTokenStartBalance c) (targetTokenStartBalance c)
    (tradeInputAmount c) received (tradeFinalBalance c)
    (expectedFirstLegOutput c) received
    (tc_expectedSecondOutput c) (actualSecondOutput c) (executed c).
Definition set_tradeResult (finalBalance profit : Z) (c : TradeContext)
  : TradeContext :=
  mkTradeContext (sourceTokenStartBalance c) (targetTokenStartBalance c)
    (tradeInputAmount c) (intermediateTokenAmount c) finalBalance
    (expectedFirstLegOutput c) (actualFirstLegOutput c)
    (tc_expectedSecondOutput c) profit true.

(** ** The contract

    [this] is the address of the deployed contract.
    [keccakExecutionId] is [keccak256(abi.encodePacked(sourceToken,
    targetToken, amount, firstRouter, secondRouter, block.timestamp,
    block.number, msg.sender, "flashloan"))].  [abiEncodeError] gives the
    bytes of a structured revert payload, as a low-level call returns
    them. *)

Section Chain.

Variable this : Z.
Variable keccakExecutionId : Z -> Z -> Z -> Z -> Z -> Z -> Z -> Z -> Z.
Variable abiEncodeError : Error -> string.

Definition revertData (e : Error) : string :=
  match e with
  | RawRevert data => data
  | _ => abiEncodeError e
  end.

Section Body.

Context {C : Type}.

(** What the calls made back into the contract during an external call do
    to storage and log. *)
Variable reenter : C -> State -> Trace -> State * Trace.

(** A call to another contract.  If it returns, whatever that contract did
    by calling back stays; if it reverts, all of it is undone. *)
Definition external (target : Z) (method : string) (x : External C)
  : M Outcome :=
  fun s t =>
    let t1 := t ++ [CallTo target method] in
    match outcome x with
    | Returned data =>
        let '(s', t') := reenter (reentry x) s t1 in Ok (Returned data) s' t'
    | Reverted e => Ok (Reverted e) s t1
    end.

(** A view call: it is logged and answers with the value of the world. *)
Definition staticcall (target : Z) (method : string) (answer : Z) : M Z :=
  logCall target method ;; ret answer.

(** A call through an interface whose [bool] result the caller drops: a
    revert is passed on, and so is a return value that is no [bool]. *)
Definition callDiscardBool (target : Z) (method : string) (x : External C)
  : M unit :=
  let* r := external target method x in
  match r with
  | Reverted e => revert e
  | Returned data =>
      match abiDecodeBool data with
      | Some _ => ret tt
      | None => revert (RawRevert "")
      end
  end.

(** *** Modifiers (OpenZeppelin 4.x [Ownable], [Pausable],
    [ReentrancyGuard], which the contract inherits) *)

Definition onlyOwner (sender : Z) : M unit :=
  let* s := get in
  if owner s =? sender then ret tt
  else revert (ErrorString "Ownable: caller is not the owner").

Definition nonReentrant {A} (body : M A) : M A :=
  let* s := get in
  (if entered s then revert (ErrorString "ReentrancyGuard: reentrant call")
   else ret tt) ;;
  modify (set_entered true) ;;
  let* r := body in
  modify (set_entered false) ;;
  ret r.

Definition whenNotPaused {A} (body : M A) : M A :=
  let* s := get in
  if paused s then revert (ErrorString "Pausable: paused") else body.

Definition whenPaused {A} (body : M A) : M A :=
  let* s := get in
  if paused s then body else revert (ErrorString "Pausable: not paused").

Definition _pause (sender : Z) : M unit :=
  whenNotPaused (modify (set_paused true) ;; emit (Paused sender)).

Definition _unpause (sender : Z) : M unit :=
  whenPaused (modify (set_paused false) ;; emit (Unpaused sender)).

Definition _transferOwnership (newOwner : Z) : M unit :=
  let* s := get in
  modify (set_owner newOwner) ;;
  emit (OwnershipTransferred (owner s) newOwner).

(** *** Configuration registry *)

(** The loop of [configureDex] over the fee tiers. *)
Fixpoint recordFeeTiers (dexName : string) (supportedFeeTiers : list Z)
  : M unit :=
  match supportedFeeTiers with
  | [] => ret tt
  | fee :: rest =>
      if MAX_BPS <=? fee then revert (InvalidSetup 3)
      else
        modify (updDex dexName (add_dex_supportedFee fee)) ;;
        recordFeeTiers dexName rest
  end.

Definition configureDex (sender : Z) (dexName : string)
    (router defaultFee maxGasUsage : Z) (supportedFeeTiers : list Z)
  : M unit :=
  onlyOwner sender ;;
  (if (router =? 0) || (strlen dexName =? 0) then revert (InvalidSetup 2)
   else ret tt) ;;
  modify (updDex dexName (set_dex_settings router defaultFee maxGasUsage)) ;;
  (if _compareStrings dexName "uniswap" then
     modify (fun s => set_routers router (traderJoeRouterAddress s) s)
   else if _compareStrings dexName "traderjoe" then
     modify (fun s => set_routers (uniswapRouterAddress s) router s)
   else ret tt) ;;
  recordFeeTiers dexName supportedFeeTiers ;;
  emit (DexConfigured dexName router defaultFee maxGasUsage).

Definition configurePool (sender : Z) (pool fee minLiquidity : Z)
    (dexName : string) : M unit :=
  onlyOwner sender ;;
  (if pool =? 0 then revert (InvalidSetup 4) else ret tt) ;;
  let* s := get in
  (if negb (dex_isEnabled (dexConfigOf s dexName)) then revert (InvalidSetup 5)
   else ret tt) ;;
  (if MAX_BPS <=? fee then revert (InvalidSetup 3) else ret tt) ;;
  (if dex_router (dexConfigOf s dexName) =? 0 then revert (InvalidSetup 6)
   else ret tt) ;;
  modify (fun s =>
    set_poolConfigs
      (<[pool := mkPoolConfig true fee minLiquidity
                   (dex_router (dexConfigOf s dexName))]> (poolConfigs s)) s) ;;
  modify (updDex dexName (add_dex_supportedPool pool)) ;;
  emit (PoolConfigured pool fee minLiquidity
          (dex_router (dexConfigOf s dexName))).

Definition configureToken (sender : Z) (token maxAmount minAmount decimals : Z)
  : M unit :=
  onlyOwner sender ;;
  (if token =? 0 then revert (InvalidSetup 7) else ret tt) ;;
  (if maxAmount <=? minAmount then revert (InvalidSetup 8) else ret tt) ;;
  (if 18 <? decimals then revert (InvalidSetup 9) else ret tt) ;;
  modify (fun s =>
    set_tokenConfigs
      (<[token := mkTokenConfig true maxAmount minAmount decimals]>
         (tokenConfigs s)) s) ;;
  emit (TokenConfigured token maxAmount minAmount decimals).

Definition setTokenEnabled (sender : Z) (token : Z) (isEnabled : bool)
  : M unit :=
  onlyOwner sender ;;
  (if token =? 0 then revert (InvalidSetup 7) else ret tt) ;;
  let* s := get in
  (if token_decimals (tokenConfigOf s token) =? 0 then revert (InvalidSetup 7)
   else ret tt) ;;
  modify (updToken token (set_token_isEnabled isEnabled)).

Definition setDexEnabled (sender : Z) (dexName : string) (isEnabled : bool)
  : M unit :=
  onlyOwner sender ;;
  let* s := get in
  (if dex_router (dexConfigOf s dexName) =? 0 then revert (InvalidSetup 2)
   else ret tt) ;;
  modify (updDex dexName (set_dex_isEnabled isEnabled)).

Definition setRouterAddresses (sender : Z) (uni joe : Z) : M unit :=
  onlyOwner sender ;;
  modify (set_routers uni joe).

(** *** Approvals *)

(** [_safeApprove]: a low-level [approve]; if it fails or answers [false],
    a reset to zero whose failure is ignored, then a second [approve]. *)
Definition _safeApprove (token spender amount : Z) (w : ApproveWorld C)
  : M unit :=
  let* r := external token "approve" (w_directApprove w) in
  let* rejected :=
    match r with
    | Reverted _ => ret true
    | Returned result =>
        if 0 <? strlen result then
          match abiDecodeBool result with
          | Some b => ret (negb b)
          | None => revert (RawRevert "")
          end
        else ret false
    end in
  (if rejected : bool then
     external token "approve" (w_resetApprove w) ;;
     callDiscardBool token "approve" (w_retryApprove w)
   else ret tt) ;;
  emit (ApprovalUpdated token spender amount).

Definition approveRouter (sender : Z) (token router amount : Z)
    (w : ApproveWorld C) : M unit :=
  onlyOwner sender ;;
  _safeApprove token router amount w.

(** *** Metrics *)

(** [metrics.field += delta], with the overflow check of Solidity 0.8. *)
Definition bump (field : Metrics -> Z) (setter : Z -> Metrics -> Metrics)
    (delta : Z) : M unit :=
  let* s := get in
  let* v := checkedAdd (field (metrics s)) delta in
  modify (updMetrics (setter v)).

(** Checked [int256] arithmetic. *)
Definition checkedInt (v : Z) : M Z :=
  if (MIN_INT256 <=? v) && (v <=? MAX_INT256) then ret v else revert (Panic 17).
Definition negInt (a : Z) : M Z := checkedInt (- a).
Definition addInt (a b : Z) : M Z := checkedInt (a + b).
Definition subInt (a b : Z) : M Z := checkedInt (a - b).

(** *** Arbitrage engine *)

(** Part of [executeArbitrageInternal]: the trade profit, the signed
    difference between the final and the initial balance of the source
    token, clamped to the [int256] range. *)
Definition calcTradeProfit (id finalAccountBalance initialAccountBalance : Z)
  : M Z :=
  if initialAccountBalance <=? finalAccountBalance then
    let rawProfit := finalAccountBalance - initialAccountBalance in
    if MAX_INT256 <? rawProfit then
      emit (StateLog id "ProfitOverflow" "Profit too large for int256") ;;
      ret MAX_INT256
    else
      emit (StateLog id "ProfitCalculation" ("+" +:+ uint2str rawProfit)) ;;
      ret rawProfit
  else
    let rawLoss := initialAccountBalance - finalAccountBalance in
    if MAX_INT256 <? rawLoss then
      emit (StateLog id "LossOverflow" "Loss too large for int256") ;;
      ret MIN_INT256
    else
      let* tradeProfit := negInt rawLoss in
      emit (StateLog id "ProfitCalculation" ("-" +:+ uint2str rawLoss)) ;;
      ret tradeProfit.

(** Part of [executeArbitrageInternal]: input amount plus profit, clamped. *)
Definition calcTradeFinalBalance (id inputAmountInt tradeProfit : Z) : M Z :=
  if 0 <=? tradeProfit then
    let* room := subInt MAX_INT256 tradeProfit in
    if room <? inputAmountInt then
      emit (StateLog id "FinalBalanceOverflow" "Positive overflow") ;;
      ret MAX_INT256
    else addInt inputAmountInt tradeProfit
  else
    let* room := subInt MIN_INT256 tradeProfit in
    if inputAmountInt <? room then
      emit (StateLog id "FinalBalanceUnderflow" "Negative overflow") ;;
      ret MIN_INT256
    else addInt inputAmountInt tradeProfit.

(** Part of [executeArbitrageInternal]: expected second output minus input
    amount, clamped. *)
Definition calcExpectedProfit (id expectedSecondOutput inputAmountInt : Z)
  : M Z :=
  if (0 <=? expectedSecondOutput) && (0 <=? inputAmountInt) then
    let* room := subInt MAX_INT256 expectedSecondOutput in
    let* negInput := negInt inputAmountInt in
    if room <? negInput then
      emit (StateLog id "ExpectedProfitCalculationError" "Positive overflow") ;;
      ret MAX_INT256
    else subInt expectedSecondOutput inputAmountInt
  else if (expectedSecondOutput <? 0) && (inputAmountInt <? 0) then
    let* room := subInt MIN_INT256 expectedSecondOutput in
    let* negInput := negInt inputAmountInt in
    if negInput <? room then
      emit (StateLog id "ExpectedProfitCalculationError" "Negative overflow") ;;
      ret MIN_INT256
    else subInt expectedSecondOutput inputAmountInt
  else if (0 <=? expectedSecondOutput) && (inputAmountInt <? 0) then
    let* room := subInt MAX_INT256 expectedSecondOutput in
    let* negInput := negInt inputAmountInt in
    if room <? negInput then
      emit (StateLog id "ExpectedProfitCalculationError" "Mixed sign overflow") ;;
      ret MAX_INT256
    else subInt expectedSecondOutput inputAmountInt
  else
    let* room := subInt MIN_INT256 expectedSecondOutput in
    let* negInput := negInt inputAmountInt in
    if negInput <? room then
      emit (StateLog id "ExpectedProfitCalculationError" "Mixed sign underflow") ;;
      ret MIN_INT256
    else subInt expectedSecondOutput inputAmountInt.

(** The text a failed swap is reported with. *)
Definition swapErrorMsg (fallbackMsg : string) (e : Error) : string :=
  let result := revertData e in
  if 4 <? strlen result then result else fallbackMsg.

(** [executeArbitrageInternal], steps 1 to 6: replay guard, starting
    balances, approval and swap of each leg.  It hands the initial balance
    of the source token and the expected second output (as logged) to the
    second half. *)
Definition executeArbitrageInternal_legs (params : ArbitrageParams)
    (w : EngineWorld C) : M (Z * Z) :=
  let id := executionId params in
  let* s := get in
  (if isExecuted s id then revert InvalidExecutionId else ret tt) ;;
  modify (fun s => set_executedTrades ({[id]} ∪ executedTrades s) s) ;;
  modify (updTrade id (set_executed false)) ;;
  let* initialAccountBalance :=
    staticcall (sourceToken params) "balanceOf" (w_initialAccountBalance w) in
  let* initialTargetBalance :=
    staticcall (targetToken params) "balanceOf" (w_initialTargetBalance w) in
  modify (updTrade id
    (set_startBalances initialAccountBalance initialTargetBalance
       (amount params))) ;;
  modify (updTrade id
    (set_expectedOutputs (expectedFirstOutput params)
       (expectedSecondOutput params))) ;;
  emit (StateLog id "InputContext"
    ("Amount: " +:+ uint2str (amount params) +:+
     ", Expected1: " +:+ int2str (expectedFirstOutput params) +:+
     ", Expected2: " +:+ int2str (expectedSecondOutput params) +:+
     ", TestMode: " +:+ boolText (testMode params))) ;;
  emit (SwapEvent id 3 "BeforeFirstSwap" (sourceToken params)
          (amount params) (amount params)) ;;
  let* currentAllowanceFirst :=
    staticcall (sourceToken params) "allowance" (w_currentAllowanceFirst w) in
  (if currentAllowanceFirst <? amount params then
     _safeApprove (sourceToken params) (firstRouter params) MAX_UINT256
       (w_approveFirst w) ;;
     emit (StateLog id "FirstRouterApproval" "Updated")
   else ret tt) ;;
  let* expectedFirstOutputForEvent :=
    if 0 <? expectedFirstOutput params then ret (expectedFirstOutput params)
    else
      emit (StateLog id "NegativeExpectedOutput"
              ("First: " +:+ int2str (expectedFirstOutput params))) ;;
      ret 0 in
  emit (SwapEvent id 1 "first" (firstRouter params) (amount params)
          expectedFirstOutputForEvent) ;;
  let* r1 := external (firstRouter params) "call" (w_firstSwap w) in
  match r1 with
  | Reverted e =>
      emit (StateLog id "FirstSwapError" (swapErrorMsg "Failed First Swap" e)) ;;
      revert (FirstSwapFailed (swapErrorMsg "Failed First Swap" e))
  | Returned _ => ret tt
  end ;;
  emit (StateLog id "FirstSwap" "Success") ;;
  let* currentTargetBalance :=
    staticcall (targetToken params) "balanceOf" (w_currentTargetBalance w) in
  emit (StateLog id "FirstSwapBalances"
    ("Initial: " +:+ uint2str initialTargetBalance +:+
     ", Current: " +:+ uint2str currentTargetBalance)) ;;
  let* targetTokenReceived :=
    if initialTargetBalance <? currentTargetBalance then
      ret (currentTargetBalance - initialTargetBalance)
    else
      emit (StateLog id "BalanceCheck" "Zero or negative balance change") ;;
      ret 0 in
  modify (updTrade id (set_firstLeg targetTokenReceived)) ;;
  emit (SwapEvent id 3 "AfterFirstSwap" (targetToken params)
          targetTokenReceived expectedFirstOutputForEvent) ;;
  (if targetTokenReceived =? 0 then
     emit (StateLog id "IntermediateTokenReceived" "None") ;;
     revert NoIntermediateTokens
   else ret tt) ;;
  let* currentAllowanceSecond :=
    staticcall (targetToken params) "allowance" (w_currentAllowanceSecond w) in
  (if currentAllowanceSecond <? targetTokenReceived then
     _safeApprove (targetToken params) (secondRouter params) MAX_UINT256
       (w_approveSecond w) ;;
     emit (StateLog id "SecondRouterApproval" "Updated")
   else ret tt) ;;
  let* expectedSecondOutputForEvent :=
    if 0 <? expectedSecondOutput params then ret (expectedSecondOutput params)
    else
      emit (StateLog id "NegativeExpectedOutput"
              ("Second: " +:+ int2str (expectedSecondOutput params))) ;;
      ret 0 in
  emit (SwapEvent id 1 "second" (secondRouter params) targetTokenReceived
          expectedSecondOutputForEvent) ;;
  let* r2 := external (secondRouter params) "call" (w_secondSwap w) in
  match r2 with
  | Reverted e =>
      emit (StateLog id "SecondSwapError"
              (swapErrorMsg "Failed Second Swap" e)) ;;
      revert (SecondSwapFailed (swapErrorMsg "Failed Second Swap" e))
  | Returned _ => ret tt
  end ;;
  emit (StateLog id "SecondSwap" "Success") ;;
  ret (initialAccountBalance, expectedSecondOutputForEvent).

(** [executeArbitrageInternal], step 7 to the end: final balance, profit,
    profit gate, metrics and the [ArbitrageExecuted] event. *)
Definition executeArbitrageInternal_settle (params : ArbitrageParams)
    (initialAccountBalance expectedSecondOutputForEvent : Z)
    (w_final : Z) : M Z :=
  let id := executionId params in
  let* finalAccountBalance :=
    staticcall (sourceToken params) "balanceOf" w_final in
  emit (StateLog id "BalanceParams"
    ("Initial: " +:+ uint2str initialAccountBalance +:+
     ", Final: " +:+ uint2str finalAccountBalance +:+
     ", Input: " +:+ uint2str (amount params))) ;;
  let inputAmountInt := safeToInt256 (amount params) in
  let* tradeProfit :=
    calcTradeProfit id finalAccountBalance initialAccountBalance in
  let* tradeFinalBalance :=
    calcTradeFinalBalance id inputAmountInt tradeProfit in
  modify (updTrade id (set_tradeResult tradeFinalBalance tradeProfit)) ;;
  let* expectedProfit :=
    calcExpectedProfit id (expectedSecondOutput params) inputAmountInt in
  let* finalBalanceForEvent :=
    if 0 <? tradeFinalBalance then ret tradeFinalBalance
    else
      emit (StateLog id "NegativeTradeFinalBalance"
              (int2str tradeFinalBalance)) ;;
      ret 0 in
  emit (SwapEvent id 3 "AfterSecondSwap" (sourceToken params)
          finalBalanceForEvent expectedSecondOutputForEvent) ;;
  emit (StateLog id "ProfitDetails"
    ("Actual: " +:+ int2str tradeProfit +:+
     ", Expected: " +:+ int2str expectedProfit +:+
     ", TestMode: " +:+ boolText (testMode params))) ;;
  (if 0 <? tradeProfit then
     bump successfulExecutions set_successfulExecutions 1 ;;
     (if 0 <? tradeProfit then bump totalProfit set_totalProfit tradeProfit
      else emit (StateLog id "MetricsUpdateWarning"
                   "Failed to update metrics")) ;;
     emit (StateLog id "ProfitValidation" "Profitable")
   else
     (if negb (testMode params) then
        emit (StateLog id "ProfitValidation" "NoProfit") ;;
        revert InsufficientProfit
      else ret tt) ;;
     emit (StateLog id "ProfitValidation" "TestMode")) ;;
  bump totalExecutions set_totalExecutions 1 ;;
  emit (ArbitrageExecuted (sourceToken params) (targetToken params)
          (amount params) finalAccountBalance tradeFinalBalance tradeProfit
          expectedProfit (testMode params)) ;;
  ret tradeProfit.

Definition executeArbitrageInternal (params : ArbitrageParams)
    (w : EngineWorld C) : M Z :=
  let* (initialAccountBalance, expectedSecondOutputForEvent) :=
    executeArbitrageInternal_legs params w in
  executeArbitrageInternal_settle params initialAccountBalance
    expectedSecondOutputForEvent (w_finalAccountBalance w).

(** [executeArbitrageWrapper]: only the contract itself may call it. *)
Definition executeArbitrageWrapper (sender : Z) (params : ArbitrageParams)
    (w : EngineWorld C) : M Z :=
  (if sender =? this then ret tt else revert (ErrorString "Unauthorized")) ;;
  executeArbitrageInternal params w.

(** *** Flash-loan orchestrator *)

(** [a[0]]: an empty array fails with [Panic(0x32)]. *)
Definition firstElement (a : list Z) : M Z :=
  match a with
  | [] => revert (Panic 50)
  | v :: _ => ret v
  end.

Definition panicReason (errorCode : Z) : string :=
  if errorCode =? 1 then "Assertion failed"
  else if errorCode =? 17 then "Arithmetic operation underflow or overflow"
  else if errorCode =? 18 then "Division or modulo by zero"
  else if errorCode =? 33 then "Invalid enum value"
  else if errorCode =? 34 then "Storage byte array is incorrectly encoded"
  else if errorCode =? 49 then "calldata is too short"
  else if errorCode =? 50 then "Return data too short"
  else if errorCode =? 65 then "Invalid array length"
  else if errorCode =? 81 then "Invalid memory array access"
  else "Unknown panic code: " +:+ uint2str errorCode.

(** The text of the catch-all clauses: the first four bytes of the revert
    data, if there are any. *)
Definition lowLevelErrorMsg (errorData : string) : string :=
  if 0 <? strlen errorData then "Error sig: " +:+ bytes4ToString errorData
  else "Unknown error".

(** The three [catch] clauses of [executeFlashLoanArbitrage] do the same
    after their log entry. *)
Definition flashLoanFailure (id sourceToken : Z) (stage data : string)
    (w_balance : Z) : M Z :=
  emit (StateLog id stage data) ;;
  bump flashLoanFailed set_flashLoanFailed 1 ;;
  bump flashLoanExecutions set_flashLoanExecutions 1 ;;
  modify (fun s =>
    set_flashLoanContexts (delete id (flashLoanContexts s)) s) ;;
  staticcall sourceToken "balanceOf" w_balance.

Definition executeFlashLoanArbitrage (sender blockTimestamp blockNumber : Z)
    (sourceToken targetToken amount : Z)
    (firstSwapData secondSwapData : string)
    (firstRouter secondRouter : Z) (testMode : bool)
    (expectedFirstOutput expectedSecondOutput : Z)
    (w : LoanWorld C) : M Z :=
  nonReentrant (whenNotPaused (
    (if sourceToken =? targetToken then revert InvalidTokens else ret tt) ;;
    (if amount =? 0 then revert ZeroAmount else ret tt) ;;
    let* s := get in
    (if balancerVault s =? 0 then revert InvalidVaultAddress else ret tt) ;;
    (if negb (token_isEnabled (tokenConfigOf s sourceToken)) then
       revert DisabledToken
     else ret tt) ;;
    emit (StateLog 0 "ExpectedValues"
      ("First: " +:+ int2str expectedFirstOutput +:+
       ", Second: " +:+ int2str expectedSecondOutput +:+
       ", TestMode: " +:+ boolText testMode)) ;;
    let id :=
      keccakExecutionId sourceToken targetToken amount firstRouter
        secondRouter blockTimestamp blockNumber sender in
    modify (fun s =>
      set_flashLoanContexts
        (<[id := mkArbitrageParams sourceToken targetToken amount
                   firstSwapData secondSwapData firstRouter secondRouter
                   testMode expectedFirstOutput expectedSecondOutput id]>
           (flashLoanContexts s)) s) ;;
    emit (FlashLoanEvent id 1 sourceToken amount 0) ;;
    let* preCallBalance :=
      staticcall sourceToken "balanceOf" (w_preCallBalance w) in
    let* r := external (balancerVault s) "flashLoan" (w_flashLoan w) in
    match r with
    | Returned _ =>
        bump flashLoanExecutions set_flashLoanExecutions 1 ;;
        bump flashLoanSuccessful set_flashLoanSuccessful 1 ;;
        let* finalBalance :=
          staticcall sourceToken "balanceOf" (w_postCallBalance w) in
        emit (StateLog id "BalanceChange"
          ("Pre: " +:+ uint2str preCallBalance +:+
           ", Post: " +:+ uint2str finalBalance)) ;;
        emit (StateLog id "FlashLoanComplete" "Success") ;;
        ret finalBalance
    | Reverted e =>
        match classify e with
        | CaughtError reason =>
            flashLoanFailure id sourceToken "FlashLoanError" reason
              (w_postCallBalance w)
        | CaughtPanic errorCode =>
            flashLoanFailure id sourceToken "FlashLoanPanic"
              (panicReason errorCode) (w_postCallBalance w)
        | CaughtBytes e' =>
            flashLoanFailure id sourceToken "FlashLoanLowLevelError"
              (lowLevelErrorMsg (revertData e')) (w_postCallBalance w)
        end
    end)).

(** The [catch] clauses of [receiveFlashLoan]: a log entry, then the trade
    context is marked as not executed. *)
Definition arbitrageFailure (id : Z) (stage data : string) : M (bool * Z) :=
  emit (StateLog id stage data) ;;
  modify (updTrade id (set_executed false)) ;;
  ret (false, 0).

Definition arithmeticErrorText (errorCode : Z) : string :=
  if errorCode =? 17 then "Arithmetic operation"
  else if errorCode =? 1 then "Assert failed"
  else if errorCode =? 18 then "Division by zero"
  else "Other panic".

(** [receiveFlashLoan]; its first argument, the token array, is unused. *)
Definition receiveFlashLoan (sender : Z) (amounts feeAmounts : list Z)
    (userData : string) (w : CallbackWorld C) : M unit :=
  let* s := get in
  (if sender =? balancerVault s then ret tt else revert UnauthorizedCaller) ;;
  let* id :=
    match abiDecodeWord userData with
    | Some v => ret v
    | None => revert (RawRevert "")
    end in
  let context := flashLoanContextOf s id in
  (if executionId context =? id then ret tt
   else
     emit (StateLog id "ContextRetrieval" "Invalid") ;;
     revert InvalidExecutionId) ;;
  emit (StateLog id "FlashLoanCallback"
    ("Starting callback, token: " +:+ addressToString (sourceToken context) +:+
     ", amount: " +:+ uint2str (amount context))) ;;
  logCall this "executeArbitrageWrapper" ;;
  let* attempt :=
    tryCall (executeArbitrageWrapper this
           (mkArbitrageParams (sourceToken context) (targetToken context)
              (amount context) (firstSwapData context)
              (secondSwapData context) (firstRouter context)
              (secondRouter context) (testMode context)
              (expectedFirstOutput context) (expectedSecondOutput context) id)
           (w_engine w)) in
  let* (arbitrageSuccess, profit) :=
    match attempt with
    | inl result =>
        emit (StateLog id "ArbitrageExecution" "Success") ;;
        ret (true, result)
    | inr e =>
        match classify e with
        | CaughtError reason =>
            arbitrageFailure id "ArbitrageExecutionError" reason
        | CaughtPanic errorCode =>
            arbitrageFailure id "ArithmeticError"
              (arithmeticErrorText errorCode)
        | CaughtBytes e' =>
            arbitrageFailure id "ArbitrageExecution"
              ("Failed with error: " +:+ lowLevelErrorMsg (revertData e'))
        end
    end in
  (if arbitrageSuccess : bool then
     if 0 <? profit then bump flashLoanProfit set_flashLoanProfit profit
     else emit (StateLog id "MetricsWarning"
                  "Profit not added to metrics (negative)")
   else ret tt) ;;
  let* principal := firstElement amounts in
  let* fee := firstElement feeAmounts in
  let* repayAmount := checkedAdd principal fee in
  let* currentBalance :=
    staticcall (sourceToken context) "balanceOf" (w_currentBalance w) in
  emit (StateLog id "RepaymentInfo"
    ("Principal: " +:+ uint2str principal +:+
     ", Fee: " +:+ uint2str fee +:+
     ", Total: " +:+ uint2str repayAmount +:+
     ", Balance: " +:+ uint2str currentBalance)) ;;
  (if currentBalance <? repayAmount then
     if testMode context then
       let* r :=
         external (sourceToken context) "transferFrom" (w_transferFrom w) in
       match r with
       | Returned _ => emit (StateLog id "TestModeShortfall" "Covered by owner")
       | Reverted _ =>
           emit (StateLog id "TestModeShortfall" "Failed to cover") ;;
           revert TestModeShortfall
       end
     else
       emit (StateLog id "InsufficientBalance" "Cannot repay flash loan") ;;
       revert InsufficientRepayment
   else ret tt) ;;
  callDiscardBool (sourceToken context) "transfer" (w_transfer w) ;;
  emit (FlashLoanEvent id 2 (sourceToken context) (amount context) profit) ;;
  modify (fun s => set_flashLoanContexts (delete id (flashLoanContexts s)) s).

(** *** Administration *)

(** [SafeERC20.safeTransfer]: the call must succeed and, if it returns
    data, return [true]. *)
Definition safeTransfer (token : Z) (x : External C) : M unit :=
  let* r := external token "transfer" x in
  match r with
  | Reverted e => revert e
  | Returned data =>
      if 0 <? strlen data then
        match abiDecodeBool data with
        | Some true => ret tt
        | Some false =>
            revert (ErrorString "SafeERC20: ERC20 operation did not succeed")
        | None => revert (RawRevert "")
        end
      else ret tt
  end.

Definition emergencyWithdraw (sender token : Z) (w : WithdrawWorld C)
  : M bool :=
  onlyOwner sender ;;
  (if token =? 0 then revert (InvalidSetup 7) else ret tt) ;;
  let* balance := staticcall token "balanceOf" (w_balance w) in
  if balance =? 0 then ret false
  else safeTransfer token (w_safeTransfer w) ;; ret true.

Definition withdrawFunds (sender token amount : Z) (w : WithdrawWorld C)
  : M bool :=
  onlyOwner sender ;;
  (if token =? 0 then revert (InvalidSetup 7) else ret tt) ;;
  (if amount =? 0 then revert (InvalidSetup 8) else ret tt) ;;
  let* balance := staticcall token "balanceOf" (w_balance w) in
  if balance <? amount then ret false
  else safeTransfer token (w_safeTransfer w) ;; ret true.

Definition pause (sender : Z) : M unit := onlyOwner sender ;; _pause sender.
Definition unpause (sender : Z) : M unit := onlyOwner sender ;; _unpause sender.

Definition triggerCircuitBreaker (sender : Z) (reason : string) : M unit :=
  onlyOwner sender ;;
  _pause sender ;;
  emit (StateLog 0 "CircuitBreakerTriggered" reason).

Definition transferOwnership (sender newOwner : Z) : M unit :=
  onlyOwner sender ;;
  (if newOwner =? 0 then
     revert (ErrorString "Ownable: new owner is the zero address")
   else ret tt) ;;
  _transferOwnership newOwner.

Definition renounceOwnership (sender : Z) : M unit :=
  onlyOwner sender ;;
  _transferOwnership 0.

Definition fallback : M unit := revert (ErrorString "Function not found").

(** *** Entry points

    One constructor for each function of the contract that can change
    storage, with its arguments and the world it runs in. *)

Inductive Op : Type :=
| ConfigureDex (dexName : string) (router defaultFee maxGasUsage : Z)
    (supportedFeeTiers : list Z)
| ConfigurePool (pool fee minLiquidity : Z) (dexName : string)
| ConfigureToken (token maxAmount minAmount decimals : Z)
| ExecuteFlashLoanArbitrage (blockTimestamp blockNumber : Z)
    (sourceToken targetToken amount : Z)
    (firstSwapData secondSwapData : string)
    (firstRouter secondRouter : Z) (testMode : bool)
    (expectedFirstOutput expectedSecondOutput : Z) (w : LoanWorld C)
| ReceiveFlashLoan (amounts feeAmounts : list Z) (userData : string)
    (w : CallbackWorld C)
| ExecuteArbitrageWrapper (params : ArbitrageParams) (w : EngineWorld C)
| EmergencyWithdraw (token : Z) (w : WithdrawWorld C)
| WithdrawFunds (token amount : Z) (w : WithdrawWorld C)
| Pause
| Unpause
| TriggerCircuitBreaker (reason : string)
| SetTokenEnabled (token : Z) (isEnabled : bool)
| SetDexEnabled (dexName : string) (isEnabled : bool)
| ApproveRouter (token router amount : Z) (w : ApproveWorld C)
| SetRouterAddresses (uni joe : Z)
| TransferOwnership (newOwner : Z)
| RenounceOwnership
| Fallback.

Inductive Ret : Type :=
| RetUnit
| RetUint (v : Z)
| RetInt (v : Z)
| RetBool (b : bool).

Definition returning {A} (f : A -> Ret) (m : M A) : M Ret :=
  let* a := m in ret (f a).

Definition dispatch (sender : Z) (op : Op) : M Ret :=
  match op with
  | ConfigureDex dexName router defaultFee maxGasUsage supportedFeeTiers =>
      returning (fun _ => RetUnit)
        (configureDex sender dexName router defaultFee maxGasUsage
           supportedFeeTiers)
  | ConfigurePool pool fee minLiquidity dexName =>
      returning (fun _ => RetUnit)
        (configurePool sender pool fee minLiquidity dexName)
  | ConfigureToken token maxAmount minAmount decimals =>
      returning (fun _ => RetUnit)
        (configureToken sender token maxAmount minAmount decimals)
  | ExecuteFlashLoanArbitrage blockTimestamp blockNumber sourceToken
      targetToken amount firstSwapData secondSwapData firstRouter
      secondRouter testMode expectedFirstOutput expectedSecondOutput w =>
      returning RetUint
        (executeFlashLoanArbitrage sender blockTimestamp blockNumber
           sourceToken targetToken amount firstSwapData secondSwapData
           firstRouter secondRouter testMode expectedFirstOutput
           expectedSecondOutput w)
  | ReceiveFlashLoan amounts feeAmounts userData w =>
      returning (fun _ => RetUnit)
        (receiveFlashLoan sender amounts feeAmounts userData w)
  | ExecuteArbitrageWrapper params w =>
      returning RetInt (executeArbitrageWrapper sender params w)
  | EmergencyWithdraw token w =>
      returning RetBool (emergencyWithdraw sender token w)
  | WithdrawFunds token amount w =>
      returning RetBool (withdrawFunds sender token amount w)
  | Pause => returning (fun _ => RetUnit) (pause sender)
  | Unpause => returning (fun _ => RetUnit) (unpause sender)
  | TriggerCircuitBreaker reason =>
      returning (fun _ => RetUnit) (triggerCircuitBreaker sender reason)
  | SetTokenEnabled token isEnabled =>
      returning (fun _ => RetUnit) (setTokenEnabled sender token isEnabled)
  | SetDexEnabled dexName isEnabled =>
      returning (fun _ => RetUnit) (setDexEnabled sender dexName isEnabled)
  | ApproveRouter token router amount w =>
      returning (fun _ => RetUnit) (approveRouter sender token router amount w)
  | SetRouterAddresses uni joe =>
      returning (fun _ => RetUnit) (setRouterAddresses sender uni joe)
  | TransferOwnership newOwner =>
      returning (fun _ => RetUnit) (transferOwnership sender newOwner)
  | RenounceOwnership => returning (fun _ => RetUnit) (renounceOwnership sender)
  | Fallback => returning (fun _ => RetUnit) fallback
  end.

End Body.

Arguments Op : clear implicits.

(** *** Calls made back into the contract

    Another contract that is called may call any entry point, from any
    address, any number of times, and those calls may themselves lead to
    external calls that are called back into.  [Calls n] are the call lists
    nested at most [n] deep; a call that reverts leaves no trace, one that
    returns leaves its changes. *)

Fixpoint Calls (n : nat) : Type :=
  match n with
  | O => unit
  | S n' => list (Z * Op (Calls n'))
  end.

Fixpoint reenterWith {D : Type} (run : Z -> Op D -> M Ret)
    (calls : list (Z * Op D)) (s : State) (t : Trace) : State * Trace :=
  match calls with
  | [] => (s, t)
  | (sender, op) :: rest =>
      match run sender op s t with
      | Ok _ s' t' => reenterWith run rest s' t'
      | Revert _ _ => reenterWith run rest s t
      end
  end.

Fixpoint reenterAt (n : nat) : Calls n -> State -> Trace -> State * Trace :=
  match n with
  | O => fun _ s t => (s, t)
  | S n' => reenterWith (dispatch (reenterAt n'))
  end.

(** A call of an entry point by [sender], with calls back nested at most
    [n] deep. *)
Definition exec (n : nat) (sender : Z) (op : Op (Calls n)) : M Ret :=
  dispatch (reenterAt n) sender op.

(** A transaction: the call, started with an empty log.  A revert leaves
    the storage as it was and no log. *)
Definition transact (n : nat) (sender : Z) (op : Op (Calls n)) (s : State)
  : State * Trace * (Ret + Error) :=
  match exec n sender op s [] with
  | Ok r s' t' => (s', t', inl r)
  | Revert e _ => (s, [], inr e)
  end.

End Chain.

Arguments Op : clear implicits.

(** ** Deployment and views *)

(** The constructor: the vault address must not be zero; the deployer
    becomes the owner. *)
Definition deploy (deployer _balancerVaultAddress : Z) : State + Error :=
  if _balancerVaultAddress =? 0 then inr InvalidVaultAddress
  else inl (mkState deployer false false _balancerVaultAddress 0 0
              ∅ ∅ ∅ ∅ ∅ ∅ zeroMetrics).

Definition getDexConfig (s : State) (dexName : string) : Z * Z * Z * bool :=
  let config := dexConfigOf s dexName in
  (dex_router config, dex_defaultFee config, dex_maxGasUsage config,
   dex_isEnabled config).

Definition getPoolConfig (s : State) (pool : Z) : bool * Z * Z * Z :=
  let config := poolConfigOf s pool in
  (pool_isEnabled config, pool_fee config, pool_minLiquidity config,
   pool_dexRouter config).

Definition getTokenConfig (s : State) (token : Z) : bool * Z * Z * Z :=
  let config := tokenConfigOf s token in
  (token_isEnabled config, token_maxAmount config, token_minAmount config,
   token_decimals config).

Definition isDexFeeTierSupported (s : State) (dexName : string) (feeTier : Z)
  : bool :=
  bool_decide (feeTier ∈ dex_supportedFees (dexConfigOf s dexName)).

Definition getTradeContext (s : State) (id : Z)
  : Z * Z * Z * Z * Z * Z * bool :=
  let context := tradeContextOf s id in
  (tradeInputAmount context, tradeFinalBalance context,
   expectedFirstLegOutput context, actualFirstLegOutput context,
   tc_expectedSecondOutput context, actualSecondOutput context,
   executed context).

(** [getContractStats]: a view, so it only reads storage; the product
    [successfulTrades * 10000] is checked like every [uint256] product. *)
Definition getContractStats : M (Z * Z * Z * Z * Z) :=
  let* s := get in
  let totalTrades := totalExecutions (metrics s) in
  let successfulTrades := successfulExecutions (metrics s) in
  let failedTrades :=
    if successfulExecutions (metrics s) <? totalExecutions (metrics s) then
      totalExecutions (metrics s) - successfulExecutions (metrics s)
    else 0 in
  let* successRate :=
    if 0 <? totalTrades then
      let* scaled := checkedMul successfulTrades 10000 in
      ret (scaled / totalTrades)
    else ret 0 in
  let cumulativeProfit := totalProfit (metrics s) in
  ret (totalTrades, successfulTrades, failedTrades, successRate,
       cumulativeProfit).

(** ** Vocabulary of the properties *)

(** Clamping to the [int256] range. *)
Definition saturate (v : Z) : Z :=
  if MAX_INT256 <? v then MAX_INT256
  else if v <? MIN_INT256 then MIN_INT256
  else v.

(** What a log entry says was added to [metrics.totalProfit]: the positive
    part of the profit of an [ArbitrageExecuted] event. *)
Definition tradeGain (a : Action) : Z :=
  match a with
  | Emit (ArbitrageExecuted _ _ _ _ _ tradeProfit _ _) => Z.max 0 tradeProfit
  | _ => 0
  end.

(** What a log entry says was added to [metrics.flashLoanProfit]: the
    positive part of the profit of a completed (type 2) [FlashLoanEvent]. *)
Definition loanGain (a : Action) : Z :=
  match a with
  | Emit (FlashLoanEvent _ eventType _ _ feeOrProfit) =>
      if eventType =? 2 then Z.max 0 feeOrProfit else 0
  | _ => 0
  end.

Fixpoint gains (g : Action -> Z) (l : Trace) : Z :=
  match l with
  | [] => 0
  | a :: l' => g a + gains g l'
  end.

Definition isArbitrageExecuted (a : Action) : bool :=
  match a with
  | Emit (ArbitrageExecuted _ _ _ _ _ _ _ _) => true
  | _ => false
  end.

(** [Evolves dT dF s t s' t']: from storage [s] and log [t] a computation
    arrived at [s'] and [t'].  The log only grew; the two profit counters
    moved by what the new log entries account for, plus [dT] and [dF] not
    yet logged; no execution id was unmarked. *)
Definition Evolves (dT dF : Z) (s : State) (t : Trace) (s' : State)
    (t' : Trace) : Prop :=
  exists l,
    t' = t ++ l /\
    totalProfit (metrics s') =
      totalProfit (metrics s) + gains tradeGain l + dT /\
    flashLoanProfit (metrics s') =
      flashLoanProfit (metrics s) + gains loanGain l + dF /\
    executedTrades s ⊆ executedTrades s'.

Definition shifts {A} (dT dF : Z) (m : M A) : Prop :=
  forall s t a s' t', m s t = Ok a s' t' -> Evolves dT dF s t s' t'.

(** A computation that leaves storage alone. *)
Definition readonly {A} (m : M A) : Prop :=
  forall s t a s' t', m s t = Ok a s' t' -> s' = s.

(** A piece of log without an [ArbitrageExecuted] event. *)
Definition nolog (l : Trace) : bool :=
  forallb (fun x => negb (isArbitrageExecuted x)) l.

(** A computation that never fails, leaves storage alone and logs no
    [ArbitrageExecuted] event. *)
Definition silent {A} (m : M A) : Prop :=
  forall s t, exists a l, m s t = Ok a s (t ++ l) /\ nolog l = true.

(** The storage a failed flash-loan request leaves: the two failure
    counters are one higher and the context of the request is deleted. *)
Definition afterFailedLoan (id : Z) (s : State) : State :=
  set_flashLoanContexts (delete id (flashLoanContexts s))
    (updMetrics
       (fun m =>
          set_flashLoanExecutions (flashLoanExecutions m + 1)
            (set_flashLoanFailed (flashLoanFailed m + 1) m)) s).

(** Every value the computation can return satisfies [P]. *)
Definition yields {A} (P : A -> Prop) (m : M A) : Prop :=
  forall s t x s' t', m s t = Ok x s' t' -> P x.

(** A sequence of transactions, each committed or rolled back. *)
Fixpoint runAll (this : Z) (keccak : Z -> Z -> Z -> Z -> Z -> Z -> Z -> Z -> Z)
    (enc : Error -> string) (n : nat) (txs : list (Z * Op (Calls n)))
    (s : State) : State :=
  match txs with
  | [] => s
  | (sender, op) :: rest =>
      runAll this keccak enc n rest
        (fst (fst (transact this keccak enc n sender op s)))
  end.


(** ** A concrete deployment

    The contract at address 100, deployed by account 1 with the vault at
    address 9; token 5 is configured.  The hash and the encoding of revert
    payloads are stand-ins: the properties below hold for every choice of
    them.  The worlds have no calls back into the contract ([Calls 0]). *)

Definition exThis : Z := 100.
Definition exOwner : Z := 1.
Definition exVault : Z := 9.
Definition exKeccak (sourceToken targetToken amount firstRouter secondRouter
    blockTimestamp blockNumber sender : Z) : Z := 77.
Definition exEncode (e : Error) : string := "".

Definition exState : State :=
  mkState exOwner false false exVault 0 0 ∅ ∅
    {[ 5 := mkTokenConfig true 1000000 1 18 ]} ∅ ∅ ∅ zeroMetrics.

Definition exReturns : External (Calls 0) := mkExternal tt (Returned "").
Definition exReverts : External (Calls 0) :=
  mkExternal tt (Reverted (RawRevert "")).
Definition exApprove : ApproveWorld (Calls 0) :=
  mkApproveWorld exReturns exReturns exReturns.

(** Source token 5, target token 6, 100 units in, test mode off. *)
Definition exParams : ArbitrageParams :=
  mkArbitrageParams 5 6 100 "" "" 11 12 false 50 105 77.

(** Both swaps go through; the balance of the source token goes from 1000
    to [final]. *)
Definition exTrade (final : Z) : EngineWorld (Calls 0) :=
  mkEngineWorld 1000 0 0 exApprove exReturns 50 MAX_UINT256 exApprove
    exReturns final.

(** The first swap reverts. *)
Definition exFirstSwapFails : EngineWorld (Calls 0) :=
  mkEngineWorld 1000 0 0 exApprove exReverts 50 MAX_UINT256 exApprove
    exReturns 1005.

(** The vault reverts the flash loan with a reason string. *)
Definition exLoanFails : LoanWorld (Calls 0) :=
  mkLoanWorld 1000 (mkExternal tt (Reverted (ErrorString "BAL#515"))) 1000.

(** Storage after a profitable run of the engine for [exParams]. *)
Definition exAfterTrade : State :=
  match
    executeArbitrageWrapper exThis exEncode (reenterAt exThis exKeccak exEncode 0)
      exThis exParams (exTrade 1005) exState []
  with
  | Ok _ s _ => s
  | Revert _ _ => exState
  end.

(** The vault fails with an arithmetic panic, and with other revert data. *)
Definition exLoanPanics : LoanWorld (Calls 0) :=
  mkLoanWorld 1000 (mkExternal tt (Reverted (Panic 17))) 1000.
Definition exLoanRawFailure : LoanWorld (Calls 0) :=
  mkLoanWorld 1000 (mkExternal tt (Reverted (RawRevert "oops"))) 1000.

(** The router of the first example of the specification. *)
Definition ROUTER_A : Z := 160.

(** A whole flash loan: the request of account 2 in block 10 at time 1000,
    for 100 units of token 5 against token 6.  The vault lends, calls
    [receiveFlashLoan] with the execution id as user data, and returns; the
    engine meets the world [trade]; the contract holds enough to repay, and
    the token's [transfer] answers [true]. *)
Definition exCallback (trade : EngineWorld (Calls 0)) : CallbackWorld (Calls 0) :=
  mkCallbackWorld trade 1100 exReturns
    (mkExternal tt (Returned (abiEncodeWord 1))).

Definition exLoanRequest (trade : EngineWorld (Calls 0)) : Op (Calls 1) :=
  ExecuteFlashLoanArbitrage 1000 10 5 6 100 "" "" 11 12 false 50 105
    (mkLoanWorld 1000
       (mkExternal
          [(exVault, ReceiveFlashLoan [100] [0] (abiEncodeWord 77)
                       (exCallback trade))]
          (Returned ""))
       1005).

(** Storage after that request when the first swap reverts, and after the
    same request is then made again in the same block and both swaps go
    through. *)
Definition exAfterFailedAttempt : State :=
  fst (fst (transact exThis exKeccak exEncode 1 2
              (exLoanRequest exFirstSwapFails) exState)).
Definition exAfterSecondAttempt : State :=
  fst (fst (transact exThis exKeccak exEncode 1 2
              (exLoanRequest (exTrade 1005)) exAfterFailedAttempt)).

(** [exParams] with test mode on. *)
Definition exTestParams : ArbitrageParams :=
  mkArbitrageParams 5 6 100 "" "" 11 12 true 50 105 77.

(** The first swap goes through and brings no target token. *)
Definition exNothingReceived : EngineWorld (Calls 0) :=
  mkEngineWorld 1000 40 MAX_UINT256 exApprove exReturns 40 MAX_UINT256
    exApprove exReturns 1005.

(** ** Vocabulary of the further properties *)

(** [keeps R m]: whenever [m] returns, the storage it leaves is related by
    [R] to the storage it started from. *)
Definition keeps {A} (R : State -> State -> Prop) (m : M A) : Prop :=
  forall s t a s' t', m s t = Ok a s' t' -> R s s'.

(** What every call leaves alone or only raises.  The vault address and
    the reentrancy flag are as before; [metrics.failedExecutions] is as
    before; no counter went down; [successfulExecutions] rose by at most
    what [totalExecutions] rose by, plus [k]; the flash-loan requests
    counted rose by the successes and failures counted, plus [j].  In the
    middle of a function [k] and [j] say which of two paired increments
    has been made; between calls they are 0. *)
Definition Tally (k j : Z) (s s' : State) : Prop :=
  balancerVault s' = balancerVault s /\
  entered s' = entered s /\
  failedExecutions (metrics s') = failedExecutions (metrics s) /\
  totalExecutions (metrics s) <= totalExecutions (metrics s') /\
  successfulExecutions (metrics s) <= successfulExecutions (metrics s') /\
  successfulExecutions (metrics s') - successfulExecutions (metrics s) <=
    totalExecutions (metrics s') - totalExecutions (metrics s) + k /\
  flashLoanSuccessful (metrics s) <= flashLoanSuccessful (metrics s') /\
  flashLoanFailed (metrics s) <= flashLoanFailed (metrics s') /\
  flashLoanExecutions (metrics s') - flashLoanExecutions (metrics s) =
    (flashLoanSuccessful (metrics s') - flashLoanSuccessful (metrics s)) +
    (flashLoanFailed (metrics s') - flashLoanFailed (metrics s)) + j.

(** The settings only the owner [o] can change: if [o] owns the contract
    before, it owns it after, and the pause flag, the two router addresses
    and the configuration of DEXes, pools and tokens are as before. *)
Definition Settings (o : Z) (s s' : State) : Prop :=
  owner s = o ->
  owner s' = o /\
  paused s' = paused s /\
  uniswapRouterAddress s' = uniswapRouterAddress s /\
  traderJoeRouterAddress s' = traderJoeRouterAddress s /\
  dexConfigs s' = dexConfigs s /\
  poolConfigs s' = poolConfigs s /\
  tokenConfigs s' = tokenConfigs s.

(** The entry points that carry the [onlyOwner] modifier. *)
Definition ownerOnly {C} (op : Op C) : bool :=
  match op with
  | ExecuteFlashLoanArbitrage _ _ _ _ _ _ _ _ _ _ _ _ _
  | ReceiveFlashLoan _ _ _ _
  | ExecuteArbitrageWrapper _ _
  | Fallback => false
  | _ => true
  end.

(** The calls made back into the contract that a world allows for. *)
Definition approveReentries {C} (w : ApproveWorld C) : list C :=
  [reentry (w_directApprove w); reentry (w_resetApprove w);
   reentry (w_retryApprove w)].

Definition engineReentries {C} (w : EngineWorld C) : list C :=
  approveReentries (w_approveFirst w) ++ [reentry (w_firstSwap w)] ++
  approveReentries (w_approveSecond w) ++ [reentry (w_secondSwap w)].

Definition reentries {C} (op : Op C) : list C :=
  match op with
  | ExecuteFlashLoanArbitrage _ _ _ _ _ _ _ _ _ _ _ _ w =>
      [reentry (w_flashLoan w)]
  | ReceiveFlashLoan _ _ _ w =>
      engineReentries (w_engine w) ++
      [reentry (w_transferFrom w); reentry (w_transfer w)]
  | ExecuteArbitrageWrapper _ w => engineReentries w
  | EmergencyWithdraw _ w => [reentry (w_safeTransfer w)]
  | WithdrawFunds _ _ w => [reentry (w_safeTransfer w)]
  | ApproveRouter _ _ _ w => approveReentries w
  | _ => []
  end.

(** Call lists in which no call, at any depth, is sent by [o]. *)
Fixpoint strangers (o : Z) (n : nat) : Calls n -> bool :=
  match n with
  | O => fun _ => true
  | S n' =>
      forallb (fun call : Z * Op (Calls n') =>
                 negb (fst call =? o) &&
                 forallb (strangers o n') (reentries (snd call)))
  end.

(** A contract deployed by account 1 with the vault at address 9 is
    [exState] without its token. *)
Definition exDeployed : State :=
  mkState exOwner false false exVault 0 0 ∅ ∅ ∅ ∅ ∅ ∅ zeroMetrics.

(** Two transactions: the owner configures token 5, then account 2 makes
    the flash-loan request of [exLoanRequest], which goes through. *)
Definition exHistory : list (Z * Op (Calls 1)) :=
  [(exOwner, ConfigureToken 5 1000000 1 18);
   (2, exLoanRequest (exTrade 1005))].

(** [raises P m]: every error [m] can fail with satisfies [P]. *)
Definition raises {A} (P : Error -> Prop) (m : M A) : Prop :=
  forall s t e t', m s t = Revert e t' -> P e.

(** The errors [executeFlashLoanArbitrage] can fail with: those of its
    two modifiers, those of its four validations, and the overflow of a
    counter. *)
Definition loanRequestErrors : list Error :=
  [ErrorString "ReentrancyGuard: reentrant call";
   ErrorString "Pausable: paused";
   InvalidTokens; ZeroAmount; InvalidVaultAddress; DisabledToken; Panic 17].

(** [convertUniswapFeeToContractFee] of scripts/deployWithHardhat.js,
    [Math.floor(uniswapFee / 100)]: a Uniswap fee, in hundredths of a basis
    point, as the basis points the contract counts in. *)
Definition convertUniswapFeeToContractFee (uniswapFee : Z) : Z :=
  uniswapFee / 100.

(** The fee tiers of Uniswap the script converts ([POOL_FEES] of
    src/constants.js). *)
Definition POOL_FEES : list Z := [100; 500; 3000; 10000].

(** Storage in which the request of [exLoanRequest] has been stored and is
    waiting for its callback. *)
Definition exPending : State :=
  set_flashLoanContexts {[ 77 := exParams ]} exState.

(** The vault lends and returns without calling back. *)
Definition exLoanGranted : LoanWorld (Calls 0) :=
  mkLoanWorld 1000 (mkExternal tt (Returned "")) 1005.

(** A token whose [approve] answers [false], also when called again after
    a reset that reverts. *)
Definition exRefusedApprove : ApproveWorld (Calls 0) :=
  mkApproveWorld (mkExternal tt (Returned (abiEncodeWord 0))) exReverts
    (mkExternal tt (Returned (abiEncodeWord 0))).

(** The contract holds nothing of the token to withdraw; it holds 40 and
    the token's [transfer] answers [false]. *)
Definition exNothingHeld : WithdrawWorld (Calls 0) :=
  mkWithdrawWorld 0 exReturns.
Definition exTransferRefused : WithdrawWorld (Calls 0) :=
  mkWithdrawWorld 40 (mkExternal tt (Returned (abiEncodeWord 0))).

(** Storage in which the owner has configured the DEX "uniswap" with the
    router [ROUTER_A] and the fee tier 30. *)
Definition exWithDex : State :=
  match configureDex exOwner "uniswap" ROUTER_A 30 3000000 [30] exState [] with
  | Ok _ s _ => s
  | Revert _ _ => exState
  end.

(** Reading decimal text back: the number a string of decimal digits
    stands for, with an optional leading minus sign for [parseInt]. *)
Definition digitOf (c : ascii) : option Z :=
  if (48 <=? valueOf c) && (valueOf c <=? 57) then Some (valueOf c - 48)
  else None.

Fixpoint parseDigits (acc : Z) (d : string) : option Z :=
  match d with
  | EmptyString => Some acc
  | String c d' =>
      match digitOf c with
      | Some v => parseDigits (acc * 10 + v) d'
      | None => None
      end
  end.

Definition parseUint (d : string) : option Z :=
  match d with
  | EmptyString => None
  | _ => parseDigits 0 d
  end.

Definition parseInt (d : string) : option Z :=
  match d with
  | String c d' =>
      if Ascii.eqb c "-" then option_map Z.opp (parseUint d')
      else parseUint d
  | EmptyString => None
  end.

(** What holds of every entry of the registry: a DEX has a router and
    only fee tiers below 100%; a pool is enabled, with a fee below 100% and
    a router; a token has [minAmount < maxAmount] and at most 18
    decimals. *)
Definition WellFormed (s : State) : Prop :=
  (forall name c,
     dexConfigs s !! name = Some c ->
     dex_router c <> 0 /\
     forall fee, fee ∈ dex_supportedFees c -> fee < MAX_BPS) /\
  (forall pool c,
     poolConfigs s !! pool = Some c ->
     pool_isEnabled c = true /\ pool_fee c < MAX_BPS /\
     pool_dexRouter c <> 0) /\
  (forall token c,
     tokenConfigs s !! token = Some c ->
     token_minAmount c < token_maxAmount c /\ token_decimals c <= 18).

Definition StaysWellFormed (s s' : State) : Prop :=
  WellFormed s -> WellFormed s'.
(** ** Reasoning about the monad *)

Lemma bind_ok {A B} (m : M A) (f : A -> M B) s t b s' t' :
  bind m f s t = Ok b s' t' <->
  exists a s1 t1, m s t = Ok a s1 t1 /\ f a s1 t1 = Ok b s' t'.
Proof.
  unfold bind. destruct (m s t) as [a s1 t1 | e t1]; split.
  - intros H. eauto.
  - intros (a' & s2 & t2 & Heq & H). inversion Heq; subst. exact H.
  - discriminate.
  - intros (a' & s2 & t2 & Heq & _). discriminate.
Qed.

Lemma bind_eq_ok {A B} (m : M A) (f : A -> M B) s t a s1 t1 :
  m s t = Ok a s1 t1 -> bind m f s t = f a s1 t1.
Proof. unfold bind. intros ->. reflexivity. Qed.

Lemma gains_app g l1 l2 : gains g (l1 ++ l2) = gains g l1 + gains g l2.
Proof. induction l1 as [|a l1 IH]; simpl; [reflexivity | rewrite IH; lia]. Qed.

Lemma gains_nonneg g l : (forall a, 0 <= g a) -> 0 <= gains g l.
Proof.
  intros Hg. induction l as [|a l IH]; simpl; [lia | specialize (Hg a); lia].
Qed.

Lemma tradeGain_nonneg a : 0 <= tradeGain a.
Proof. destruct a as [[]|]; simpl; lia. Qed.

Lemma loanGain_nonneg a : 0 <= loanGain a.
Proof. destruct a as [[]|]; simpl; try lia. destruct (_ =? _); lia. Qed.

Lemma Evolves_refl s t : Evolves 0 0 s t s t.
Proof.
  exists []. rewrite app_nil_r. simpl. repeat split; try lia; set_solver.
Qed.

Lemma Evolves_trans a b c d s t s1 t1 s2 t2 :
  Evolves a b s t s1 t1 -> Evolves c d s1 t1 s2 t2 ->
  Evolves (a + c) (b + d) s t s2 t2.
Proof.
  intros (l1 & -> & H1 & H2 & H3) (l2 & -> & H4 & H5 & H6).
  exists (l1 ++ l2). rewrite app_assoc, !gains_app.
  repeat split; try lia. set_solver.
Qed.

Lemma Evolves_step s t s1 t1 s2 t2 :
  Evolves 0 0 s t s1 t1 -> Evolves 0 0 s1 t1 s2 t2 -> Evolves 0 0 s t s2 t2.
Proof.
  intros H1 H2. replace 0 with (0 + 0) by lia. eapply Evolves_trans; eauto.
Qed.

Lemma shifts_eq {A} a b c d (m : M A) :
  shifts a b m -> a = c -> b = d -> shifts c d m.
Proof. intros H -> ->. exact H. Qed.

Lemma shifts_ret {A} (a : A) : shifts 0 0 (ret a).
Proof. intros s t a' s' t' H. inversion H; subst. apply Evolves_refl. Qed.

Lemma shifts_revert {A} dT dF (e : Error) : shifts dT dF (@revert A e).
Proof. intros s t a' s' t' H. discriminate. Qed.

Lemma shifts_get : shifts 0 0 get.
Proof. intros s t a' s' t' H. inversion H; subst. apply Evolves_refl. Qed.

Lemma shifts_logCall target method : shifts 0 0 (logCall target method).
Proof.
  intros s t a' s' t' H. inversion H; subst.
  exists [CallTo target method]. simpl. repeat split; try lia; set_solver.
Qed.

Lemma shifts_emit ev :
  shifts (- tradeGain (Emit ev)) (- loanGain (Emit ev)) (emit ev).
Proof.
  intros s t a' s' t' H. inversion H; subst.
  exists [Emit ev]. cbn [gains]. repeat split; try lia; set_solver.
Qed.

Lemma shifts_emit_quiet ev :
  tradeGain (Emit ev) = 0 -> loanGain (Emit ev) = 0 -> shifts 0 0 (emit ev).
Proof. intros H1 H2. eapply shifts_eq; [apply shifts_emit | lia | lia]. Qed.

Lemma shifts_modify (f : State -> State) :
  (forall s, totalProfit (metrics (f s)) = totalProfit (metrics s)) ->
  (forall s, flashLoanProfit (metrics (f s)) = flashLoanProfit (metrics s)) ->
  (forall s, executedTrades s ⊆ executedTrades (f s)) ->
  shifts 0 0 (modify f).
Proof.
  intros H1 H2 H3 s t a' s' t' H. inversion H; subst.
  exists []. rewrite app_nil_r. simpl. rewrite H1, H2.
  repeat split; try lia. apply H3.
Qed.

Lemma shifts_bind {A B} a b c d (m : M A) (f : A -> M B) :
  shifts a b m -> (forall x, shifts c d (f x)) ->
  shifts (a + c) (b + d) (bind m f).
Proof.
  intros Hm Hf s t r s' t'. unfold bind.
  destruct (m s t) as [x s1 t1|] eqn:E; [|discriminate].
  intros H. eapply Evolves_trans; [eapply Hm; eauto | eapply Hf; eauto].
Qed.

(** The same, when what [m] returned restricts how [f] may continue. *)
Lemma shifts_bind_post {A B} (P : A -> Prop) a b c d (m : M A)
    (f : A -> M B) :
  shifts a b m ->
  (forall s t x s' t', m s t = Ok x s' t' -> P x) ->
  (forall x, P x -> shifts c d (f x)) ->
  shifts (a + c) (b + d) (bind m f).
Proof.
  intros Hm HP Hf s t r s' t'. unfold bind.
  destruct (m s t) as [x s1 t1|] eqn:E; [|discriminate].
  intros H. eapply Evolves_trans; [eapply Hm; eauto | eapply Hf; eauto].
Qed.

Lemma shifts_bind0 {A B} (m : M A) (f : A -> M B) :
  shifts 0 0 m -> (forall x, shifts 0 0 (f x)) -> shifts 0 0 (bind m f).
Proof. intros. eapply shifts_eq; [apply shifts_bind; eauto | lia | lia]. Qed.

Lemma shifts_checkedAdd a b : shifts 0 0 (checkedAdd a b).
Proof.
  unfold checkedAdd. destruct (_ <=? _); [apply shifts_ret | apply shifts_revert].
Qed.

Lemma shifts_checkedInt v : shifts 0 0 (checkedInt v).
Proof.
  unfold checkedInt. destruct (_ && _); [apply shifts_ret | apply shifts_revert].
Qed.

Lemma shifts_tryCall {A} (m : M A) : shifts 0 0 m -> shifts 0 0 (tryCall m).
Proof.
  intros Hm s t r s' t'. unfold tryCall.
  destruct (m s t) as [x s1 t1|] eqn:E; intros H; inversion H; subst.
  - eapply Hm; eauto.
  - apply Evolves_refl.
Qed.

Lemma shifts_bump_quiet field setter d :
  (forall v m, totalProfit (setter v m) = totalProfit m) ->
  (forall v m, flashLoanProfit (setter v m) = flashLoanProfit m) ->
  shifts 0 0 (bump field setter d).
Proof.
  intros H1 H2. unfold bump.
  apply shifts_bind0; [apply shifts_get | intros s0].
  apply shifts_bind0; [apply shifts_checkedAdd | intros v].
  apply shifts_modify; intros s; cbn; [apply H1 | apply H2 | set_solver].
Qed.

Lemma shifts_bump_totalProfit d :
  shifts d 0 (bump totalProfit set_totalProfit d).
Proof.
  intros s t a s' t'. unfold bump, bind, get, checkedAdd, modify.
  destruct (_ <=? _); cbn; [|discriminate].
  intros H; inversion H; subst. exists []. rewrite app_nil_r. cbn.
  repeat split; try lia; set_solver.
Qed.

Lemma shifts_bump_flashLoanProfit d :
  shifts 0 d (bump flashLoanProfit set_flashLoanProfit d).
Proof.
  intros s t a s' t'. unfold bump, bind, get, checkedAdd, modify.
  destruct (_ <=? _); cbn; [|discriminate].
  intros H; inversion H; subst. exists []. rewrite app_nil_r. cbn.
  repeat split; try lia; set_solver.
Qed.

(** One step of a proof that a computation neither moves the profit
    counters unaccounted nor unmarks an execution id. *)
Ltac quiet_step :=
  first
    [ apply shifts_ret | apply shifts_revert | apply shifts_get
    | apply shifts_logCall | apply shifts_checkedAdd | apply shifts_checkedInt
    | apply shifts_emit_quiet; reflexivity
    | apply shifts_bump_quiet; reflexivity
    | apply shifts_modify;
      [ intros ?; reflexivity | intros ?; reflexivity | intros ?; cbn; set_solver ]
    | apply shifts_bind0; [ | intros ? ]
    | apply shifts_tryCall
    | match goal with
      | |- shifts _ _ (if ?b then _ else _) => destruct b
      | |- shifts _ _ (match ?x with _ => _ end) => destruct x
      end ].

(** ** Running a computation step by step *)

Lemma run_assoc {A B D} (m : M A) (f : A -> M B) (g : B -> M D) s t :
  bind (bind m f) g s t = bind m (fun x => bind (f x) g) s t.
Proof. unfold bind. destruct (m s t); reflexivity. Qed.

Lemma run_ret {A B} (a : A) (f : A -> M B) s t : bind (ret a) f s t = f a s t.
Proof. reflexivity. Qed.

Lemma run_get {B} (f : State -> M B) s t : bind get f s t = f s s t.
Proof. reflexivity. Qed.

Lemma run_modify {B} (g : State -> State) (f : unit -> M B) s t :
  bind (modify g) f s t = f tt (g s) t.
Proof. reflexivity. Qed.

Lemma run_emit {B} ev (f : unit -> M B) s t :
  bind (emit ev) f s t = f tt s (t ++ [Emit ev]).
Proof. reflexivity. Qed.

Lemma run_logCall {B} target method (f : unit -> M B) s t :
  bind (logCall target method) f s t = f tt s (t ++ [CallTo target method]).
Proof. reflexivity. Qed.

Lemma run_staticcall {B} target method v (f : Z -> M B) s t :
  bind (staticcall target method v) f s t =
    f v s (t ++ [CallTo target method]).
Proof. reflexivity. Qed.

Lemma run_revert {A B} e (f : A -> M B) s t :
  bind (revert e) f s t = Revert e t.
Proof. reflexivity. Qed.

Lemma run_external_reverted {C B}
    (reenter : C -> State -> Trace -> State * Trace) target method x e
    (f : Outcome -> M B) s t :
  outcome x = Reverted e ->
  bind (external reenter target method x) f s t =
    f (Reverted e) s (t ++ [CallTo target method]).
Proof. intros H. unfold bind, external. rewrite H. reflexivity. Qed.

Lemma run_external_returned {C B}
    (reenter : C -> State -> Trace -> State * Trace) target method x data
    (f : Outcome -> M B) s t :
  outcome x = Returned data ->
  bind (external reenter target method x) f s t =
    f (Returned data)
      (fst (reenter (reentry x) s (t ++ [CallTo target method])))
      (snd (reenter (reentry x) s (t ++ [CallTo target method]))).
Proof.
  intros H. unfold bind, external. rewrite H.
  destruct (reenter _ _ _). reflexivity.
Qed.

(** The storage projections of an updated storage. *)
Ltac storage :=
  cbn [owner paused entered balancerVault uniswapRouterAddress
       traderJoeRouterAddress dexConfigs poolConfigs tokenConfigs
       executedTrades tradeContexts flashLoanContexts metrics
       set_owner set_paused set_entered set_routers set_dexConfigs
       set_poolConfigs set_tokenConfigs set_executedTrades set_tradeContexts
       set_flashLoanContexts set_metrics updDex updToken updTrade updMetrics].

(** One step of a run: the head of the computation is a primitive. *)
Ltac run_step :=
  first
    [ rewrite run_assoc
    | rewrite run_ret
    | rewrite run_get
    | rewrite run_modify
    | rewrite run_emit
    | rewrite run_logCall
    | rewrite run_staticcall
    | rewrite run_revert ].
Ltac run := repeat run_step.

(** ** The arithmetic blocks and the second half of the engine *)

Lemma calcTradeProfit_value id fin ini s t :
  exists stage data,
    calcTradeProfit id fin ini s t =
      Ok (saturate (fin - ini)) s (t ++ [Emit (StateLog id stage data)]).
Proof.
  unfold calcTradeProfit, saturate, negInt, checkedInt, MAX_INT256, MIN_INT256.
  destruct (ini <=? fin) eqn:Hle.
  - apply Z.leb_le in Hle.
    destruct (2 ^ 255 - 1 <? fin - ini) eqn:Hov.
    + do 2 eexists. reflexivity.
    + apply Z.ltb_ge in Hov.
      assert ((fin - ini <? - 2 ^ 255) = false) as -> by (apply Z.ltb_ge; lia).
      do 2 eexists. reflexivity.
  - apply Z.leb_gt in Hle.
    destruct (2 ^ 255 - 1 <? ini - fin) eqn:Hov.
    + apply Z.ltb_lt in Hov.
      assert ((2 ^ 255 - 1 <? fin - ini) = false) as -> by (apply Z.ltb_ge; lia).
      destruct (fin - ini <? - 2 ^ 255) eqn:Hlt.
      * do 2 eexists. reflexivity.
      * apply Z.ltb_ge in Hlt. replace (fin - ini) with (- 2 ^ 255) by lia.
        do 2 eexists. reflexivity.
    + apply Z.ltb_ge in Hov.
      assert ((2 ^ 255 - 1 <? fin - ini) = false) as -> by (apply Z.ltb_ge; lia).
      assert ((fin - ini <? - 2 ^ 255) = false) as -> by (apply Z.ltb_ge; lia).
      unfold bind.
      assert ((- 2 ^ 255 <=? - (ini - fin)) && (- (ini - fin) <=? 2 ^ 255 - 1) = true) as ->.
      { apply andb_true_iff; split; apply Z.leb_le; lia. }
      replace (- (ini - fin)) with (fin - ini) by lia.
      do 2 eexists. reflexivity.
Qed.

Lemma readonly_ret {A} (a : A) : readonly (ret a).
Proof. intros s t x s' t' H. inversion H. reflexivity. Qed.
Lemma readonly_revert {A} e : readonly (@revert A e).
Proof. intros s t x s' t' H. discriminate. Qed.
Lemma readonly_emit ev : readonly (emit ev).
Proof. intros s t x s' t' H. inversion H. reflexivity. Qed.
Lemma readonly_checkedInt v : readonly (checkedInt v).
Proof. unfold checkedInt. destruct (_ && _); [apply readonly_ret | apply readonly_revert]. Qed.
Lemma readonly_bind {A B} (m : M A) (f : A -> M B) :
  readonly m -> (forall x, readonly (f x)) -> readonly (bind m f).
Proof.
  intros Hm Hf s t b s' t' H. apply bind_ok in H as (a & s1 & t1 & H1 & H2).
  apply Hm in H1. apply Hf in H2. congruence.
Qed.
Ltac readonly_tac :=
  repeat first
    [ apply readonly_ret | apply readonly_revert | apply readonly_emit
    | apply readonly_checkedInt
    | apply readonly_bind; [ | intros ? ]
    | match goal with
      | |- readonly (if ?b then _ else _) => destruct b
      end ].
Lemma readonly_calcTradeFinalBalance id a b : readonly (calcTradeFinalBalance id a b).
Proof. unfold calcTradeFinalBalance, subInt, addInt. readonly_tac. Qed.
Lemma readonly_calcExpectedProfit id a b : readonly (calcExpectedProfit id a b).
Proof. unfold calcExpectedProfit, subInt, negInt. readonly_tac. Qed.

Lemma bump_ok field setter d s t x s' t' :
  bump field setter d s t = Ok x s' t' ->
  t' = t /\ s' = updMetrics (setter (field (metrics s) + d)) s.
Proof.
  unfold bump, bind, get, checkedAdd, modify.
  destruct (_ <=? _); cbn; [|discriminate].
  intros H; inversion H; subst. split; reflexivity.
Qed.

Ltac bind_inv H x s t Hx :=
  apply bind_ok in H as (x & s & t & Hx & H).

Lemma settle_ok p ini e2 fin s t r s' t' :
  executeArbitrageInternal_settle p ini e2 fin s t = Ok r s' t' ->
  r = saturate (fin - ini) /\
  actualSecondOutput (tradeContextOf s' (executionId p)) = r /\
  executed (tradeContextOf s' (executionId p)) = true /\
  (testMode p = false -> 0 < r) /\
  exists l tfb ep,
    t' = l ++ [Emit (ArbitrageExecuted (sourceToken p) (targetToken p)
                       (amount p) fin tfb r ep (testMode p))].
Proof.
  unfold executeArbitrageInternal_settle. cbv zeta. intros H.
  bind_inv H fab s1 t1 H1. inversion H1; subst; clear H1.
  bind_inv H u s2 t2 H2. inversion H2; subst; clear H2.
  bind_inv H tp s3 t3 H3.
  match type of H3 with
  | calcTradeProfit ?i ?f ?n ?st ?tr = _ =>
      destruct (calcTradeProfit_value i f n st tr) as (stage & data & Hv)
  end.
  rewrite Hv in H3. inversion H3; subst; clear H3 Hv.
  bind_inv H tfb s4 t4 H4. apply readonly_calcTradeFinalBalance in H4 as ->.
  bind_inv H u2 s5 t5 H5. inversion H5; subst; clear H5.
  bind_inv H ep s6 t6 H6. apply readonly_calcExpectedProfit in H6 as ->.
  bind_inv H fbe s7 t7 H7.
  assert (s7 = updTrade (executionId p)
                 (set_tradeResult tfb (saturate (fab - ini))) s3) as ->.
  { destruct (0 <? tfb); unfold bind, emit, ret in H7; inversion H7; reflexivity. }
  clear H7.
  bind_inv H u3 s8 t8 H8. inversion H8; subst; clear H8.
  bind_inv H u4 s9 t9 H9. inversion H9; subst; clear H9.
  bind_inv H u5 s10 t10 H10.
  bind_inv H u6 s11 t11 H11. apply bump_ok in H11 as [-> ->].
  bind_inv H u7 s12 t12 H12. inversion H12; subst; clear H12.
  inversion H; subst; clear H.
  assert (tradeContexts s10 =
          tradeContexts (updTrade (executionId p)
                 (set_tradeResult tfb (saturate (fab - ini))) s3) /\
          (testMode p = false -> 0 < saturate (fab - ini))) as [Htc Hgate].
  { destruct (0 <? saturate (fab - ini)) eqn:Hpos.
    - apply Z.ltb_lt in Hpos.
      bind_inv H10 v1 sa ta Ha. apply bump_ok in Ha as [-> ->].
      bind_inv H10 v2 sb tb Hb. apply bump_ok in Hb as [-> ->].
      inversion H10; subst. split; [reflexivity | intros _; exact Hpos].
    - bind_inv H10 v1 sa ta Ha.
      destruct (testMode p); cbn [negb] in Ha.
      + inversion Ha; subst. inversion H10; subst.
        split; [reflexivity | discriminate].
      + unfold bind, emit, revert in Ha. discriminate. }
  unfold tradeContextOf. cbn [tradeContexts updMetrics set_metrics].
  rewrite Htc. cbn [tradeContexts updTrade set_tradeContexts].
  rewrite lookup_insert_eq. cbn.
  repeat split; try assumption.
  do 3 eexists. reflexivity.
Qed.


Lemma silent_ret {A} (a : A) : silent (ret a).
Proof. intros s t. exists a, []. rewrite app_nil_r. split; reflexivity. Qed.

Lemma silent_emit ev : isArbitrageExecuted (Emit ev) = false -> silent (emit ev).
Proof.
  intros Hev s t. exists tt, [Emit ev]. split; [reflexivity|].
  unfold nolog. cbn [forallb]. rewrite Hev. reflexivity.
Qed.

Lemma silent_bind {A B} (m : M A) (f : A -> M B) :
  silent m -> (forall x, silent (f x)) -> silent (bind m f).
Proof.
  intros Hm Hf s t. destruct (Hm s t) as (a & l1 & E1 & N1).
  destruct (Hf a s (t ++ l1)) as (b & l2 & E2 & N2).
  exists b, (l1 ++ l2). unfold bind. rewrite E1, E2, app_assoc. split; [reflexivity|].
  unfold nolog in *. rewrite forallb_app, N1, N2. reflexivity.
Qed.

Lemma silent_checked {A} v (f : Z -> M A) :
  is_int256 v -> silent (f v) -> silent (bind (checkedInt v) f).
Proof.
  intros [H1 H2] Hf s t. unfold bind, checkedInt.
  assert ((MIN_INT256 <=? v) && (v <=? MAX_INT256) = true) as ->.
  { apply andb_true_iff; split; apply Z.leb_le; assumption. }
  apply Hf.
Qed.

Lemma silent_checkedInt v : is_int256 v -> silent (checkedInt v).
Proof.
  intros [H1 H2]. unfold checkedInt.
  assert ((MIN_INT256 <=? v) && (v <=? MAX_INT256) = true) as ->.
  { apply andb_true_iff; split; apply Z.leb_le; assumption. }
  apply silent_ret.
Qed.

Ltac silent_tac :=
  repeat first
    [ apply silent_ret
    | apply silent_emit; reflexivity
    | apply silent_bind; [ | intros ? ] ].

Lemma saturate_range v : is_int256 (saturate v).
Proof.
  unfold saturate, is_int256, MAX_INT256, MIN_INT256.
  destruct (2 ^ 255 - 1 <? v) eqn:H1; [lia|].
  destruct (v <? - 2 ^ 255) eqn:H2; [lia|].
  apply Z.ltb_ge in H1, H2. lia.
Qed.

Lemma safeToInt256_range v : 0 <= v -> 0 <= safeToInt256 v <= MAX_INT256.
Proof.
  unfold safeToInt256, MAX_INT256. intros Hv.
  destruct (2 ^ 255 - 1 <? v) eqn:H1; [lia|]. apply Z.ltb_ge in H1. lia.
Qed.

Lemma silent_calcTradeFinalBalance id input tp :
  0 <= input <= MAX_INT256 -> is_int256 tp ->
  silent (calcTradeFinalBalance id input tp).
Proof.
  unfold calcTradeFinalBalance, subInt, addInt, is_int256, MAX_INT256, MIN_INT256.
  intros Hin Htp.
  destruct (0 <=? tp) eqn:Hs; [apply Z.leb_le in Hs | apply Z.leb_gt in Hs].
  - apply silent_checked;
      [unfold is_int256, MAX_INT256, MIN_INT256; lia |].
    destruct (2 ^ 255 - 1 - tp <? input) eqn:Hov; [silent_tac|].
    apply Z.ltb_ge in Hov.
    apply silent_checkedInt. unfold is_int256, MAX_INT256, MIN_INT256. lia.
  - apply silent_checked;
      [unfold is_int256, MAX_INT256, MIN_INT256; lia |].
    destruct (input <? - 2 ^ 255 - tp) eqn:Hov; [silent_tac|].
    apply Z.ltb_ge in Hov.
    apply silent_checkedInt. unfold is_int256, MAX_INT256, MIN_INT256. lia.
Qed.

Lemma silent_calcExpectedProfit id e input :
  0 <= input <= MAX_INT256 -> is_int256 e ->
  silent (calcExpectedProfit id e input).
Proof.
  unfold calcExpectedProfit, subInt, negInt, is_int256, MAX_INT256, MIN_INT256.
  intros Hin He.
  assert ((0 <=? input) = true) as -> by (apply Z.leb_le; lia).
  assert ((input <? 0) = false) as -> by (apply Z.ltb_ge; lia).
  rewrite !andb_true_r, !andb_false_r.
  destruct (0 <=? e) eqn:Hs; [apply Z.leb_le in Hs | apply Z.leb_gt in Hs].
  - apply silent_checked; [unfold is_int256, MAX_INT256, MIN_INT256; lia |].
    apply silent_checked; [unfold is_int256, MAX_INT256, MIN_INT256; lia |].
    destruct (2 ^ 255 - 1 - e <? - input) eqn:Hov; [silent_tac|].
    apply silent_checkedInt. unfold is_int256, MAX_INT256, MIN_INT256. lia.
  - apply silent_checked; [unfold is_int256, MAX_INT256, MIN_INT256; lia |].
    apply silent_checked; [unfold is_int256, MAX_INT256, MIN_INT256; lia |].
    destruct (- input <? - 2 ^ 255 - e) eqn:Hov; [silent_tac|].
    apply Z.ltb_ge in Hov.
    apply silent_checkedInt. unfold is_int256, MAX_INT256, MIN_INT256. lia.
Qed.

Lemma silent_calcTradeProfit id fin ini : silent (calcTradeProfit id fin ini).
Proof.
  intros s t. destruct (calcTradeProfit_value id fin ini s t) as (stage & data & E).
  do 2 eexists. split; [exact E | reflexivity].
Qed.

Lemma silent_staticcall target method v : silent (staticcall target method v).
Proof.
  intros s t. exists v, [CallTo target method]. split; reflexivity.
Qed.

Lemma bind_silent_revert {A B} (m : M A) (f : A -> M B) (P : Error -> Trace -> Prop) s t :
  silent m ->
  (forall a l, m s t = Ok a s (t ++ l) -> nolog l = true ->
     match f a s (t ++ l) with Revert e t' => P e t' | Ok _ _ _ => False end) ->
  match bind m f s t with Revert e t' => P e t' | Ok _ _ _ => False end.
Proof.
  intros Hm Hf. destruct (Hm s t) as (a & l & E & N).
  unfold bind. rewrite E. apply Hf; assumption.
Qed.

(** With test mode off, a trade without profit reaches the profit gate and
    fails there. *)
Lemma settle_unprofitable p ini e2 fin s t :
  testMode p = false -> saturate (fin - ini) <= 0 ->
  0 <= amount p -> is_int256 (expectedSecondOutput p) ->
  exists l,
    executeArbitrageInternal_settle p ini e2 fin s t =
      Revert InsufficientProfit (t ++ l) /\ nolog l = true.
Proof.
  intros Htm Hloss Hamt Hexp.
  pose proof (safeToInt256_range _ Hamt) as Hin.
  pose proof (saturate_range (fin - ini)) as Hsat.
  unfold executeArbitrageInternal_settle. cbv zeta.
  destruct (silent_staticcall (sourceToken p) "balanceOf" fin s t)
    as (fab & l1 & E1 & N1).
  assert (fab = fin) as ->.
  { unfold staticcall, bind, logCall, ret in E1. inversion E1. reflexivity. }
  rewrite (bind_eq_ok _ _ _ _ _ _ _ E1).
  unfold bind at 1. unfold emit at 1.
  match goal with
  | |- context [bind (calcTradeProfit ?i ?f ?n) _ ?st ?tr] =>
      destruct (calcTradeProfit_value i f n st tr) as (stage & data & E2)
  end.
  rewrite (bind_eq_ok _ _ _ _ _ _ _ E2).
  match goal with
  | |- context [bind (calcTradeFinalBalance ?i ?a ?b) _ ?st ?tr] =>
      destruct (silent_calcTradeFinalBalance i a b Hin Hsat st tr)
        as (tfb & l3 & E3 & N3)
  end.
  rewrite (bind_eq_ok _ _ _ _ _ _ _ E3).
  unfold bind at 1. unfold modify at 1.
  match goal with
  | |- context [bind (calcExpectedProfit ?i ?a ?b) _ ?st ?tr] =>
      destruct (silent_calcExpectedProfit i a b Hin Hexp st tr)
        as (ep & l4 & E4 & N4)
  end.
  rewrite (bind_eq_ok _ _ _ _ _ _ _ E4).
  assert ((0 <? saturate (fin - ini)) = false) as Hneg by (apply Z.ltb_ge; lia).
  rewrite Htm.
  destruct (0 <? tfb); unfold bind, emit, ret, revert; rewrite Hneg; cbn [negb];
    rewrite <- !app_assoc; eexists; (split; [reflexivity|]);
    unfold nolog in *; rewrite !forallb_app, N1, N3, N4; reflexivity.
Qed.

(** With test mode on, a trade without profit passes the profit gate. *)
Lemma settle_test_mode_loss p ini e2 fin s t :
  testMode p = true -> saturate (fin - ini) <= 0 ->
  0 <= amount p -> is_int256 (expectedSecondOutput p) ->
  totalExecutions (metrics s) < MAX_UINT256 ->
  exists l tfb ep,
    executeArbitrageInternal_settle p ini e2 fin s t =
      Ok (saturate (fin - ini))
         (updMetrics (set_totalExecutions (totalExecutions (metrics s) + 1))
            (updTrade (executionId p)
               (set_tradeResult tfb (saturate (fin - ini))) s))
         (l ++
          [Emit (ArbitrageExecuted (sourceToken p) (targetToken p) (amount p)
                   fin tfb (saturate (fin - ini)) ep true)]).
Proof.
  intros Htm Hloss Hamt Hexp Hroom.
  pose proof (safeToInt256_range _ Hamt) as Hin.
  pose proof (saturate_range (fin - ini)) as Hsat.
  unfold executeArbitrageInternal_settle. cbv zeta.
  run.
  match goal with
  | |- context [bind (calcTradeProfit ?i ?f ?n) _ ?st ?tr] =>
      destruct (calcTradeProfit_value i f n st tr) as (stage & data & E2)
  end.
  rewrite (bind_eq_ok _ _ _ _ _ _ _ E2).
  match goal with
  | |- context [bind (calcTradeFinalBalance ?i ?a ?b) _ ?st ?tr] =>
      destruct (silent_calcTradeFinalBalance i a b Hin Hsat st tr)
        as (tfb & l3 & E3 & N3)
  end.
  rewrite (bind_eq_ok _ _ _ _ _ _ _ E3). run.
  match goal with
  | |- context [bind (calcExpectedProfit ?i ?a ?b) _ ?st ?tr] =>
      destruct (silent_calcExpectedProfit i a b Hin Hexp st tr)
        as (ep & l4 & E4 & N4)
  end.
  rewrite (bind_eq_ok _ _ _ _ _ _ _ E4).
  assert ((0 <? saturate (fin - ini)) = false) as Hneg by (apply Z.ltb_ge; lia).
  assert (Hbump : forall B (f : unit -> M B) s0 t0,
    totalExecutions (metrics s0) = totalExecutions (metrics s) ->
    bind (bump totalExecutions set_totalExecutions 1) f s0 t0 =
      f tt (updMetrics (set_totalExecutions (totalExecutions (metrics s) + 1)) s0) t0).
  { intros B f s0 t0 Heq. unfold bump, checkedAdd. run. rewrite Heq.
    assert ((totalExecutions (metrics s) + 1 <=? MAX_UINT256) = true) as ->
      by (apply Z.leb_le; lia).
    run. reflexivity. }
  cbv beta.
  destruct (0 <? tfb); run; rewrite Hneg; run; rewrite Htm; cbn [negb]; run;
    rewrite Hbump by reflexivity; run;
    do 3 eexists; reflexivity.
Qed.

(** ** The first half of the engine *)

Lemma yields_ret {A} (P : A -> Prop) a : P a -> yields P (ret a).
Proof. intros H s t x s' t' E. inversion E; subst. exact H. Qed.

Lemma yields_bind {A B} (P : B -> Prop) (m : M A) (f : A -> M B) :
  (forall a, yields P (f a)) -> yields P (bind m f).
Proof.
  intros Hf s t x s' t' E. apply bind_ok in E as (a & s1 & t1 & _ & E).
  eapply Hf; eauto.
Qed.

Lemma yields_bind_post {A B} (Q : A -> Prop) (P : B -> Prop) (m : M A)
    (f : A -> M B) :
  yields Q m -> (forall a, Q a -> yields P (f a)) -> yields P (bind m f).
Proof.
  intros Hm Hf s t x s' t' E. apply bind_ok in E as (a & s1 & t1 & E1 & E).
  eapply Hf; eauto.
Qed.

Lemma yields_staticcall target method v :
  yields (fun a => a = v) (staticcall target method v).
Proof.
  intros s t x s' t' E. unfold staticcall, bind, logCall, ret in E.
  inversion E. reflexivity.
Qed.

Section Engine.

Variable this : Z.
Variable enc : Error -> string.
Context {C : Type} (reenter : C -> State -> Trace -> State * Trace).

(** The initial balance handed to the second half is the one the source
    token answered first. *)
Lemma legs_initial p w :
  yields (fun x => fst x = w_initialAccountBalance w)
    (executeArbitrageInternal_legs enc reenter p w).
Proof.
  unfold executeArbitrageInternal_legs. cbv zeta.
  do 4 (apply yields_bind; intros ?).
  eapply yields_bind_post; [apply yields_staticcall | intros balance0 ->].
  repeat (apply yields_bind; intros ?).
  apply yields_ret. reflexivity.
Qed.

(** The replay guard. *)
Lemma legs_replay p w s t :
  isExecuted s (executionId p) = true ->
  executeArbitrageInternal_legs enc reenter p w s t =
    Revert InvalidExecutionId t.
Proof.
  intros H. unfold executeArbitrageInternal_legs. cbv zeta.
  unfold bind at 1. unfold get at 1. unfold bind at 1. rewrite H. reflexivity.
Qed.

Lemma wrapper_replay p w s t :
  isExecuted s (executionId p) = true ->
  executeArbitrageWrapper this enc reenter this p w s t =
    Revert InvalidExecutionId t.
Proof.
  intros H. unfold executeArbitrageWrapper, executeArbitrageInternal.
  rewrite Z.eqb_refl. unfold bind at 1. unfold ret at 1.
  unfold bind at 1. rewrite (legs_replay p w s t H). reflexivity.
Qed.

Lemma wrapper_self p w s t :
  executeArbitrageWrapper this enc reenter this p w s t =
    executeArbitrageInternal enc reenter p w s t.
Proof.
  unfold executeArbitrageWrapper. rewrite Z.eqb_refl. reflexivity.
Qed.

(** What a run of the engine that returns has done. *)
Lemma engine_ok p w s t r s' t' :
  executeArbitrageInternal enc reenter p w s t = Ok r s' t' ->
  r = saturate (w_finalAccountBalance w - w_initialAccountBalance w) /\
  actualSecondOutput (tradeContextOf s' (executionId p)) = r /\
  executed (tradeContextOf s' (executionId p)) = true /\
  (testMode p = false -> 0 < r) /\
  exists l tfb ep,
    t' = l ++ [Emit (ArbitrageExecuted (sourceToken p) (targetToken p)
                       (amount p) (w_finalAccountBalance w) tfb r ep
                       (testMode p))].
Proof.
  unfold executeArbitrageInternal. intros H.
  apply bind_ok in H as ([ini e2] & s1 & t1 & Hlegs & H).
  apply legs_initial in Hlegs. cbn [fst] in Hlegs. subst ini.
  apply settle_ok in H. exact H.
Qed.

(** With test mode off, a run whose two swaps went through without profit
    fails at the profit gate. *)
Lemma engine_unprofitable p w s t x s1 t1 :
  executeArbitrageInternal_legs enc reenter p w s t = Ok x s1 t1 ->
  testMode p = false ->
  saturate (w_finalAccountBalance w - w_initialAccountBalance w) <= 0 ->
  0 <= amount p -> is_int256 (expectedSecondOutput p) ->
  exists l,
    executeArbitrageInternal enc reenter p w s t =
      Revert InsufficientProfit (t1 ++ l) /\ nolog l = true.
Proof.
  intros Hlegs Htm Hloss Hamt Hexp.
  pose proof (legs_initial p w _ _ _ _ _ Hlegs) as Hini.
  destruct x as [ini e2]. cbn [fst] in Hini. subst ini.
  unfold executeArbitrageInternal. rewrite (bind_eq_ok _ _ _ _ _ _ _ Hlegs).
  apply settle_unprofitable; assumption.
Qed.

End Engine.

(** ** Every entry point accounts for the profit it records *)

Section Accounting.

Variable this : Z.
Variable keccak : Z -> Z -> Z -> Z -> Z -> Z -> Z -> Z -> Z.
Variable enc : Error -> string.
Context {C : Type} (reenter : C -> State -> Trace -> State * Trace).

Hypothesis reenter_evolves :
  forall c s t, Evolves 0 0 s t (fst (reenter c s t)) (snd (reenter c s t)).

Lemma shifts_external target method x :
  shifts 0 0 (external reenter target method x).
Proof.
  intros s t r s' t'. unfold external.
  destruct (outcome x).
  - specialize (reenter_evolves (reentry x) s (t ++ [CallTo target method])).
    destruct (reenter _ _ _) as [s1 t1]. simpl in *.
    intros H; inversion H; subst.
    eapply Evolves_step; [|exact reenter_evolves].
    exists [CallTo target method]. simpl. repeat split; try lia; set_solver.
  - intros H; inversion H; subst.
    exists [CallTo target method]. simpl. repeat split; try lia; set_solver.
Qed.

Lemma shifts_staticcall target method v :
  shifts 0 0 (staticcall target method v).
Proof. unfold staticcall. repeat quiet_step. Qed.

Ltac quiet :=
  repeat first
    [ apply shifts_external | apply shifts_staticcall | quiet_step ].

Lemma shifts_safeApprove token spender amt w :
  shifts 0 0 (_safeApprove reenter token spender amt w).
Proof. unfold _safeApprove, callDiscardBool. quiet. Qed.

Lemma shifts_legs p w :
  shifts 0 0 (executeArbitrageInternal_legs enc reenter p w).
Proof.
  unfold executeArbitrageInternal_legs. cbv zeta.
  repeat first [ apply shifts_safeApprove | quiet ].
Qed.

(** After its first half the engine has marked its execution id, whatever
    was called back in between. *)
Lemma legs_marks p w s t x s1 t1 :
  executeArbitrageInternal_legs enc reenter p w s t = Ok x s1 t1 ->
  executionId p ∈ executedTrades s1.
Proof.
  unfold executeArbitrageInternal_legs. cbv zeta. intros H.
  apply bind_ok in H as (s0 & sa & ta & Ha & H). inversion Ha; subst; clear Ha.
  apply bind_ok in H as (u & sb & tb & Hb & H).
  apply bind_ok in H as (u2 & sc & tc & Hc & H). inversion Hc; subst; clear Hc.
  match type of H with
  | ?m _ _ = _ =>
      assert (Hs : shifts 0 0 m)
        by (repeat first [ apply shifts_safeApprove | quiet ])
  end.
  apply Hs in H as (l & _ & _ & _ & Hsub).
  cbn in Hsub. set_solver.
Qed.

Lemma shifts_calcTradeProfit id a b : shifts 0 0 (calcTradeProfit id a b).
Proof. unfold calcTradeProfit, negInt. cbv zeta. quiet. Qed.

Lemma shifts_calcTradeFinalBalance id a b :
  shifts 0 0 (calcTradeFinalBalance id a b).
Proof. unfold calcTradeFinalBalance, subInt, addInt. quiet. Qed.

Lemma shifts_calcExpectedProfit id a b :
  shifts 0 0 (calcExpectedProfit id a b).
Proof. unfold calcExpectedProfit, subInt, negInt. quiet. Qed.

(** The second half of the engine adds the positive profit to
    [totalProfit] and then logs it: in total nothing is left unaccounted. *)
Lemma shifts_settle p a b c :
  shifts 0 0 (executeArbitrageInternal_settle p a b c).
Proof.
  unfold executeArbitrageInternal_settle. cbv zeta.
  apply shifts_bind0; [apply shifts_staticcall | intros fab].
  apply shifts_bind0; [quiet | intros _].
  apply shifts_bind0; [apply shifts_calcTradeProfit | intros tp].
  apply shifts_bind0; [apply shifts_calcTradeFinalBalance | intros tfb].
  apply shifts_bind0; [quiet | intros _].
  apply shifts_bind0; [apply shifts_calcExpectedProfit | intros ep].
  apply shifts_bind0; [quiet | intros fbe].
  apply shifts_bind0; [quiet | intros _].
  apply shifts_bind0; [quiet | intros _].
  eapply shifts_eq;
    [apply (shifts_bind (Z.max 0 tp) 0 (- Z.max 0 tp) 0) | lia | lia].
  - destruct (0 <? tp) eqn:Hpos.
    + apply Z.ltb_lt in Hpos.
      eapply shifts_eq; [apply (shifts_bind 0 0 tp 0) | lia | lia].
      * apply shifts_bump_quiet; reflexivity.
      * intros _.
        eapply shifts_eq; [apply (shifts_bind tp 0 0 0) | lia | lia].
        -- apply shifts_bump_totalProfit.
        -- intros _. quiet.
    + apply Z.ltb_ge in Hpos.
      replace (Z.max 0 tp) with 0 by lia. quiet.
  - intros _.
    eapply shifts_eq;
      [apply (shifts_bind 0 0 (- Z.max 0 tp) 0) | lia | lia].
    + apply shifts_bump_quiet; reflexivity.
    + intros _.
      eapply shifts_eq;
        [apply (shifts_bind (- Z.max 0 tp) 0 0 0) | lia | lia].
      * eapply shifts_eq; [apply shifts_emit | reflexivity | reflexivity].
      * intros _. quiet.
Qed.

Lemma shifts_engine p w :
  shifts 0 0 (executeArbitrageInternal enc reenter p w).
Proof.
  unfold executeArbitrageInternal.
  apply shifts_bind0; [apply shifts_legs | intros [a b]; apply shifts_settle].
Qed.

Lemma engine_marks p w s t r s' t' :
  executeArbitrageInternal enc reenter p w s t = Ok r s' t' ->
  executionId p ∈ executedTrades s'.
Proof.
  unfold executeArbitrageInternal. intros H.
  apply bind_ok in H as ([ini e2] & s1 & t1 & Hlegs & H).
  apply legs_marks in Hlegs.
  apply shifts_settle in H as (l & _ & _ & _ & Hsub). set_solver.
Qed.

Lemma shifts_wrapper sender p w :
  shifts 0 0 (executeArbitrageWrapper this enc reenter sender p w).
Proof.
  unfold executeArbitrageWrapper.
  apply shifts_bind0; [quiet | intros _; apply shifts_engine].
Qed.

Lemma arbitrageFailure_result id stage data s t x s' t' :
  arbitrageFailure id stage data s t = Ok x s' t' -> x = (false, 0).
Proof.
  unfold arbitrageFailure, bind, emit, modify, ret.
  intros H. inversion H. reflexivity.
Qed.

(** The callback adds the positive profit to [flashLoanProfit] and logs it
    with the completion event after the repayment. *)
Lemma shifts_receiveFlashLoan sender amounts fees userData w :
  shifts 0 0 (receiveFlashLoan this enc reenter sender amounts fees userData w).
Proof.
  unfold receiveFlashLoan. cbv zeta.
  apply shifts_bind0; [quiet | intros s0].
  apply shifts_bind0; [quiet | intros _].
  apply shifts_bind0; [quiet | intros id].
  apply shifts_bind0; [quiet | intros _].
  apply shifts_bind0; [quiet | intros _].
  apply shifts_bind0; [quiet | intros _].
  apply shifts_bind0; [apply shifts_tryCall, shifts_wrapper | intros attempt].
  eapply shifts_eq;
    [apply (shifts_bind_post
              (fun x : bool * Z => fst x = false -> snd x = 0) 0 0 0 0)
    | lia | lia].
  - unfold arbitrageFailure. quiet.
  - intros s t x s' t'. destruct attempt as [result | e].
    + unfold bind, emit, ret. intros H; inversion H; subst. discriminate.
    + destruct (classify e); intros H;
        apply arbitrageFailure_result in H; subst; reflexivity.
  - intros [success profit] HP. cbn [fst snd] in HP.
    eapply shifts_eq;
      [apply (shifts_bind 0 (Z.max 0 profit) 0 (- Z.max 0 profit)) | lia | lia].
    + destruct success.
      * destruct (0 <? profit) eqn:Hpos.
        -- apply Z.ltb_lt in Hpos.
           replace (Z.max 0 profit) with profit by lia.
           apply shifts_bump_flashLoanProfit.
        -- apply Z.ltb_ge in Hpos.
           replace (Z.max 0 profit) with 0 by lia. quiet.
      * rewrite HP by reflexivity. apply shifts_ret.
    + intros _.
      apply (shifts_bind 0 0 0 (- Z.max 0 profit));
        [unfold firstElement; quiet | intros principal].
      apply (shifts_bind 0 0 0 (- Z.max 0 profit));
        [unfold firstElement; quiet | intros fee].
      apply (shifts_bind 0 0 0 (- Z.max 0 profit)); [quiet | intros repayAmount].
      apply (shifts_bind 0 0 0 (- Z.max 0 profit)); [quiet | intros balance].
      apply (shifts_bind 0 0 0 (- Z.max 0 profit)); [quiet | intros _].
      apply (shifts_bind 0 0 0 (- Z.max 0 profit)); [quiet | intros _].
      apply (shifts_bind 0 0 0 (- Z.max 0 profit));
        [unfold callDiscardBool; quiet | intros _].
      eapply shifts_eq;
        [apply (shifts_bind 0 (- Z.max 0 profit) 0 0) | lia | lia].
      * eapply shifts_eq; [apply shifts_emit | reflexivity | reflexivity].
      * intros _. quiet.
Qed.

Lemma shifts_executeFlashLoanArbitrage sender ts bn src tgt amt d1 d2 r1 r2
    tm e1 e2 w :
  shifts 0 0
    (executeFlashLoanArbitrage keccak enc reenter sender ts bn src tgt amt
       d1 d2 r1 r2 tm e1 e2 w).
Proof.
  unfold executeFlashLoanArbitrage, nonReentrant, whenNotPaused,
    flashLoanFailure.
  cbv zeta. quiet.
Qed.

Lemma shifts_recordFeeTiers dexName tiers :
  shifts 0 0 (recordFeeTiers dexName tiers).
Proof.
  induction tiers as [|fee rest IH]; cbn [recordFeeTiers]; quiet. exact IH.
Qed.

Lemma shifts_dispatch sender op :
  shifts 0 0 (dispatch this keccak enc reenter sender op).
Proof.
  destruct op; unfold dispatch, returning;
    (apply shifts_bind0; [| intros ?; apply shifts_ret]).
  - unfold configureDex, onlyOwner.
    repeat first [ apply shifts_recordFeeTiers | quiet ].
  - unfold configurePool, onlyOwner. quiet.
  - unfold configureToken, onlyOwner. quiet.
  - apply shifts_executeFlashLoanArbitrage.
  - apply shifts_receiveFlashLoan.
  - apply shifts_wrapper.
  - unfold emergencyWithdraw, safeTransfer, onlyOwner. quiet.
  - unfold withdrawFunds, safeTransfer, onlyOwner. quiet.
  - unfold pause, _pause, whenNotPaused, onlyOwner. quiet.
  - unfold unpause, _unpause, whenPaused, onlyOwner. quiet.
  - unfold triggerCircuitBreaker, _pause, whenNotPaused, onlyOwner. quiet.
  - unfold setTokenEnabled, onlyOwner. quiet.
  - unfold setDexEnabled, onlyOwner. quiet.
  - unfold approveRouter, onlyOwner.
    repeat first [ apply shifts_safeApprove | quiet ].
  - unfold setRouterAddresses, onlyOwner. quiet.
  - unfold transferOwnership, _transferOwnership, onlyOwner. quiet.
  - unfold renounceOwnership, _transferOwnership, onlyOwner. quiet.
  - unfold fallback. quiet.
Qed.

End Accounting.

Section Nesting.

Variable this : Z.
Variable keccak : Z -> Z -> Z -> Z -> Z -> Z -> Z -> Z -> Z.
Variable enc : Error -> string.

Lemma reenterWith_evolves {D} (run : Z -> Op D -> M Ret) :
  (forall sender op, shifts 0 0 (run sender op)) ->
  forall calls s t,
    Evolves 0 0 s t (fst (reenterWith run calls s t))
                    (snd (reenterWith run calls s t)).
Proof.
  intros Hrun calls.
  induction calls as [|[sender op] rest IH]; intros s t; cbn [reenterWith].
  - apply Evolves_refl.
  - destruct (run sender op s t) as [r s1 t1|e t1] eqn:E.
    + eapply Evolves_step; [eapply Hrun; eauto | apply IH].
    + apply IH.
Qed.

Lemma reenterAt_evolves n :
  forall c s t,
    Evolves 0 0 s t (fst (reenterAt this keccak enc n c s t))
                    (snd (reenterAt this keccak enc n c s t)).
Proof.
  induction n as [|n IH]; intros c s t.
  - cbn. apply Evolves_refl.
  - cbn [reenterAt]. apply reenterWith_evolves.
    intros sender op. apply shifts_dispatch. exact IH.
Qed.

Lemma shifts_exec n sender op : shifts 0 0 (exec this keccak enc n sender op).
Proof. apply shifts_dispatch, reenterAt_evolves. Qed.

Lemma transact_evolves n sender op s :
  Evolves 0 0 s []
    (fst (fst (transact this keccak enc n sender op s)))
    (snd (fst (transact this keccak enc n sender op s))).
Proof.
  unfold transact.
  destruct (exec this keccak enc n sender op s []) as [r s' t'|e t'] eqn:E;
    cbn [fst snd].
  - eapply shifts_exec; eauto.
  - apply Evolves_refl.
Qed.

Lemma runAll_executed n txs s :
  executedTrades s ⊆ executedTrades (runAll this keccak enc n txs s).
Proof.
  revert s. induction txs as [|[sender op] rest IH]; intros s; cbn [runAll].
  - set_solver.
  - destruct (transact_evolves n sender op s) as (l & _ & _ & _ & Hsub).
    specialize (IH (fst (fst (transact this keccak enc n sender op s)))).
    set_solver.
Qed.

End Nesting.

(** ** Clamping *)




(** ** The flash-loan request *)

Lemma flashLoanFailure_ok id src stage data bal s t :
  flashLoanFailed (metrics s) < MAX_UINT256 ->
  flashLoanExecutions (metrics s) < MAX_UINT256 ->
  flashLoanFailure id src stage data bal s t =
    Ok bal (afterFailedLoan id s)
      (t ++ [Emit (StateLog id stage data)] ++ [CallTo src "balanceOf"]).
Proof.
  intros H1 H2.
  unfold flashLoanFailure, bump, staticcall, bind, emit, get, checkedAdd,
    modify, logCall, ret.
  assert ((flashLoanFailed (metrics s) + 1 <=? MAX_UINT256) = true) as ->
    by (apply Z.leb_le; lia).
  cbn [metrics updMetrics set_metrics flashLoanExecutions set_flashLoanFailed].
  assert ((flashLoanExecutions (metrics s) + 1 <=? MAX_UINT256) = true) as ->
    by (apply Z.leb_le; lia).
  rewrite <- app_assoc. f_equal.
Qed.

(** ** The configuration registry *)

Lemma strlen_zero (d : string) : (strlen d =? 0) = true <-> d = "".
Proof.
  unfold strlen. destruct d; cbn [String.length]; split; intros H;
    try reflexivity; discriminate.
Qed.

Lemma recordFeeTiers_fails dexName tiers s t :
  Exists (fun fee => MAX_BPS <= fee) tiers ->
  recordFeeTiers dexName tiers s t = Revert (InvalidSetup 3) t.
Proof.
  intros H. revert s. induction tiers as [|fee rest IH]; intros s.
  - inversion H.
  - cbn [recordFeeTiers]. destruct (MAX_BPS <=? fee) eqn:E; [reflexivity|].
    apply Z.leb_gt in E. inversion H; subst; [lia|].
    run. apply IH. assumption.
Qed.

Lemma recordFeeTiers_ok dexName tiers s t :
  Forall (fun fee => fee < MAX_BPS) tiers ->
  exists s',
    recordFeeTiers dexName tiers s t = Ok tt s' t /\
    dex_router (dexConfigOf s' dexName) = dex_router (dexConfigOf s dexName) /\
    dex_isEnabled (dexConfigOf s' dexName) =
      dex_isEnabled (dexConfigOf s dexName) /\
    dex_defaultFee (dexConfigOf s' dexName) =
      dex_defaultFee (dexConfigOf s dexName) /\
    dex_maxGasUsage (dexConfigOf s' dexName) =
      dex_maxGasUsage (dexConfigOf s dexName).
Proof.
  intros H. revert s. induction tiers as [|fee rest IH]; intros s.
  - exists s. repeat split; reflexivity.
  - inversion H; subst. cbn [recordFeeTiers].
    assert ((MAX_BPS <=? fee) = false) as -> by (apply Z.leb_gt; assumption).
    run.
    destruct (IH H3 (updDex dexName (add_dex_supportedFee fee) s))
      as (s' & E & Hr & He & Hf & Hg).
    exists s'. split; [exact E|].
    rewrite Hr, He, Hf, Hg. unfold dexConfigOf at 1 3 5 7. storage.
    rewrite lookup_insert_eq. repeat split; reflexivity.
Qed.

Lemma tiers_ok_or_not (tiers : list Z) :
  Forall (fun fee => fee < MAX_BPS) tiers \/
  Exists (fun fee => MAX_BPS <= fee) tiers.
Proof.
  induction tiers as [|fee rest [IH|IH]].
  - left. constructor.
  - destruct (Z_lt_le_dec fee MAX_BPS).
    + left. constructor; assumption.
    + right. apply Exists_cons_hd. assumption.
  - right. apply Exists_cons_tl. assumption.
Qed.

Lemma tiers_not_both (tiers : list Z) :
  Forall (fun fee => fee < MAX_BPS) tiers ->
  Exists (fun fee => MAX_BPS <= fee) tiers -> False.
Proof.
  intros HF HE. induction HE as [fee rest H|fee rest H IH];
    inversion HF; subst; [lia | auto].
Qed.

(** What [configureDex] does when the owner calls it. *)
Lemma configureDex_by_owner sender dexName router defaultFee maxGasUsage
    tiers s t :
  owner s = sender ->
  (router = 0 \/ dexName = "" ->
   configureDex sender dexName router defaultFee maxGasUsage tiers s t =
     Revert (InvalidSetup 2) t) /\
  (router <> 0 -> dexName <> "" ->
   Exists (fun fee => MAX_BPS <= fee) tiers ->
   configureDex sender dexName router defaultFee maxGasUsage tiers s t =
     Revert (InvalidSetup 3) t) /\
  (router <> 0 -> dexName <> "" ->
   Forall (fun fee => fee < MAX_BPS) tiers ->
   exists s',
     configureDex sender dexName router defaultFee maxGasUsage tiers s t =
       Ok tt s'
         (t ++ [Emit (DexConfigured dexName router defaultFee maxGasUsage)]) /\
     getDexConfig s' dexName = (router, defaultFee, maxGasUsage, true)).
Proof.
  intros Hown. unfold configureDex, onlyOwner.
  assert (Hguard : forall B (f : unit -> M B),
    bind (let* s0 := get in
          if owner s0 =? sender then ret tt
          else revert (ErrorString "Ownable: caller is not the owner")) f s t
    = f tt s t).
  { intros B f. run. rewrite Hown, Z.eqb_refl. run. reflexivity. }
  repeat split.
  - intros Hbad. rewrite Hguard.
    assert ((router =? 0) || (strlen dexName =? 0) = true) as ->.
    { apply orb_true_iff. destruct Hbad as [-> | ->]; [left | right]; reflexivity. }
    reflexivity.
  - intros Hr Hn Hex. rewrite Hguard.
    assert ((router =? 0) || (strlen dexName =? 0) = false) as ->.
    { apply orb_false_iff. split; [apply Z.eqb_neq; assumption|].
      destruct (strlen dexName =? 0) eqn:E; [|reflexivity].
      apply strlen_zero in E. contradiction. }
    run.
    destruct (_compareStrings dexName "uniswap");
      [| destruct (_compareStrings dexName "traderjoe")];
      run; rewrite (bind_eq_ok _ _ _ _ _ _ _ eq_refl) || idtac;
      unfold bind; rewrite recordFeeTiers_fails by assumption; reflexivity.
  - intros Hr Hn Hall. rewrite Hguard.
    assert ((router =? 0) || (strlen dexName =? 0) = false) as ->.
    { apply orb_false_iff. split; [apply Z.eqb_neq; assumption|].
      destruct (strlen dexName =? 0) eqn:E; [|reflexivity].
      apply strlen_zero in E. contradiction. }
    run.
    assert (Hgo : forall s1,
      dex_router (dexConfigOf s1 dexName) = router ->
      dex_isEnabled (dexConfigOf s1 dexName) = true ->
      dex_defaultFee (dexConfigOf s1 dexName) = defaultFee ->
      dex_maxGasUsage (dexConfigOf s1 dexName) = maxGasUsage ->
      exists s',
        bind (recordFeeTiers dexName tiers)
          (fun _ => emit (DexConfigured dexName router defaultFee maxGasUsage))
          s1 t =
        Ok tt s'
          (t ++ [Emit (DexConfigured dexName router defaultFee maxGasUsage)]) /\
        getDexConfig s' dexName = (router, defaultFee, maxGasUsage, true)).
    { intros s1 H1 H2 H3 H4.
      destruct (recordFeeTiers_ok dexName tiers s1 t Hall)
        as (s' & E & Hr' & He' & Hf' & Hg').
      exists s'. rewrite (bind_eq_ok _ _ _ _ _ _ _ E). split; [reflexivity|].
      unfold getDexConfig. cbv zeta. rewrite Hr', He', Hf', Hg', H1, H2, H3, H4.
      reflexivity. }
    destruct (_compareStrings dexName "uniswap");
      [| destruct (_compareStrings dexName "traderjoe")];
      run; apply Hgo; unfold dexConfigOf; storage;
      rewrite lookup_insert_eq; reflexivity.
Qed.

(** * The claims *)

(** C7. The cumulative profit counters [metrics.totalProfit] and
    [metrics.flashLoanProfit] are never decremented: over any transaction
    (any entry point, any sender, any world, with calls back into the
    contract nested to any depth) each counter grows by exactly the sum of
    the strictly positive profits the committed log reports, that of the
    [ArbitrageExecuted] events for [totalProfit] and that of the completed
    [FlashLoanEvent]s for [flashLoanProfit]; a zero or negative profit adds
    nothing, and a reverted transaction changes nothing. *)
Theorem C7_profit_counters_only_grow this keccak enc n sender op s :
  let s' := fst (fst (transact this keccak enc n sender op s)) in
  let committed := snd (fst (transact this keccak enc n sender op s)) in
  totalProfit (metrics s') =
    totalProfit (metrics s) + gains tradeGain committed /\
  flashLoanProfit (metrics s') =
    flashLoanProfit (metrics s) + gains loanGain committed /\
  totalProfit (metrics s) <= totalProfit (metrics s') /\
  flashLoanProfit (metrics s) <= flashLoanProfit (metrics s').
Proof.
  cbv zeta.
  destruct (transact_evolves this keccak enc n sender op s)
    as (l & Hl & HT & HF & _).
  cbn [app] in Hl. rewrite Hl in *.
  pose proof (gains_nonneg tradeGain l tradeGain_nonneg).
  pose proof (gains_nonneg loanGain l loanGain_nonneg).
  repeat split; lia.
Qed.

(** C1. Profit gate.  With test mode off, a run of the arbitrage engine
    that returns (so that its [ArbitrageExecuted] event is committed) has a
    trade profit strictly greater than 0, and that is the profit the event
    carries.  With test mode off, a run whose two swaps went through and
    whose trade profit is zero or negative reverts with
    [InsufficientProfit] without having logged [ArbitrageExecuted], and the
    caller that catches the failure finds storage and log as they were
    before the call. *)
Theorem C1_profit_gate (this : Z) (enc : Error -> string) {C : Type}
    (reenter : C -> State -> Trace -> State * Trace)
    (p : ArbitrageParams) (w : EngineWorld C) (s : State) (t : Trace) :
  testMode p = false ->
  (forall r s' t',
     executeArbitrageInternal enc reenter p w s t = Ok r s' t' ->
     0 < r /\
     r = saturate (w_finalAccountBalance w - w_initialAccountBalance w) /\
     exists l tfb ep,
       t' = l ++ [Emit (ArbitrageExecuted (sourceToken p) (targetToken p)
                          (amount p) (w_finalAccountBalance w) tfb r ep
                          false)]) /\
  (forall x s1 t1,
     executeArbitrageInternal_legs enc reenter p w s t = Ok x s1 t1 ->
     saturate (w_finalAccountBalance w - w_initialAccountBalance w) <= 0 ->
     is_uint256 (amount p) -> is_int256 (expectedSecondOutput p) ->
     (exists l,
        executeArbitrageInternal enc reenter p w s t =
          Revert InsufficientProfit (t1 ++ l) /\ nolog l = true) /\
     tryCall (executeArbitrageWrapper this enc reenter this p w) s t =
       Ok (inr InsufficientProfit) s t).
Proof.
  intros Htm. split.
  - intros r s' t' H.
    apply engine_ok in H as (Hr & _ & _ & Hgate & l & tfb & ep & Ht).
    rewrite Htm in Ht. split; [exact (Hgate Htm) | split; [exact Hr | eauto]].
  - intros x s1 t1 Hlegs Hloss [Hamt _] Hexp.
    destruct (engine_unprofitable enc reenter p w s t x s1 t1
                Hlegs Htm Hloss Hamt Hexp) as (l & E & N).
    split; [eauto|].
    unfold tryCall. rewrite wrapper_self, E. reflexivity.
Qed.

Lemma C1_profit_gate_witness :
  (0 < 5 /\
   5 = saturate (w_finalAccountBalance (exTrade 1005) -
                 w_initialAccountBalance (exTrade 1005))) /\
  tryCall (executeArbitrageWrapper exThis exEncode
             (reenterAt exThis exKeccak exEncode 0) exThis exParams
             (exTrade 990)) exState [] =
    Ok (inr InsufficientProfit) exState [].
Proof.
  split.
  - destruct (C1_profit_gate exThis exEncode
                (reenterAt exThis exKeccak exEncode 0) exParams (exTrade 1005)
                exState [] eq_refl) as [Hcommitted _].
    edestruct Hcommitted as (Hpos & Hval & _).
    + vm_compute. reflexivity.
    + split; [exact Hpos | exact Hval].
  - destruct (C1_profit_gate exThis exEncode
                (reenterAt exThis exKeccak exEncode 0) exParams (exTrade 990)
                exState [] eq_refl) as [_ Hgate].
    edestruct Hgate as [_ Hrolled].
    + vm_compute. reflexivity.
    + vm_compute. discriminate.
    + vm_compute. split; discriminate.
    + vm_compute. split; discriminate.
    + exact Hrolled.
Defined.

(** C2 (as amended).  Replay protection holds after a run that returned:
    once a run of the engine for an execution id has returned, every later
    run for the same id, in the storage left by any sequence of further
    transactions, fails with [InvalidExecutionId] before doing anything.
    A run that reverts is rolled back with its mark: the caller that
    catches the failure finds storage and log as before the call. *)
Theorem C2_replay_after_returned_run this keccak enc n
    (p : ArbitrageParams) (w : EngineWorld (Calls n)) s t r s' t' :
  executeArbitrageWrapper this enc (reenterAt this keccak enc n) this p w s t
    = Ok r s' t' ->
  (forall m txs k (p2 : ArbitrageParams) (w2 : EngineWorld (Calls k)) t2,
     executionId p2 = executionId p ->
     executeArbitrageWrapper this enc (reenterAt this keccak enc k) this p2 w2
       (runAll this keccak enc m txs s') t2 = Revert InvalidExecutionId t2) /\
  (forall k (p2 : ArbitrageParams) (w2 : EngineWorld (Calls k)) s2 t2 e s3 t3,
     tryCall (executeArbitrageWrapper this enc (reenterAt this keccak enc k)
                this p2 w2) s2 t2 = Ok (inr e) s3 t3 ->
     s3 = s2 /\ t3 = t2).
Proof.
  intros H. split.
  - intros m txs k p2 w2 t2 Hid.
    rewrite wrapper_self in H.
    apply (engine_marks this keccak enc _
             (reenterAt_evolves this keccak enc n)) in H.
    apply wrapper_replay. unfold isExecuted. apply bool_decide_eq_true_2.
    rewrite Hid. pose proof (runAll_executed this keccak enc m txs s').
    set_solver.
  - clear H. intros k p2 w2 s2 t2 e s3 t3. unfold tryCall.
    destruct (executeArbitrageWrapper _ _ _ _ p2 w2 s2 t2);
      intros E; inversion E; subst; split; reflexivity.
Qed.

Lemma C2_replay_after_returned_run_witness :
  executeArbitrageWrapper exThis exEncode (reenterAt exThis exKeccak exEncode 0)
    exThis exParams (exTrade 1005) exAfterTrade [] =
  Revert InvalidExecutionId [].
Proof.
  refine (proj1 (C2_replay_after_returned_run exThis exKeccak exEncode 0%nat
                   exParams (exTrade 1005) exState [] 5 exAfterTrade _ _)
            0%nat [] 0%nat exParams (exTrade 1005) [] eq_refl).
  vm_compute. reflexivity.
Defined.

(** C2, as stated, fails when the first run fails: the first swap reverts,
    the run fails with [FirstSwapFailed] and is rolled back; a second run
    with the same execution id in the storage so left is not refused, it
    returns a profit of 5.  The same through whole transactions: a flash
    loan whose engine run fails at the first swap still completes and
    leaves id 77 unmarked; the same request repeated in the same block
    derives the same id, and its engine run goes through. *)
Lemma C2_replay_counterexample :
  (tryCall (executeArbitrageWrapper exThis exEncode
              (reenterAt exThis exKeccak exEncode 0) exThis exParams
              exFirstSwapFails) exState [] =
     Ok (inr (FirstSwapFailed "Failed First Swap")) exState [] /\
   match
     executeArbitrageWrapper exThis exEncode
       (reenterAt exThis exKeccak exEncode 0) exThis exParams (exTrade 1005)
       exState []
   with
   | Ok r _ _ => r = 5
   | Revert _ _ => False
   end) /\
  (snd (transact exThis exKeccak exEncode 1 2
          (exLoanRequest exFirstSwapFails) exState) = inl (RetUint 1005) /\
   isExecuted exAfterFailedAttempt 77 = false /\
   isExecuted exAfterSecondAttempt 77 = true /\
   totalProfit (metrics exAfterSecondAttempt) = 5).
Proof. repeat split; vm_compute; reflexivity. Qed.



(** C4. A failed flash-loan request is not fatal.  When the call passes
    its guards and validations and the vault's [flashLoan] fails, with a
    reason string, a panic or any other revert data,
    [executeFlashLoanArbitrage] returns: [metrics.flashLoanFailed] and
    [metrics.flashLoanExecutions] are each one higher, the context stored
    for the derived execution id is deleted, nothing else in storage
    changed, and the value returned is the balance the source token answers
    after the failure.  The counters are assumed not to be at the largest
    [uint256], where the checked increment would fail. *)
Theorem C4_failed_loan_request_returns
    (keccak : Z -> Z -> Z -> Z -> Z -> Z -> Z -> Z -> Z)
    (enc : Error -> string) {C : Type}
    (reenter : C -> State -> Trace -> State * Trace)
    sender blockTimestamp blockNumber src tgt amt data1 data2 router1 router2
    mode expected1 expected2 (w : LoanWorld C) s t e :
  entered s = false -> paused s = false ->
  src <> tgt -> amt <> 0 -> balancerVault s <> 0 ->
  token_isEnabled (tokenConfigOf s src) = true ->
  outcome (w_flashLoan w) = Reverted e ->
  flashLoanFailed (metrics s) < MAX_UINT256 ->
  flashLoanExecutions (metrics s) < MAX_UINT256 ->
  let id :=
    keccak src tgt amt router1 router2 blockTimestamp blockNumber sender in
  (exists t',
     executeFlashLoanArbitrage keccak enc reenter sender blockTimestamp
       blockNumber src tgt amt data1 data2 router1 router2 mode expected1
       expected2 w s t =
     Ok (w_postCallBalance w) (afterFailedLoan id s) t') /\
  flashLoanFailed (metrics (afterFailedLoan id s)) =
    flashLoanFailed (metrics s) + 1 /\
  flashLoanExecutions (metrics (afterFailedLoan id s)) =
    flashLoanExecutions (metrics s) + 1 /\
  flashLoanContexts (afterFailedLoan id s) !! id = None.
Proof.
  intros Hent Hpaused Htok Hamt Hvault Hen Hfail Hc1 Hc2 id.
  split; [| repeat split; [apply lookup_delete_eq]].
  unfold executeFlashLoanArbitrage, nonReentrant, whenNotPaused. cbv zeta.
  apply Z.eqb_neq in Htok, Hamt, Hvault.
  run. rewrite Hent. run. storage. rewrite Hpaused.
  rewrite Htok. run. rewrite Hamt. run. storage. rewrite Hvault. run.
  unfold tokenConfigOf in *. storage. rewrite Hen. cbn [negb]. run. storage.
  rewrite (run_external_reverted _ _ _ _ _ _ _ _ Hfail).
  fold id.
  match goal with
  | |- context [set_flashLoanContexts ?m (set_entered true s)] =>
      set (s1 := set_flashLoanContexts m (set_entered true s))
  end.
  assert (H1 : flashLoanFailed (metrics s1) < MAX_UINT256) by exact Hc1.
  assert (H2 : flashLoanExecutions (metrics s1) < MAX_UINT256) by exact Hc2.
  assert (Hfin : set_entered false (afterFailedLoan id s1)
                 = afterFailedLoan id s).
  { unfold afterFailedLoan, s1. destruct s; cbn in *. subst.
    unfold set_entered, set_flashLoanContexts, updMetrics, set_metrics; cbn.
    f_equal. apply delete_insert_eq. }
  destruct (classify e);
    rewrite (bind_eq_ok _ _ _ _ _ _ _
               (flashLoanFailure_ok _ _ _ _ _ _ _ H1 H2));
    run; rewrite Hfin; eexists; reflexivity.
Qed.

Lemma C4_failed_loan_request_returns_witness :
  (exists t',
     executeFlashLoanArbitrage exKeccak exEncode
       (reenterAt exThis exKeccak exEncode 0) 2 1000 10 5 6 100 "" "" 11 12
       false 50 105 exLoanFails exState [] =
     Ok 1000 (afterFailedLoan 77 exState) t') /\
  (exists t',
     executeFlashLoanArbitrage exKeccak exEncode
       (reenterAt exThis exKeccak exEncode 0) 2 1000 10 5 6 100 "" "" 11 12
       false 50 105 exLoanPanics exState [] =
     Ok 1000 (afterFailedLoan 77 exState) t') /\
  (exists t',
     executeFlashLoanArbitrage exKeccak exEncode
       (reenterAt exThis exKeccak exEncode 0) 2 1000 10 5 6 100 "" "" 11 12
       false 50 105 exLoanRawFailure exState [] =
     Ok 1000 (afterFailedLoan 77 exState) t').
Proof.
  split; [| split].
  - refine (proj1 (C4_failed_loan_request_returns exKeccak exEncode
                     (reenterAt exThis exKeccak exEncode 0) 2 1000 10 5 6 100
                     "" "" 11 12 false 50 105 exLoanFails exState []
                     (ErrorString "BAL#515") _ _ _ _ _ _ _ _ _));
      first [ reflexivity | vm_compute; congruence ].
  - refine (proj1 (C4_failed_loan_request_returns exKeccak exEncode
                     (reenterAt exThis exKeccak exEncode 0) 2 1000 10 5 6 100
                     "" "" 11 12 false 50 105 exLoanPanics exState []
                     (Panic 17) _ _ _ _ _ _ _ _ _));
      first [ reflexivity | vm_compute; congruence ].
  - refine (proj1 (C4_failed_loan_request_returns exKeccak exEncode
                     (reenterAt exThis exKeccak exEncode 0) 2 1000 10 5 6 100
                     "" "" 11 12 false 50 105 exLoanRawFailure exState []
                     (RawRevert "oops") _ _ _ _ _ _ _ _ _));
      first [ reflexivity | vm_compute; congruence ].
Defined.

(** C5 (as amended).  Called by the owner, [configureDex] fails exactly
    when the router is the zero address, the name is empty, or some fee
    tier is 10000 bps or more; when it returns, [getDexConfig] of that name
    gives (router, defaultFee, maxGasUsage, true).  So
    [configureDex("uniswap", ROUTER_A, 30, 3_000_000, tiers)] succeeds for
    tiers below 10000, such as [100, 500, 3000]. *)
Theorem C5_configureDex_then_getDexConfig sender dexName router defaultFee
    maxGasUsage (supportedFeeTiers : list Z) s t :
  owner s = sender ->
  ((exists e t',
      configureDex sender dexName router defaultFee maxGasUsage
        supportedFeeTiers s t = Revert e t') <->
   (router = 0 \/ dexName = "" \/
    Exists (fun fee => MAX_BPS <= fee) supportedFeeTiers)) /\
  (forall r s' t',
     configureDex sender dexName router defaultFee maxGasUsage
       supportedFeeTiers s t = Ok r s' t' ->
     getDexConfig s' dexName = (router, defaultFee, maxGasUsage, true)).
Proof.
  intros Hown.
  destruct (configureDex_by_owner sender dexName router defaultFee
              maxGasUsage supportedFeeTiers s t Hown) as (H2 & H3 & Hok).
  destruct (Z.eq_dec router 0) as [Hr | Hr];
    [| destruct (string_dec dexName "") as [Hn | Hn];
       [| destruct (tiers_ok_or_not supportedFeeTiers) as [Hall | Hex]]].
  - split; [split; [intros _; left; exact Hr | intros _] |].
    + rewrite H2 by (left; exact Hr). eauto.
    + intros r s' t'. rewrite H2 by (left; exact Hr). discriminate.
  - split; [split; [intros _; right; left; exact Hn | intros _] |].
    + rewrite H2 by (right; exact Hn). eauto.
    + intros r s' t'. rewrite H2 by (right; exact Hn). discriminate.
  - destruct (Hok Hr Hn Hall) as (s1 & E & Hget).
    split; [split |].
    + intros (e & t' & E'). rewrite E in E'. discriminate.
    + intros [H | [H | H]]; [contradiction | contradiction |].
      exfalso. eapply tiers_not_both; eauto.
    + intros r s' t' E'. rewrite E in E'. inversion E'; subst. exact Hget.
  - split; [split; [intros _; right; right; exact Hex | intros _] |].
    + rewrite (H3 Hr Hn Hex). eauto.
    + intros r s' t'. rewrite (H3 Hr Hn Hex). discriminate.
Qed.

Lemma C5_configureDex_then_getDexConfig_witness :
  exists s' t',
    configureDex exOwner "uniswap" ROUTER_A 30 3000000 [100; 500; 3000]
      exState [] = Ok tt s' t' /\
    getDexConfig s' "uniswap" = (ROUTER_A, 30, 3000000, true).
Proof.
  destruct (configureDex exOwner "uniswap" ROUTER_A 30 3000000
              [100; 500; 3000] exState []) as [r s' t' | e t'] eqn:E.
  - destruct r. exists s', t'. split; [reflexivity |].
    exact (proj2 (C5_configureDex_then_getDexConfig exOwner "uniswap"
                    ROUTER_A 30 3000000 [100; 500; 3000] exState []
                    eq_refl) tt s' t' E).
  - vm_compute in E. discriminate.
Defined.

(** C5, as stated, fails on its own example: the tier list
    [100, 500, 3000, 10000] holds a tier of 10000 bps, and the owner's call
    reverts with [InvalidSetup(3)]. *)
Lemma C5_configureDex_example_counterexample :
  configureDex exOwner "uniswap" ROUTER_A 30 3000000 [100; 500; 3000; 10000]
    exState [] = Revert (InvalidSetup 3) [].
Proof. vm_compute. reflexivity. Qed.

(** C6 (as amended).  A call of [executeFlashLoanArbitrage] with equal
    tokens, a zero amount or a source token that is not enabled always
    fails, and the log carried by the revert is the log at entry: no event
    was emitted and no other contract was called, and a revert leaves
    storage as it was.  Which error it fails with follows the order of the
    checks.  For a call that passes the reentrancy and pause guards: equal
    tokens fail with [InvalidTokens]; otherwise a zero amount fails with
    [ZeroAmount]; otherwise, the vault address being set, a source token
    that is not enabled fails with [DisabledToken]. *)
Theorem C6_validation_fails_before_any_effect
    (keccak : Z -> Z -> Z -> Z -> Z -> Z -> Z -> Z -> Z)
    (enc : Error -> string) {C : Type}
    (reenter : C -> State -> Trace -> State * Trace)
    sender blockTimestamp blockNumber src tgt amt data1 data2 router1 router2
    mode expected1 expected2 (w : LoanWorld C) s t :
  let call :=
    executeFlashLoanArbitrage keccak enc reenter sender blockTimestamp
      blockNumber src tgt amt data1 data2 router1 router2 mode expected1
      expected2 w s t in
  (src = tgt \/ amt = 0 \/ token_isEnabled (tokenConfigOf s src) = false ->
   exists e, call = Revert e t) /\
  (entered s = false -> paused s = false ->
   (src = tgt -> call = Revert InvalidTokens t) /\
   (src <> tgt -> amt = 0 -> call = Revert ZeroAmount t) /\
   (src <> tgt -> amt <> 0 -> balancerVault s <> 0 ->
    token_isEnabled (tokenConfigOf s src) = false ->
    call = Revert DisabledToken t)).
Proof.
  intros call. subst call.
  unfold executeFlashLoanArbitrage, nonReentrant, whenNotPaused. cbv zeta.
  run. split.
  - intros Hbad.
    destruct (entered s); [eexists; reflexivity |]. run. storage.
    destruct (paused s); [eexists; reflexivity |].
    destruct (src =? tgt) eqn:Htok; [eexists; reflexivity |]. run.
    destruct (amt =? 0) eqn:Hamt; [eexists; reflexivity |]. run. storage.
    destruct (balancerVault s =? 0); [eexists; reflexivity |]. run.
    unfold tokenConfigOf in *. storage.
    destruct (token_isEnabled _) eqn:Hen; [| eexists; reflexivity].
    exfalso. apply Z.eqb_neq in Htok, Hamt.
    destruct Hbad as [H | [H | H]]; [contradiction | contradiction | discriminate].
  - intros Hent Hpaused. rewrite Hent. run. storage. rewrite Hpaused.
    split; [| split].
    + intros ->. rewrite Z.eqb_refl. run. reflexivity.
    + intros Htok ->. apply Z.eqb_neq in Htok. rewrite Htok. run. reflexivity.
    + intros Htok Hamt Hvault Hen. apply Z.eqb_neq in Htok, Hamt, Hvault.
      rewrite Htok. run. rewrite Hamt. run. storage. rewrite Hvault. run.
      unfold tokenConfigOf in *. storage. rewrite Hen. reflexivity.
Qed.

Lemma C6_validation_fails_before_any_effect_witness :
  executeFlashLoanArbitrage exKeccak exEncode
    (reenterAt exThis exKeccak exEncode 0) 2 1000 10 5 5 100 "" "" 11 12
    false 50 105 exLoanFails exState [] = Revert InvalidTokens [] /\
  executeFlashLoanArbitrage exKeccak exEncode
    (reenterAt exThis exKeccak exEncode 0) 2 1000 10 5 6 0 "" "" 11 12
    false 50 105 exLoanFails exState [] = Revert ZeroAmount [] /\
  executeFlashLoanArbitrage exKeccak exEncode
    (reenterAt exThis exKeccak exEncode 0) 2 1000 10 6 5 100 "" "" 11 12
    false 50 105 exLoanFails exState [] = Revert DisabledToken [].
Proof.
  split; [| split].
  - apply (proj2 (C6_validation_fails_before_any_effect exKeccak exEncode
             (reenterAt exThis exKeccak exEncode 0) 2 1000 10 5 5 100 "" ""
             11 12 false 50 105 exLoanFails exState []) eq_refl eq_refl).
    reflexivity.
  - apply (proj2 (C6_validation_fails_before_any_effect exKeccak exEncode
             (reenterAt exThis exKeccak exEncode 0) 2 1000 10 5 6 0 "" ""
             11 12 false 50 105 exLoanFails exState []) eq_refl eq_refl);
      [vm_compute; congruence | reflexivity].
  - apply (proj2 (C6_validation_fails_before_any_effect exKeccak exEncode
             (reenterAt exThis exKeccak exEncode 0) 2 1000 10 6 5 100 "" ""
             11 12 false 50 105 exLoanFails exState []) eq_refl eq_refl);
      first [ reflexivity | vm_compute; congruence ].
Defined.

(** C6, as stated, fails where two of its conditions meet: with equal
    tokens and a zero amount the call fails with [InvalidTokens], not with
    [ZeroAmount]. *)
Lemma C6_zero_amount_counterexample :
  executeFlashLoanArbitrage exKeccak exEncode
    (reenterAt exThis exKeccak exEncode 0) 2 1000 10 5 5 0 "" "" 11 12
    false 50 105 exLoanFails exState [] = Revert InvalidTokens [] /\
  Revert (A := Z) InvalidTokens [] <> Revert ZeroAmount [].
Proof. split; [vm_compute; reflexivity | discriminate]. Qed.

(** C8.  The code at the failing input: a token the owner configures with
    0 decimals, which [configureToken] accepts and enables, cannot be
    toggled afterwards; [setTokenEnabled] rejects it with
    [InvalidSetup(7)] as if it had never been configured. *)
Theorem C8_zero_decimals_token_cannot_be_toggled sender token maxAmount
    minAmount s t :
  owner s = sender -> token <> 0 -> minAmount < maxAmount ->
  exists s1 t1,
    configureToken sender token maxAmount minAmount 0 s t = Ok tt s1 t1 /\
    token_isEnabled (tokenConfigOf s1 token) = true /\
    forall isEnabled t2,
      setTokenEnabled sender token isEnabled s1 t2 =
        Revert (InvalidSetup 7) t2.
Proof.
  intros Hown Htok Hlt.
  apply Z.eqb_neq in Htok.
  assert (Hmax : (maxAmount <=? minAmount) = false) by (apply Z.leb_gt; lia).
  do 2 eexists. split; [| split].
  - unfold configureToken, onlyOwner. run.
    rewrite Hown, Z.eqb_refl. run. rewrite Htok. run. rewrite Hmax. run.
    cbn [Z.ltb Z.compare]. run. reflexivity.
  - unfold tokenConfigOf. storage. rewrite lookup_insert_eq. reflexivity.
  - intros isEnabled t2. unfold setTokenEnabled, onlyOwner. run. storage.
    rewrite Hown, Z.eqb_refl. run. rewrite Htok. run.
    unfold tokenConfigOf. storage. rewrite lookup_insert_eq. reflexivity.
Qed.

Lemma C8_zero_decimals_token_cannot_be_toggled_witness :
  exists s1 t1,
    configureToken exOwner 7 10 1 0 exState [] = Ok tt s1 t1 /\
    token_isEnabled (tokenConfigOf s1 7) = true /\
    forall isEnabled t2,
      setTokenEnabled exOwner 7 isEnabled s1 t2 = Revert (InvalidSetup 7) t2.
Proof.
  apply (C8_zero_decimals_token_cannot_be_toggled exOwner 7 10 1 exState []).
  - reflexivity.
  - vm_compute. congruence.
  - lia.
Defined.

(** C9.  [configurePool] fails whenever the named DEX was never configured
    or is not enabled, and also when the pool is the zero address, the fee
    is 10000 bps or more, or the router of the DEX is unset;
    [configureToken] fails whenever maxAmount <= minAmount, equal values
    included.  Either failure leaves the log as it was. *)
Theorem C9_configuration_preconditions :
  (forall sender pool fee minLiquidity dexName s t,
     dexConfigs s !! dexName = None \/
     dex_isEnabled (dexConfigOf s dexName) = false \/
     pool = 0 \/ MAX_BPS <= fee \/
     dex_router (dexConfigOf s dexName) = 0 ->
     exists e,
       configurePool sender pool fee minLiquidity dexName s t = Revert e t) /\
  (forall sender token maxAmount minAmount decimals s t,
     maxAmount <= minAmount ->
     exists e,
       configureToken sender token maxAmount minAmount decimals s t =
         Revert e t).
Proof.
  split.
  - intros sender pool fee minLiquidity dexName s t Hbad.
    assert (Hbad' :
      dex_isEnabled (dexConfigOf s dexName) = false \/
      pool = 0 \/ MAX_BPS <= fee \/
      dex_router (dexConfigOf s dexName) = 0).
    { destruct Hbad as [Hnone | H]; [left | exact H].
      unfold dexConfigOf. rewrite Hnone. reflexivity. }
    clear Hbad. unfold configurePool, onlyOwner. run.
    destruct (owner s =? sender); [| eexists; reflexivity]. run.
    destruct (pool =? 0) eqn:Hpool; [eexists; reflexivity |]. run.
    destruct (dex_isEnabled (dexConfigOf s dexName)) eqn:Hen;
      [| eexists; reflexivity].
    cbn [negb]. run.
    destruct (MAX_BPS <=? fee) eqn:Hfee; [eexists; reflexivity |]. run.
    destruct (dex_router (dexConfigOf s dexName) =? 0) eqn:Hrouter;
      [eexists; reflexivity |].
    exfalso. apply Z.eqb_neq in Hpool, Hrouter. apply Z.leb_gt in Hfee.
    destruct Hbad' as [H | [H | [H | H]]];
      [discriminate | contradiction | lia | contradiction].
  - intros sender token maxAmount minAmount decimals s t Hle.
    unfold configureToken, onlyOwner. run.
    destruct (owner s =? sender); [| eexists; reflexivity]. run.
    destruct (token =? 0); [eexists; reflexivity |]. run.
    assert ((maxAmount <=? minAmount) = true) as -> by (apply Z.leb_le; lia).
    eexists. reflexivity.
Qed.

Lemma C9_configuration_preconditions_witness :
  configurePool exOwner 21 30 0 "uniswap" exState [] =
    Revert (InvalidSetup 5) [] /\
  configureToken exOwner 7 10 10 18 exState [] = Revert (InvalidSetup 8) [].
Proof.
  destruct C9_configuration_preconditions as [Hpool Htoken].
  split.
  - destruct (Hpool exOwner 21 30 0 "uniswap" exState [] (or_introl eq_refl))
      as (e & E).
    rewrite E. vm_compute in E. congruence.
  - destruct (Htoken exOwner 7 10 10 18 exState [] (Z.le_refl 10)) as (e & E).
    rewrite E. vm_compute in E. congruence.
Defined.

(** C10.  [getContractStats] never divides by zero: with no execution
    recorded the success rate is 0.  It returns whenever
    [successfulExecutions * 10000] fits a [uint256] (or no execution is
    recorded): the success rate is then that product divided by
    [totalExecutions], and the failed count returned is
    [totalExecutions - successfulExecutions], or 0 when that would be
    negative, whatever [metrics.failedExecutions] holds.  The side
    condition is that of the checked multiplication, which fails with
    [Panic(0x11)] when the product does not fit: [successfulExecutions]
    rises by one for each successful trade, so it leaves out only storage
    that records more than [2^256 / 10000] of them. *)
Theorem C10_getContractStats s t :
  let m := metrics s in
  0 <= totalExecutions m ->
  (totalExecutions m = 0 \/ successfulExecutions m * 10000 <= MAX_UINT256 ->
   getContractStats s t =
     Ok (totalExecutions m, successfulExecutions m,
         (if successfulExecutions m <? totalExecutions m
          then totalExecutions m - successfulExecutions m else 0),
         (if totalExecutions m =? 0 then 0
          else successfulExecutions m * 10000 / totalExecutions m),
         totalProfit m) s t) /\
  (0 < totalExecutions m -> MAX_UINT256 < successfulExecutions m * 10000 ->
   getContractStats s t = Revert (Panic 17) t).
Proof.
  intros m Htotal. subst m. unfold getContractStats, checkedMul. cbv zeta.
  run. split.
  - intros [Hzero | Hfits].
    + rewrite Hzero. reflexivity.
    + destruct (0 <? totalExecutions (metrics s)) eqn:Hpos.
      * apply Z.ltb_lt in Hpos.
        assert ((totalExecutions (metrics s) =? 0) = false) as ->
          by (apply Z.eqb_neq; lia).
        assert ((successfulExecutions (metrics s) * 10000 <=? MAX_UINT256)
                = true) as -> by (apply Z.leb_le; assumption).
        reflexivity.
      * apply Z.ltb_ge in Hpos.
        assert ((totalExecutions (metrics s) =? 0) = true) as ->
          by (apply Z.eqb_eq; lia).
        reflexivity.
  - intros Hpos Hover.
    assert ((0 <? totalExecutions (metrics s)) = true) as ->
      by (apply Z.ltb_lt; assumption).
    assert ((successfulExecutions (metrics s) * 10000 <=? MAX_UINT256)
            = false) as -> by (apply Z.leb_gt; assumption).
    reflexivity.
Qed.

Lemma C10_getContractStats_witness :
  getContractStats exAfterTrade [] = Ok (1, 1, 0, 10000, 5) exAfterTrade [].
Proof.
  refine (proj1 (C10_getContractStats exAfterTrade [] _) _).
  - vm_compute. congruence.
  - right. vm_compute. congruence.
Defined.

(** * Further properties *)

(** X1. [receiveFlashLoan] called by anyone but the vault fails with
    [UnauthorizedCaller] before any effect. *)
Theorem X1_callback_only_from_the_vault (this : Z) (enc : Error -> string)
    {C : Type} (reenter : C -> State -> Trace -> State * Trace)
    sender amounts feeAmounts userData (w : CallbackWorld C) s t :
  sender <> balancerVault s ->
  receiveFlashLoan this enc reenter sender amounts feeAmounts userData w s t =
    Revert UnauthorizedCaller t.
Proof.
  intros H. apply Z.eqb_neq in H. unfold receiveFlashLoan. cbv zeta.
  run. rewrite H. reflexivity.
Qed.

Lemma X1_callback_only_from_the_vault_witness :
  receiveFlashLoan exThis exEncode (reenterAt exThis exKeccak exEncode 0) 2
    [100] [0] (abiEncodeWord 77) (exCallback (exTrade 1005)) exState [] =
    Revert UnauthorizedCaller [].
Proof.
  apply (X1_callback_only_from_the_vault exThis exEncode
           (reenterAt exThis exKeccak exEncode 0) 2 [100] [0]
           (abiEncodeWord 77) (exCallback (exTrade 1005)) exState []).
  vm_compute. congruence.
Defined.

(** X2. [executeArbitrageWrapper] called by anyone but the contract itself
    fails with the reason "Unauthorized" before any effect. *)
Theorem X2_engine_only_from_the_contract (this : Z) (enc : Error -> string)
    {C : Type} (reenter : C -> State -> Trace -> State * Trace)
    sender p (w : EngineWorld C) s t :
  sender <> this ->
  executeArbitrageWrapper this enc reenter sender p w s t =
    Revert (ErrorString "Unauthorized") t.
Proof.
  intros H. apply Z.eqb_neq in H. unfold executeArbitrageWrapper.
  rewrite H. reflexivity.
Qed.

Lemma X2_engine_only_from_the_contract_witness :
  executeArbitrageWrapper exThis exEncode
    (reenterAt exThis exKeccak exEncode 0) 2 exParams (exTrade 1005)
    exState [] = Revert (ErrorString "Unauthorized") [].
Proof.
  apply (X2_engine_only_from_the_contract exThis exEncode
           (reenterAt exThis exKeccak exEncode 0) 2 exParams (exTrade 1005)
           exState []).
  vm_compute. congruence.
Defined.

(** X3. A first swap that goes through without raising the balance of the
    target token makes the engine fail with [NoIntermediateTokens] (here
    for a run that needs no new approval of the first router). *)
Theorem X3_no_intermediate_tokens (enc : Error -> string)
    {C : Type} (reenter : C -> State -> Trace -> State * Trace)
    p (w : EngineWorld C) s t data :
  isExecuted s (executionId p) = false ->
  amount p <= w_currentAllowanceFirst w ->
  outcome (w_firstSwap w) = Returned data ->
  w_currentTargetBalance w <= w_initialTargetBalance w ->
  exists t',
    executeArbitrageInternal enc reenter p w s t =
      Revert NoIntermediateTokens t'.
Proof.
  intros Hnew Hallow Hswap Hnone.
  unfold executeArbitrageInternal, executeArbitrageInternal_legs. cbv zeta.
  run. rewrite Hnew. run.
  assert ((w_currentAllowanceFirst w <? amount p) = false) as ->
    by (apply Z.ltb_ge; assumption).
  run.
  assert ((w_initialTargetBalance w <? w_currentTargetBalance w) = false)
    as Hlt by (apply Z.ltb_ge; assumption).
  destruct (0 <? expectedFirstOutput p); run;
    rewrite (run_external_returned _ _ _ _ _ _ _ _ Hswap); run;
    rewrite Hlt; run; cbn [Z.eqb]; run; eexists; reflexivity.
Qed.

Lemma X3_no_intermediate_tokens_witness :
  exists t',
    executeArbitrageInternal exEncode (reenterAt exThis exKeccak exEncode 0)
      exParams exNothingReceived exState [] = Revert NoIntermediateTokens t'.
Proof.
  apply (X3_no_intermediate_tokens exEncode
           (reenterAt exThis exKeccak exEncode 0) exParams exNothingReceived
           exState [] "").
  - reflexivity.
  - vm_compute. congruence.
  - reflexivity.
  - vm_compute. congruence.
Defined.

(** X4. With test mode on, a run whose two swaps went through with a zero
    or negative profit returns that profit: its last log entry is the
    [ArbitrageExecuted] event carrying it, [totalExecutions] is one higher,
    and neither [successfulExecutions] nor [totalProfit] moved. *)
Theorem X4_test_mode_accepts_a_loss (enc : Error -> string)
    {C : Type} (reenter : C -> State -> Trace -> State * Trace)
    p (w : EngineWorld C) s t x s1 t1 :
  executeArbitrageInternal_legs enc reenter p w s t = Ok x s1 t1 ->
  testMode p = true ->
  saturate (w_finalAccountBalance w - w_initialAccountBalance w) <= 0 ->
  is_uint256 (amount p) -> is_int256 (expectedSecondOutput p) ->
  totalExecutions (metrics s1) < MAX_UINT256 ->
  exists s' l tfb ep,
    executeArbitrageInternal enc reenter p w s t =
      Ok (saturate (w_finalAccountBalance w - w_initialAccountBalance w)) s'
         (l ++
          [Emit (ArbitrageExecuted (sourceToken p) (targetToken p) (amount p)
                   (w_finalAccountBalance w) tfb
                   (saturate (w_finalAccountBalance w -
                              w_initialAccountBalance w)) ep true)]) /\
    totalExecutions (metrics s') = totalExecutions (metrics s1) + 1 /\
    successfulExecutions (metrics s') = successfulExecutions (metrics s1) /\
    totalProfit (metrics s') = totalProfit (metrics s1).
Proof.
  intros Hlegs Htm Hloss [Hamt _] Hexp Hroom.
  pose proof (legs_initial enc reenter p w _ _ _ _ _ Hlegs) as Hini.
  destruct x as [ini e2]. cbn [fst] in Hini. subst ini.
  destruct (settle_test_mode_loss p (w_initialAccountBalance w) e2
              (w_finalAccountBalance w) s1 t1 Htm Hloss Hamt Hexp Hroom)
    as (l & tfb & ep & E).
  unfold executeArbitrageInternal. rewrite (bind_eq_ok _ _ _ _ _ _ _ Hlegs).
  rewrite E. do 4 eexists. split; [reflexivity |].
  repeat split.
Qed.

Lemma X4_test_mode_accepts_a_loss_witness :
  exists s' l tfb ep,
    executeArbitrageInternal exEncode (reenterAt exThis exKeccak exEncode 0)
      exTestParams (exTrade 950) exState [] =
      Ok (saturate (950 - 1000)) s'
         (l ++ [Emit (ArbitrageExecuted 5 6 100 950 tfb
                        (saturate (950 - 1000)) ep true)]) /\
    totalExecutions (metrics s') = 1 /\
    successfulExecutions (metrics s') = 0 /\
    totalProfit (metrics s') = 0.
Proof.
  edestruct (X4_test_mode_accepts_a_loss exEncode
               (reenterAt exThis exKeccak exEncode 0) exTestParams
               (exTrade 950) exState [])
    as (s' & l & tfb & ep & E & H1 & H2 & H3).
  - vm_compute. reflexivity.
  - reflexivity.
  - vm_compute. congruence.
  - vm_compute. split; congruence.
  - vm_compute. split; congruence.
  - vm_compute. reflexivity.
  - exists s', l, tfb, ep. split; [exact E |].
    split; [exact H1 | split; [exact H2 | exact H3]].
Defined.

(** X5. While the contract is paused, or while a call of
    [executeFlashLoanArbitrage] is in progress, a call of it fails in its
    modifiers before any effect. *)
Theorem X5_guards_of_the_loan_request
    (keccak : Z -> Z -> Z -> Z -> Z -> Z -> Z -> Z -> Z)
    (enc : Error -> string) {C : Type}
    (reenter : C -> State -> Trace -> State * Trace)
    sender blockTimestamp blockNumber src tgt amt data1 data2 router1 router2
    mode expected1 expected2 (w : LoanWorld C) s t :
  let call :=
    executeFlashLoanArbitrage keccak enc reenter sender blockTimestamp
      blockNumber src tgt amt data1 data2 router1 router2 mode expected1
      expected2 w s t in
  (entered s = true ->
   call = Revert (ErrorString "ReentrancyGuard: reentrant call") t) /\
  (entered s = false -> paused s = true ->
   call = Revert (ErrorString "Pausable: paused") t).
Proof.
  intros call. subst call.
  unfold executeFlashLoanArbitrage, nonReentrant, whenNotPaused. cbv zeta.
  run. split.
  - intros ->. reflexivity.
  - intros -> Hp. run. storage. rewrite Hp. reflexivity.
Qed.

Lemma X5_guards_of_the_loan_request_witness :
  executeFlashLoanArbitrage exKeccak exEncode
    (reenterAt exThis exKeccak exEncode 0) 2 1000 10 5 6 100 "" "" 11 12
    false 50 105 exLoanFails (set_paused true exState) [] =
  Revert (ErrorString "Pausable: paused") [].
Proof.
  apply (proj2 (X5_guards_of_the_loan_request exKeccak exEncode
                  (reenterAt exThis exKeccak exEncode 0) 2 1000 10 5 6 100 ""
                  "" 11 12 false 50 105 exLoanFails (set_paused true exState)
                  [])); reflexivity.
Defined.

(** X6. A token whose stored decimals are not 0 can be toggled by the
    owner: [setTokenEnabled] returns without logging, the enabled flag of
    the token is the one asked for, and its decimals are as before. *)
Theorem X6_configured_token_can_be_toggled sender token isEnabled s t :
  owner s = sender -> token <> 0 ->
  token_decimals (tokenConfigOf s token) <> 0 ->
  exists s',
    setTokenEnabled sender token isEnabled s t = Ok tt s' t /\
    token_isEnabled (tokenConfigOf s' token) = isEnabled /\
    token_decimals (tokenConfigOf s' token) =
      token_decimals (tokenConfigOf s token).
Proof.
  intros Hown Htok Hdec. apply Z.eqb_neq in Htok, Hdec.
  eexists. split; [| split].
  - unfold setTokenEnabled, onlyOwner. run. storage.
    rewrite Hown, Z.eqb_refl. run. rewrite Htok. run. rewrite Hdec. run.
    reflexivity.
  - unfold tokenConfigOf. storage. rewrite lookup_insert_eq. reflexivity.
  - unfold tokenConfigOf. storage. rewrite lookup_insert_eq. reflexivity.
Qed.

Lemma X6_configured_token_can_be_toggled_witness :
  exists s',
    setTokenEnabled exOwner 5 false exState [] = Ok tt s' [] /\
    token_isEnabled (tokenConfigOf s' 5) = false /\
    token_decimals (tokenConfigOf s' 5) = 18.
Proof.
  apply (X6_configured_token_can_be_toggled exOwner 5 false exState []).
  - reflexivity.
  - vm_compute. congruence.
  - vm_compute. congruence.
Defined.

(** X7. Called by the owner, [setDexEnabled] fails with [InvalidSetup(2)]
    exactly for a DEX whose stored router is the zero address; otherwise it
    returns without logging and the enabled flag of the DEX is the one
    asked for. *)
Theorem X7_setDexEnabled sender dexName isEnabled s t :
  owner s = sender ->
  (dex_router (dexConfigOf s dexName) = 0 ->
   setDexEnabled sender dexName isEnabled s t = Revert (InvalidSetup 2) t) /\
  (dex_router (dexConfigOf s dexName) <> 0 ->
   exists s',
     setDexEnabled sender dexName isEnabled s t = Ok tt s' t /\
     dex_isEnabled (dexConfigOf s' dexName) = isEnabled).
Proof.
  intros Hown. unfold setDexEnabled, onlyOwner. run. storage.
  rewrite Hown, Z.eqb_refl. run. split.
  - intros ->. reflexivity.
  - intros H. apply Z.eqb_neq in H. rewrite H. run.
    eexists. split; [reflexivity |].
    unfold dexConfigOf. storage. rewrite lookup_insert_eq. reflexivity.
Qed.

Lemma X7_setDexEnabled_witness :
  setDexEnabled exOwner "uniswap" false exState [] =
    Revert (InvalidSetup 2) [].
Proof.
  apply (proj1 (X7_setDexEnabled exOwner "uniswap" false exState [] eq_refl)).
  reflexivity.
Defined.

(** * What every call keeps *)

Lemma keeps_ret {A} (R : State -> State -> Prop) (a : A) :
  (forall s, R s s) -> keeps R (ret a).
Proof. intros Hrefl s t a' s' t' H. inversion H; subst. apply Hrefl. Qed.

Lemma keeps_revert {A} (R : State -> State -> Prop) (e : Error) :
  keeps R (@revert A e).
Proof. intros s t a' s' t' H. discriminate. Qed.

Lemma keeps_get (R : State -> State -> Prop) :
  (forall s, R s s) -> keeps R get.
Proof. intros Hrefl s t a' s' t' H. inversion H; subst. apply Hrefl. Qed.

Lemma keeps_emit (R : State -> State -> Prop) ev :
  (forall s, R s s) -> keeps R (emit ev).
Proof. intros Hrefl s t a' s' t' H. inversion H; subst. apply Hrefl. Qed.

Lemma keeps_logCall (R : State -> State -> Prop) target method :
  (forall s, R s s) -> keeps R (logCall target method).
Proof. intros Hrefl s t a' s' t' H. inversion H; subst. apply Hrefl. Qed.

Lemma keeps_checkedAdd (R : State -> State -> Prop) a b :
  (forall s, R s s) -> keeps R (checkedAdd a b).
Proof.
  intros Hrefl. unfold checkedAdd.
  destruct (_ <=? _); [apply keeps_ret, Hrefl | apply keeps_revert].
Qed.

Lemma keeps_checkedInt (R : State -> State -> Prop) v :
  (forall s, R s s) -> keeps R (checkedInt v).
Proof.
  intros Hrefl. unfold checkedInt.
  destruct (_ && _); [apply keeps_ret, Hrefl | apply keeps_revert].
Qed.

Lemma keeps_modify (R : State -> State -> Prop) (f : State -> State) :
  (forall s, R s (f s)) -> keeps R (modify f).
Proof. intros Hf s t a' s' t' H. inversion H; subst. apply Hf. Qed.

Lemma keeps_bind {A B} (R1 R2 R3 : State -> State -> Prop) (m : M A)
    (f : A -> M B) :
  (forall s s1 s2, R1 s s1 -> R2 s1 s2 -> R3 s s2) ->
  keeps R1 m -> (forall x, keeps R2 (f x)) -> keeps R3 (bind m f).
Proof.
  intros Hcomp Hm Hf s t b s' t' H.
  apply bind_ok in H as (a & s1 & t1 & H1 & H2).
  eapply Hcomp; [eapply Hm | eapply Hf]; eauto.
Qed.

Lemma keeps_tryCall {A} (R : State -> State -> Prop) (m : M A) :
  (forall s, R s s) -> keeps R m -> keeps R (tryCall m).
Proof.
  intros Hrefl Hm s t r s' t'. unfold tryCall.
  destruct (m s t) as [x s1 t1|] eqn:E; intros H; inversion H; subst.
  - eapply Hm; eauto.
  - apply Hrefl.
Qed.

Lemma keeps_weaken {A} (R1 R2 : State -> State -> Prop) (m : M A) :
  (forall s s', R1 s s' -> R2 s s') -> keeps R1 m -> keeps R2 m.
Proof. intros Hsub Hm s t a s' t' H. eapply Hsub, Hm, H. Qed.

Lemma keeps_external {C} (R : State -> State -> Prop)
    (reenter : C -> State -> Trace -> State * Trace) target method x :
  (forall s, R s s) ->
  (forall s t, R s (fst (reenter (reentry x) s t))) ->
  keeps R (external reenter target method x).
Proof.
  intros Hrefl Hre s t r s' t'. unfold external.
  destruct (outcome x).
  - specialize (Hre s (t ++ [CallTo target method])).
    destruct (reenter _ _ _) as [s1 t1]. cbn [fst] in Hre.
    intros H; inversion H; subst. exact Hre.
  - intros H; inversion H; subst. apply Hrefl.
Qed.

(** One step of a proof that a computation keeps [R], a relation that is
    reflexive ([Hrefl]) and transitive ([Htrans]); [side] proves that an
    assignment to storage keeps [R], [ext] that the calls made back during
    an external call do. *)
Ltac keeps_step Hrefl Htrans side ext :=
  first
    [ apply keeps_ret; exact Hrefl
    | apply keeps_revert
    | apply keeps_get; exact Hrefl
    | apply keeps_emit; exact Hrefl
    | apply keeps_logCall; exact Hrefl
    | apply keeps_checkedAdd; exact Hrefl
    | apply keeps_checkedInt; exact Hrefl
    | apply keeps_modify; solve [side]
    | apply keeps_external; [exact Hrefl | solve [ext]]
    | apply keeps_tryCall; [exact Hrefl |]
    | apply (keeps_bind _ _ _ _ _ Htrans); [ | intros ? ]
    | match goal with
      | |- keeps _ (if ?b then _ else _) => destruct b
      | |- keeps _ (match ?x with _ => _ end) => destruct x
      end ].

(** ** The counters *)

Lemma Tally_refl s : Tally 0 0 s s.
Proof. unfold Tally. repeat split; lia. Qed.

Lemma Tally_trans a b c d s s1 s2 :
  Tally a b s s1 -> Tally c d s1 s2 -> Tally (a + c) (b + d) s s2.
Proof.
  unfold Tally.
  intros (H1 & H2 & H3 & H4 & H5 & H6 & H7 & H8 & H9)
         (G1 & G2 & G3 & G4 & G5 & G6 & G7 & G8 & G9).
  repeat split; try congruence; lia.
Qed.

Lemma Tally_step s s1 s2 :
  Tally 0 0 s s1 -> Tally 0 0 s1 s2 -> Tally 0 0 s s2.
Proof. intros H1 H2. apply (Tally_trans 0 0 0 0 s s1 s2 H1 H2). Qed.

Lemma Tally_more k k' j s s' : k <= k' -> Tally k j s s' -> Tally k' j s s'.
Proof.
  unfold Tally. intros Hk (H1 & H2 & H3 & H4 & H5 & H6 & H7 & H8 & H9).
  repeat split; try assumption; lia.
Qed.

(** An assignment that touches neither the vault address, nor the
    reentrancy flag, nor a counter. *)
Ltac tally_side := intros ?; unfold Tally; cbn; repeat split; lia.

Lemma tally_bump (k j : Z) field setter :
  (forall s v,
     0 <= v - field (metrics s) ->
     v - field (metrics s) <= 1 ->
     Tally k j s (updMetrics (setter v) s)) ->
  keeps (Tally k j) (bump field setter 1).
Proof.
  intros Hset s t a s' t'. unfold bump, bind, get, checkedAdd, modify.
  destruct (_ <=? _); cbn; [| discriminate].
  intros H; inversion H; subst. apply Hset; lia.
Qed.

Lemma tally_bump_successful :
  keeps (Tally 1 0) (bump successfulExecutions set_successfulExecutions 1).
Proof. apply tally_bump. intros s v H1 H2. unfold Tally. cbn. repeat split; lia. Qed.

Lemma tally_bump_total :
  keeps (Tally (-1) 0) (bump totalExecutions set_totalExecutions 1).
Proof.
  intros s t a s' t'. unfold bump, bind, get, checkedAdd, modify.
  destruct (_ <=? _); cbn; [| discriminate].
  intros H; inversion H; subst. unfold Tally. cbn. repeat split; lia.
Qed.

Lemma tally_bump_loans :
  keeps (Tally 0 1) (bump flashLoanExecutions set_flashLoanExecutions 1).
Proof.
  intros s t a s' t'. unfold bump, bind, get, checkedAdd, modify.
  destruct (_ <=? _); cbn; [| discriminate].
  intros H; inversion H; subst. unfold Tally. cbn. repeat split; lia.
Qed.

Lemma tally_bump_loanSuccessful :
  keeps (Tally 0 (-1)) (bump flashLoanSuccessful set_flashLoanSuccessful 1).
Proof.
  intros s t a s' t'. unfold bump, bind, get, checkedAdd, modify.
  destruct (_ <=? _); cbn; [| discriminate].
  intros H; inversion H; subst. unfold Tally. cbn. repeat split; lia.
Qed.

Lemma tally_bump_loanFailed :
  keeps (Tally 0 (-1)) (bump flashLoanFailed set_flashLoanFailed 1).
Proof.
  intros s t a s' t'. unfold bump, bind, get, checkedAdd, modify.
  destruct (_ <=? _); cbn; [| discriminate].
  intros H; inversion H; subst. unfold Tally. cbn. repeat split; lia.
Qed.

Lemma tally_bump_totalProfit d :
  keeps (Tally 0 0) (bump totalProfit set_totalProfit d).
Proof.
  intros s t a s' t'. unfold bump, bind, get, checkedAdd, modify.
  destruct (_ <=? _); cbn; [| discriminate].
  intros H; inversion H; subst. unfold Tally. cbn. repeat split; lia.
Qed.

Lemma tally_bump_flashLoanProfit d :
  keeps (Tally 0 0) (bump flashLoanProfit set_flashLoanProfit d).
Proof.
  intros s t a s' t'. unfold bump, bind, get, checkedAdd, modify.
  destruct (_ <=? _); cbn; [| discriminate].
  intros H; inversion H; subst. unfold Tally. cbn. repeat split; lia.
Qed.

(** [nonReentrant] sets the flag, runs the body and clears the flag: the
    flag is clear before and after. *)
Lemma tally_nonReentrant {A} (body : M A) :
  keeps (Tally 0 0) body -> keeps (Tally 0 0) (nonReentrant body).
Proof.
  intros Hbody s t a s' t'. unfold nonReentrant. run.
  destruct (entered s) eqn:Hent; [discriminate |]. run.
  intros H. apply bind_ok in H as (r & s1 & t1 & Hb & H).
  inversion H; subst; clear H.
  apply Hbody in Hb. unfold Tally in *. cbn in *.
  destruct Hb as (H1 & H2 & H3 & H4 & H5 & H6 & H7 & H8 & H9).
  repeat split; try assumption; congruence.
Qed.

Section Counting.

Variable this : Z.
Variable keccak : Z -> Z -> Z -> Z -> Z -> Z -> Z -> Z -> Z.
Variable enc : Error -> string.
Context {C : Type} (reenter : C -> State -> Trace -> State * Trace).

Hypothesis reenter_tally : forall c s t, Tally 0 0 s (fst (reenter c s t)).

Ltac tally1 :=
  first
    [ apply tally_bump_totalProfit | apply tally_bump_flashLoanProfit
    | keeps_step Tally_refl Tally_step tally_side
        ltac:(intros; apply reenter_tally) ].
Ltac tally := repeat tally1.

Lemma tally_safeApprove token spender amt w :
  keeps (Tally 0 0) (_safeApprove reenter token spender amt w).
Proof. unfold _safeApprove, callDiscardBool, staticcall. tally. Qed.

Lemma tally_legs p w :
  keeps (Tally 0 0) (executeArbitrageInternal_legs enc reenter p w).
Proof.
  unfold executeArbitrageInternal_legs, staticcall. cbv zeta.
  repeat first [ apply tally_safeApprove | tally1 ].
Qed.

(** The second half of the engine counts a success before it counts the
    execution. *)
Lemma tally_settle p a b c :
  keeps (Tally 0 0) (executeArbitrageInternal_settle p a b c).
Proof.
  unfold executeArbitrageInternal_settle, calcTradeProfit,
    calcTradeFinalBalance, calcExpectedProfit, subInt, addInt, negInt,
    staticcall.
  cbv zeta.
  do 9 (apply (keeps_bind _ _ _ _ _ Tally_step); [tally | intros ?]).
  apply (keeps_bind _ _ _ _ _ (Tally_trans 1 0 (-1) 0)).
  - destruct (0 <? _).
    + apply (keeps_bind _ _ _ _ _ (Tally_trans 1 0 0 0));
        [apply tally_bump_successful | intros _; tally].
    + apply (keeps_weaken (Tally 0 0)); [intros ? ?; apply Tally_more; lia | tally].
  - intros _.
    apply (keeps_bind _ _ _ _ _ (Tally_trans (-1) 0 0 0));
      [apply tally_bump_total | intros _; tally].
Qed.

Lemma tally_wrapper sender p w :
  keeps (Tally 0 0) (executeArbitrageWrapper this enc reenter sender p w).
Proof.
  unfold executeArbitrageWrapper, executeArbitrageInternal.
  apply (keeps_bind _ _ _ _ _ Tally_step); [tally | intros _].
  apply (keeps_bind _ _ _ _ _ Tally_step);
    [apply tally_legs | intros [x y]; apply tally_settle].
Qed.

Lemma tally_receiveFlashLoan sender amounts fees userData w :
  keeps (Tally 0 0)
    (receiveFlashLoan this enc reenter sender amounts fees userData w).
Proof.
  unfold receiveFlashLoan, arbitrageFailure, firstElement, callDiscardBool,
    staticcall.
  cbv zeta.
  repeat first [ apply tally_wrapper | tally1 ].
Qed.

(** A failed request is counted as failed, then as a request. *)
Lemma tally_flashLoanFailure id src stage data bal :
  keeps (Tally 0 0) (flashLoanFailure id src stage data bal).
Proof.
  unfold flashLoanFailure, staticcall.
  apply (keeps_bind _ _ _ _ _ Tally_step); [tally | intros _].
  apply (keeps_bind _ _ _ _ _ (Tally_trans 0 (-1) 0 1));
    [apply tally_bump_loanFailed | intros _].
  apply (keeps_bind _ _ _ _ _ (Tally_trans 0 1 0 0));
    [apply tally_bump_loans | intros _; tally].
Qed.

Lemma tally_executeFlashLoanArbitrage sender ts bn src tgt amt d1 d2 r1 r2
    tm e1 e2 w :
  keeps (Tally 0 0)
    (executeFlashLoanArbitrage keccak enc reenter sender ts bn src tgt amt
       d1 d2 r1 r2 tm e1 e2 w).
Proof.
  unfold executeFlashLoanArbitrage. apply tally_nonReentrant.
  unfold whenNotPaused, staticcall. cbv zeta.
  apply (keeps_bind _ _ _ _ _ Tally_step); [tally | intros s0].
  destruct (paused s0); [apply keeps_revert |].
  do 10 (apply (keeps_bind _ _ _ _ _ Tally_step); [tally | intros ?]).
  match goal with |- keeps _ (match ?x with _ => _ end) => destruct x end.
  - apply (keeps_bind _ _ _ _ _ (Tally_trans 0 1 0 (-1)));
      [apply tally_bump_loans | intros _].
    apply (keeps_bind _ _ _ _ _ (Tally_trans 0 (-1) 0 0));
      [apply tally_bump_loanSuccessful | intros _; tally].
  - destruct (classify e); apply tally_flashLoanFailure.
Qed.

Lemma tally_recordFeeTiers dexName tiers :
  keeps (Tally 0 0) (recordFeeTiers dexName tiers).
Proof.
  induction tiers as [|fee rest IH]; cbn [recordFeeTiers]; tally. exact IH.
Qed.

Lemma tally_dispatch sender op :
  keeps (Tally 0 0) (dispatch this keccak enc reenter sender op).
Proof.
  destruct op; unfold dispatch, returning;
    (apply (keeps_bind _ _ _ _ _ Tally_step);
     [| intros ?; apply keeps_ret, Tally_refl]).
  - unfold configureDex, onlyOwner.
    repeat first [ apply tally_recordFeeTiers | tally1 ].
  - unfold configurePool, onlyOwner. tally.
  - unfold configureToken, onlyOwner. tally.
  - apply tally_executeFlashLoanArbitrage.
  - apply tally_receiveFlashLoan.
  - apply tally_wrapper.
  - unfold emergencyWithdraw, safeTransfer, onlyOwner, staticcall. tally.
  - unfold withdrawFunds, safeTransfer, onlyOwner, staticcall. tally.
  - unfold pause, _pause, whenNotPaused, onlyOwner. tally.
  - unfold unpause, _unpause, whenPaused, onlyOwner. tally.
  - unfold triggerCircuitBreaker, _pause, whenNotPaused, onlyOwner. tally.
  - unfold setTokenEnabled, onlyOwner. tally.
  - unfold setDexEnabled, onlyOwner. tally.
  - unfold approveRouter, onlyOwner.
    repeat first [ apply tally_safeApprove | tally1 ].
  - unfold setRouterAddresses, onlyOwner. tally.
  - unfold transferOwnership, _transferOwnership, onlyOwner. tally.
  - unfold renounceOwnership, _transferOwnership, onlyOwner. tally.
  - unfold fallback. tally.
Qed.

End Counting.

Section CountingNested.

Variable this : Z.
Variable keccak : Z -> Z -> Z -> Z -> Z -> Z -> Z -> Z -> Z.
Variable enc : Error -> string.

Lemma reenterWith_tally {D} (run : Z -> Op D -> M Ret) :
  (forall sender op, keeps (Tally 0 0) (run sender op)) ->
  forall calls s t, Tally 0 0 s (fst (reenterWith run calls s t)).
Proof.
  intros Hrun calls.
  induction calls as [|[sender op] rest IH]; intros s t; cbn [reenterWith].
  - apply Tally_refl.
  - destruct (run sender op s t) as [r s1 t1|e t1] eqn:E.
    + eapply Tally_step; [eapply Hrun; eauto | apply IH].
    + apply IH.
Qed.

Lemma reenterAt_tally n :
  forall c s t, Tally 0 0 s (fst (reenterAt this keccak enc n c s t)).
Proof.
  induction n as [|n IH]; intros c s t.
  - cbn. apply Tally_refl.
  - cbn [reenterAt]. apply reenterWith_tally.
    intros sender op. apply tally_dispatch. exact IH.
Qed.

Lemma transact_tally n sender op s :
  Tally 0 0 s (fst (fst (transact this keccak enc n sender op s))).
Proof.
  unfold transact, exec.
  destruct (dispatch _ _ _ _ _ _ _ _) as [r s' t'|e t'] eqn:E; cbn [fst].
  - eapply tally_dispatch; [apply reenterAt_tally | exact E].
  - apply Tally_refl.
Qed.

Lemma runAll_tally n txs s :
  Tally 0 0 s (runAll this keccak enc n txs s).
Proof.
  revert s. induction txs as [|[sender op] rest IH]; intros s; cbn [runAll].
  - apply Tally_refl.
  - eapply Tally_step; [apply transact_tally | apply IH].
Qed.

End CountingNested.

(** ** The settings of the owner *)

Lemma Settings_refl o s : Settings o s s.
Proof.
  unfold Settings. intros Ho. repeat split; first [exact Ho | reflexivity].
Qed.

Lemma Settings_trans o s s1 s2 :
  Settings o s s1 -> Settings o s1 s2 -> Settings o s s2.
Proof.
  unfold Settings. intros H1 H2 Ho.
  destruct (H1 Ho) as (A1 & A2 & A3 & A4 & A5 & A6 & A7).
  destruct (H2 A1) as (B1 & B2 & B3 & B4 & B5 & B6 & B7).
  repeat split; congruence.
Qed.

Ltac settings_side :=
  intros ?; unfold Settings; cbn; intros ?; repeat split;
  first [assumption | reflexivity].

(** Called by anyone but the owner, an entry point that carries
    [onlyOwner] fails in the modifier. *)
Lemma dispatch_not_owner this keccak enc {C}
    (reenter : C -> State -> Trace -> State * Trace) sender (op : Op C) s t :
  ownerOnly op = true -> sender <> owner s ->
  dispatch this keccak enc reenter sender op s t =
    Revert (ErrorString "Ownable: caller is not the owner") t.
Proof.
  intros Hop Hsender.
  assert (Hneq : (owner s =? sender) = false) by (apply Z.eqb_neq; congruence).
  destruct op; try discriminate Hop; unfold dispatch, returning;
    [ unfold configureDex | unfold configurePool | unfold configureToken
    | unfold emergencyWithdraw | unfold withdrawFunds | unfold pause
    | unfold unpause | unfold triggerCircuitBreaker | unfold setTokenEnabled
    | unfold setDexEnabled | unfold approveRouter | unfold setRouterAddresses
    | unfold transferOwnership | unfold renounceOwnership ];
    unfold onlyOwner; run; rewrite Hneq; reflexivity.
Qed.

Section Owning.

Variable this : Z.
Variable keccak : Z -> Z -> Z -> Z -> Z -> Z -> Z -> Z -> Z.
Variable enc : Error -> string.
Context {C : Type} (reenter : C -> State -> Trace -> State * Trace).
Variable o : Z.
Variable good : C -> Prop.

Hypothesis reenter_settings :
  forall c, good c -> forall s t, Settings o s (fst (reenter c s t)).

Ltac settings1 :=
  keeps_step (Settings_refl o) (Settings_trans o) settings_side
    ltac:(intros; apply reenter_settings; assumption).

Ltac goods :=
  repeat match goal with
  | H : Forall _ (_ ++ _) |- _ => apply Forall_app in H; destruct H
  | H : Forall _ (_ :: _) |- _ => apply Forall_cons in H; destruct H
  end.

Lemma settings_safeApprove token spender amt w :
  Forall good (approveReentries w) ->
  keeps (Settings o) (_safeApprove reenter token spender amt w).
Proof.
  intros H. unfold approveReentries in H. goods.
  unfold _safeApprove, callDiscardBool, staticcall. repeat settings1.
Qed.

Lemma settings_bump field setter d :
  keeps (Settings o) (bump field setter d).
Proof. unfold bump. repeat settings1. Qed.

Lemma settings_wrapper sender p w :
  Forall good (engineReentries w) ->
  keeps (Settings o) (executeArbitrageWrapper this enc reenter sender p w).
Proof.
  intros H. unfold engineReentries in H. goods.
  unfold executeArbitrageWrapper, executeArbitrageInternal,
    executeArbitrageInternal_legs, executeArbitrageInternal_settle,
    calcTradeProfit, calcTradeFinalBalance, calcExpectedProfit, subInt,
    addInt, negInt, staticcall.
  cbv zeta.
  repeat first
    [ apply settings_safeApprove; assumption | apply settings_bump
    | settings1 ].
Qed.

Lemma settings_receiveFlashLoan sender amounts fees userData w :
  Forall good
    (engineReentries (w_engine w) ++
     [reentry (w_transferFrom w); reentry (w_transfer w)]) ->
  keeps (Settings o)
    (receiveFlashLoan this enc reenter sender amounts fees userData w).
Proof.
  intros H. goods.
  unfold receiveFlashLoan, arbitrageFailure, firstElement, callDiscardBool,
    staticcall.
  cbv zeta.
  repeat first
    [ apply settings_wrapper; assumption | apply settings_bump | settings1 ].
Qed.

Lemma settings_executeFlashLoanArbitrage sender ts bn src tgt amt d1 d2 r1 r2
    tm e1 e2 w :
  good (reentry (w_flashLoan w)) ->
  keeps (Settings o)
    (executeFlashLoanArbitrage keccak enc reenter sender ts bn src tgt amt
       d1 d2 r1 r2 tm e1 e2 w).
Proof.
  intros H.
  unfold executeFlashLoanArbitrage, nonReentrant, whenNotPaused,
    flashLoanFailure, staticcall.
  cbv zeta.
  repeat first [ apply settings_bump | settings1 ].
Qed.

Lemma settings_dispatch sender op :
  sender <> o -> Forall good (reentries op) ->
  keeps (Settings o) (dispatch this keccak enc reenter sender op).
Proof.
  intros Hsender Hgood.
  destruct (ownerOnly op) eqn:Hop.
  - intros s t a s' t' H Ho.
    rewrite dispatch_not_owner in H by (assumption || congruence).
    discriminate.
  - destruct op; try discriminate Hop; unfold dispatch, returning;
      (apply (keeps_bind _ _ _ _ _ (Settings_trans o));
       [| intros ?; apply keeps_ret, Settings_refl]).
    + apply settings_executeFlashLoanArbitrage.
      cbn [reentries] in Hgood. goods. assumption.
    + apply settings_receiveFlashLoan. exact Hgood.
    + apply settings_wrapper. exact Hgood.
    + unfold fallback. apply keeps_revert.
Qed.

End Owning.

Section OwningNested.

Variable this : Z.
Variable keccak : Z -> Z -> Z -> Z -> Z -> Z -> Z -> Z -> Z.
Variable enc : Error -> string.
Variable o : Z.

Lemma reenterAt_settings n :
  forall c, strangers o n c = true ->
  forall s t, Settings o s (fst (reenterAt this keccak enc n c s t)).
Proof.
  induction n as [|n IH]; intros c Hc s t.
  - cbn. apply Settings_refl.
  - cbn [reenterAt]. cbn [strangers] in Hc. revert s t.
    induction c as [|[sender op] rest IHc]; intros s t; cbn [reenterWith].
    + apply Settings_refl.
    + cbn [forallb fst snd] in Hc.
      apply andb_true_iff in Hc as [Hcall Hrest].
      apply andb_true_iff in Hcall as [Hsender Hop].
      apply negb_true_iff, Z.eqb_neq in Hsender.
      assert (Hk : keeps (Settings o)
                     (dispatch this keccak enc (reenterAt this keccak enc n)
                        sender op)).
      { apply (settings_dispatch this keccak enc _ o
                 (fun c => strangers o n c = true) IH sender op Hsender).
        apply Forall_forall. intros c Hin.
        rewrite forallb_forall in Hop. apply Hop.
        apply list_elem_of_In. exact Hin. }
      destruct (dispatch _ _ _ _ _ _ _ _) as [r s1 t1|e t1] eqn:E.
      * eapply Settings_trans; [eapply Hk; eauto | apply IHc, Hrest].
      * apply IHc, Hrest.
Qed.

Lemma transact_settings n sender op s :
  sender <> o -> forallb (strangers o n) (reentries op) = true ->
  Settings o s (fst (fst (transact this keccak enc n sender op s))).
Proof.
  intros Hsender Hop. unfold transact, exec.
  destruct (dispatch _ _ _ _ _ _ _ _) as [r s' t'|e t'] eqn:E; cbn [fst].
  - eapply (settings_dispatch this keccak enc _ o
              (fun c => strangers o n c = true) (reenterAt_settings n)
              sender op Hsender); [| exact E].
    apply Forall_forall. intros c Hin.
    rewrite forallb_forall in Hop. apply Hop.
    apply list_elem_of_In. exact Hin.
  - apply Settings_refl.
Qed.

End OwningNested.

(** * Further properties of the whole contract *)

(** X8. A transaction that calls an entry point carrying [onlyOwner] from
    any account but the owner fails with "Ownable: caller is not the
    owner": storage is as before and nothing is logged. *)
Theorem X8_owner_only_entry_points this keccak enc n sender
    (op : Op (Calls n)) s :
  ownerOnly op = true -> sender <> owner s ->
  transact this keccak enc n sender op s =
    (s, [], inr (ErrorString "Ownable: caller is not the owner")).
Proof.
  intros Hop Hsender. unfold transact, exec.
  rewrite dispatch_not_owner by assumption. reflexivity.
Qed.

Lemma X8_owner_only_entry_points_witness :
  transact exThis exKeccak exEncode 0 2 (ConfigureToken 7 10 1 18) exState =
    (exState, [], inr (ErrorString "Ownable: caller is not the owner")).
Proof.
  apply (X8_owner_only_entry_points exThis exKeccak exEncode 0 2
           (ConfigureToken 7 10 1 18) exState).
  - reflexivity.
  - vm_compute. congruence.
Defined.

(** X9. Only the owner changes the settings.  A transaction sent by
    another account, in which no call made back into the contract (at any
    depth) is sent by the owner, leaves the owner, the pause flag, the two
    router addresses and the configuration of every DEX, pool and token as
    they were. *)
Theorem X9_only_the_owner_changes_settings this keccak enc n sender
    (op : Op (Calls n)) s :
  sender <> owner s ->
  forallb (strangers (owner s) n) (reentries op) = true ->
  let s' := fst (fst (transact this keccak enc n sender op s)) in
  owner s' = owner s /\ paused s' = paused s /\
  uniswapRouterAddress s' = uniswapRouterAddress s /\
  traderJoeRouterAddress s' = traderJoeRouterAddress s /\
  dexConfigs s' = dexConfigs s /\ poolConfigs s' = poolConfigs s /\
  tokenConfigs s' = tokenConfigs s.
Proof.
  intros Hsender Hop s'.
  exact (transact_settings this keccak enc (owner s) n sender op s Hsender
           Hop eq_refl).
Qed.

Lemma X9_only_the_owner_changes_settings_witness :
  tokenConfigs
    (fst (fst (transact exThis exKeccak exEncode 1 2
                 (exLoanRequest (exTrade 1005)) exState))) =
  tokenConfigs exState.
Proof.
  refine (proj2 (proj2 (proj2 (proj2 (proj2 (proj2
            (X9_only_the_owner_changes_settings exThis exKeccak exEncode 1 2
               (exLoanRequest (exTrade 1005)) exState _ _))))))).
  - vm_compute. congruence.
  - vm_compute. reflexivity.
Defined.

(** X10. The reentrancy flag is never left set.  No sequence of
    transactions changes it: a call of [executeFlashLoanArbitrage] that
    returns has cleared the flag it set, whatever was called in between,
    and one that fails is rolled back.  After deployment the flag is
    clear between transactions. *)
Theorem X10_reentrancy_flag_is_released this keccak enc n
    (txs : list (Z * Op (Calls n))) :
  (forall s, entered (runAll this keccak enc n txs s) = entered s) /\
  (forall deployer vault s0,
     deploy deployer vault = inl s0 ->
     entered (runAll this keccak enc n txs s0) = false).
Proof.
  assert (H : forall s, entered (runAll this keccak enc n txs s) = entered s).
  { intros s. destruct (runAll_tally this keccak enc n txs s) as (_ & H & _).
    exact H. }
  split; [exact H |].
  intros deployer vault s0 Hd. rewrite H. unfold deploy in Hd.
  destruct (vault =? 0); inversion Hd; subst. reflexivity.
Qed.

Lemma X10_reentrancy_flag_is_released_witness :
  entered (runAll exThis exKeccak exEncode 1 exHistory exDeployed) = false.
Proof.
  apply (proj2 (X10_reentrancy_flag_is_released exThis exKeccak exEncode 1
                  exHistory) exOwner exVault exDeployed).
  reflexivity.
Defined.

(** X11. [metrics.failedExecutions] is never written: no sequence of
    transactions changes it, so after deployment it is always 0, however
    many arbitrage runs failed. *)
Theorem X11_failedExecutions_is_never_written this keccak enc n
    (txs : list (Z * Op (Calls n))) :
  (forall s,
     failedExecutions (metrics (runAll this keccak enc n txs s)) =
       failedExecutions (metrics s)) /\
  (forall deployer vault s0,
     deploy deployer vault = inl s0 ->
     failedExecutions (metrics (runAll this keccak enc n txs s0)) = 0).
Proof.
  assert (H : forall s,
            failedExecutions (metrics (runAll this keccak enc n txs s)) =
              failedExecutions (metrics s)).
  { intros s.
    destruct (runAll_tally this keccak enc n txs s) as (_ & _ & H & _).
    exact H. }
  split; [exact H |].
  intros deployer vault s0 Hd. rewrite H. unfold deploy in Hd.
  destruct (vault =? 0); inversion Hd; subst. reflexivity.
Qed.

Lemma X11_failedExecutions_is_never_written_witness :
  failedExecutions
    (metrics (runAll exThis exKeccak exEncode 1
                [(2, exLoanRequest exFirstSwapFails)] exDeployed)) = 0.
Proof.
  apply (proj2 (X11_failedExecutions_is_never_written exThis exKeccak
                  exEncode 1 [(2, exLoanRequest exFirstSwapFails)])
           exOwner exVault exDeployed).
  reflexivity.
Defined.

(** X12. Successes never outnumber executions.  Over any sequence of
    transactions neither counter goes down and [successfulExecutions]
    rises by at most what [totalExecutions] rises by.  So where
    [successfulExecutions <= totalExecutions] held before (as after
    deployment) it holds after, and in such a state a call of
    [getContractStats] that returns gives a success rate of at most 10000
    and the exact difference as the number of failed trades. *)
Theorem X12_successes_within_executions this keccak enc n
    (txs : list (Z * Op (Calls n))) s :
  0 <= successfulExecutions (metrics s) <= totalExecutions (metrics s) ->
  let m' := metrics (runAll this keccak enc n txs s) in
  successfulExecutions (metrics s) <= successfulExecutions m' /\
  totalExecutions (metrics s) <= totalExecutions m' /\
  successfulExecutions m' <= totalExecutions m' /\
  forall t total successful failed rate profit s' t',
    getContractStats (runAll this keccak enc n txs s) t =
      Ok (total, successful, failed, rate, profit) s' t' ->
    0 <= rate <= 10000 /\ failed = total - successful.
Proof.
  intros Hs m'.
  destruct (runAll_tally this keccak enc n txs s)
    as (_ & _ & _ & H4 & H5 & H6 & _).
  fold m' in H4, H5, H6.
  assert (Hle : successfulExecutions m' <= totalExecutions m') by lia.
  split; [exact H5 | split; [exact H4 | split; [exact Hle |]]].
  intros t total successful failed rate profit s' t'.
  unfold getContractStats, checkedMul. run. fold m'.
  destruct (successfulExecutions m' <? totalExecutions m') eqn:Hlt;
    [apply Z.ltb_lt in Hlt | apply Z.ltb_ge in Hlt].
  - destruct (0 <? totalExecutions m') eqn:Hpos;
      [apply Z.ltb_lt in Hpos | apply Z.ltb_ge in Hpos; lia].
    destruct (_ <=? MAX_UINT256); run; [| discriminate].
    intros H; inversion H; subst. split; [split |]; try reflexivity.
    + apply Z.div_pos; lia.
    + apply Z.div_le_upper_bound; lia.
  - destruct (0 <? totalExecutions m') eqn:Hpos;
      [apply Z.ltb_lt in Hpos | apply Z.ltb_ge in Hpos].
    + destruct (_ <=? MAX_UINT256); run; [| discriminate].
      intros H; inversion H; subst. split; [split |]; try lia.
      * apply Z.div_pos; lia.
      * apply Z.div_le_upper_bound; lia.
    + run. intros H; inversion H; subst. lia.
Qed.

Lemma X12_successes_within_executions_witness :
  successfulExecutions
    (metrics (runAll exThis exKeccak exEncode 1 exHistory exDeployed)) <=
  totalExecutions
    (metrics (runAll exThis exKeccak exEncode 1 exHistory exDeployed)).
Proof.
  refine (proj1 (proj2 (proj2
            (X12_successes_within_executions exThis exKeccak exEncode 1
               exHistory exDeployed _)))).
  vm_compute. split; congruence.
Defined.

(** X13. Every flash-loan request counted is counted as successful or as
    failed.  Over any sequence of transactions [flashLoanExecutions] rises
    by exactly what [flashLoanSuccessful] and [flashLoanFailed] rise by
    together, and neither of them goes down; after deployment
    [flashLoanExecutions = flashLoanSuccessful + flashLoanFailed]. *)
Theorem X13_loan_requests_are_accounted this keccak enc n
    (txs : list (Z * Op (Calls n))) :
  (forall s,
     let m := metrics s in
     let m' := metrics (runAll this keccak enc n txs s) in
     flashLoanSuccessful m <= flashLoanSuccessful m' /\
     flashLoanFailed m <= flashLoanFailed m' /\
     flashLoanExecutions m' - flashLoanExecutions m =
       (flashLoanSuccessful m' - flashLoanSuccessful m) +
       (flashLoanFailed m' - flashLoanFailed m)) /\
  (forall deployer vault s0,
     deploy deployer vault = inl s0 ->
     let m' := metrics (runAll this keccak enc n txs s0) in
     flashLoanExecutions m' = flashLoanSuccessful m' + flashLoanFailed m').
Proof.
  assert (H : forall s,
     let m := metrics s in
     let m' := metrics (runAll this keccak enc n txs s) in
     flashLoanSuccessful m <= flashLoanSuccessful m' /\
     flashLoanFailed m <= flashLoanFailed m' /\
     flashLoanExecutions m' - flashLoanExecutions m =
       (flashLoanSuccessful m' - flashLoanSuccessful m) +
       (flashLoanFailed m' - flashLoanFailed m)).
  { intros s m m'.
    destruct (runAll_tally this keccak enc n txs s)
      as (_ & _ & _ & _ & _ & _ & H7 & H8 & H9).
    subst m m'. repeat split; lia. }
  split; [exact H |].
  intros deployer vault s0 Hd m'.
  destruct (H s0) as (_ & _ & H9). fold m' in H9.
  unfold deploy in Hd. destruct (vault =? 0); inversion Hd; subst s0.
  cbn in H9. lia.
Qed.

Lemma X13_loan_requests_are_accounted_witness :
  flashLoanExecutions
    (metrics (runAll exThis exKeccak exEncode 1 exHistory exDeployed)) =
  flashLoanSuccessful
    (metrics (runAll exThis exKeccak exEncode 1 exHistory exDeployed)) +
  flashLoanFailed
    (metrics (runAll exThis exKeccak exEncode 1 exHistory exDeployed)).
Proof.
  apply (proj2 (X13_loan_requests_are_accounted exThis exKeccak exEncode 1
                  exHistory) exOwner exVault exDeployed).
  reflexivity.
Defined.

(** * The errors a computation can fail with *)

Lemma raises_ret {A} (P : Error -> Prop) (a : A) : raises P (ret a).
Proof. intros s t e t' H. discriminate. Qed.

Lemma raises_revert {A} (P : Error -> Prop) (e : Error) :
  P e -> raises P (@revert A e).
Proof. intros He s t e' t' H. inversion H; subst. exact He. Qed.

Lemma raises_get (P : Error -> Prop) : raises P get.
Proof. intros s t e t' H. discriminate. Qed.

Lemma raises_emit (P : Error -> Prop) ev : raises P (emit ev).
Proof. intros s t e t' H. discriminate. Qed.

Lemma raises_logCall (P : Error -> Prop) target method :
  raises P (logCall target method).
Proof. intros s t e t' H. discriminate. Qed.

Lemma raises_modify (P : Error -> Prop) f : raises P (modify f).
Proof. intros s t e t' H. discriminate. Qed.

Lemma raises_checkedAdd (P : Error -> Prop) a b :
  P (Panic 17) -> raises P (checkedAdd a b).
Proof.
  intros HP. unfold checkedAdd.
  destruct (_ <=? _); [apply raises_ret | apply raises_revert, HP].
Qed.

Lemma raises_bind {A B} (P : Error -> Prop) (m : M A) (f : A -> M B) :
  raises P m -> (forall x, raises P (f x)) -> raises P (bind m f).
Proof.
  intros Hm Hf s t e t'. unfold bind.
  destruct (m s t) as [x s1 t1 | e1 t1] eqn:E.
  - apply Hf.
  - intros H; inversion H; subst. eapply Hm, E.
Qed.

Lemma raises_external {C} (P : Error -> Prop)
    (reenter : C -> State -> Trace -> State * Trace) target method x :
  raises P (external reenter target method x).
Proof.
  intros s t e t'. unfold external.
  destruct (outcome x); [destruct (reenter _ _ _) |]; discriminate.
Qed.

Lemma raises_tryCall {A} (P : Error -> Prop) (m : M A) :
  raises P (tryCall m).
Proof. intros s t e t'. unfold tryCall. destruct (m s t); discriminate. Qed.

(** One step of a proof that a computation fails only with errors in
    [P]; [err] proves that an error raised on the spot is one. *)
Ltac raises_step err :=
  first
    [ apply raises_ret | apply raises_get | apply raises_emit
    | apply raises_logCall | apply raises_modify | apply raises_external
    | apply raises_tryCall
    | apply raises_revert; solve [err]
    | apply raises_checkedAdd; solve [err]
    | apply raises_bind; [ | intros ? ]
    | match goal with
      | |- raises _ (if ?b then _ else _) => destruct b
      | |- raises _ (match ?x with _ => _ end) => destruct x
      end ].

Section LoanRequest.

Variable keccak : Z -> Z -> Z -> Z -> Z -> Z -> Z -> Z -> Z.
Variable enc : Error -> string.
Context {C : Type} (reenter : C -> State -> Trace -> State * Trace).

Lemma raises_executeFlashLoanArbitrage sender ts bn src tgt amt d1 d2 r1 r2
    tm e1 e2 w :
  raises (fun e => In e loanRequestErrors)
    (executeFlashLoanArbitrage keccak enc reenter sender ts bn src tgt amt
       d1 d2 r1 r2 tm e1 e2 w).
Proof.
  unfold executeFlashLoanArbitrage, nonReentrant, whenNotPaused,
    flashLoanFailure, bump, staticcall.
  cbv zeta.
  repeat raises_step ltac:(unfold loanRequestErrors; cbn [In]; tauto).
Qed.

(** Once the vault address is known not to be zero, the check of it
    cannot fail, and nothing after it raises [InvalidVaultAddress]. *)
Lemma executeFlashLoanArbitrage_vault sender ts bn src tgt amt d1 d2 r1 r2
    tm e1 e2 w s t t' :
  balancerVault s <> 0 ->
  executeFlashLoanArbitrage keccak enc reenter sender ts bn src tgt amt
    d1 d2 r1 r2 tm e1 e2 w s t <> Revert InvalidVaultAddress t'.
Proof.
  intros Hvault. apply Z.eqb_neq in Hvault.
  unfold executeFlashLoanArbitrage, nonReentrant, whenNotPaused. cbv zeta.
  run. destruct (entered s); [discriminate |]. run. storage.
  destruct (paused s); [discriminate |].
  destruct (src =? tgt); [discriminate |]. run.
  destruct (amt =? 0); [discriminate |]. run. storage. rewrite Hvault. run.
  intros H.
  match type of H with
  | ?m ?s1 ?t1 = _ =>
      assert (Hr : raises (fun e => e <> InvalidVaultAddress) m)
  end.
  { unfold flashLoanFailure, bump, staticcall.
    repeat raises_step ltac:(discriminate). }
  apply Hr in H. congruence.
Qed.

End LoanRequest.

(** * The callback of the flash loan *)

Lemma readBytes_none n acc d :
  readBytes n acc d = None <-> (String.length d < n)%nat.
Proof.
  revert acc d. induction n as [|n IH]; intros acc d; cbn [readBytes].
  - split; [discriminate | lia].
  - destruct d as [|c d]; cbn [String.length].
    + split; [lia | reflexivity].
    + rewrite IH. lia.
Qed.

Lemma run_tryCall_reverted {A B} (m : M A) (f : A + Error -> M B) s t e t' :
  m s t = Revert e t' -> bind (tryCall m) f s t = f (inr e) s t.
Proof. intros H. unfold bind, tryCall. rewrite H. reflexivity. Qed.


(** * The values the engine records *)

Lemma calcTradeFinalBalance_value id input tp s t r s' t' :
  0 <= input <= MAX_INT256 -> is_int256 tp ->
  calcTradeFinalBalance id input tp s t = Ok r s' t' ->
  r = saturate (input + tp).
Proof.
  unfold is_int256, calcTradeFinalBalance, subInt, addInt, checkedInt.
  intros Hin Htp.
  repeat first
    [ progress run | progress cbn [andb]
    | match goal with
      | |- context [?a <=? ?b] => destruct (Z.leb_spec a b)
      | |- context [?a <? ?b] => destruct (Z.ltb_spec a b)
      end ];
    intros Hrun; inversion Hrun; subst; unfold saturate;
    repeat match goal with
    | |- context [?a <? ?b] => destruct (Z.ltb_spec a b)
    end;
    unfold MAX_INT256, MIN_INT256 in *; lia.
Qed.

Lemma calcExpectedProfit_value id e2 input s t r s' t' :
  0 <= input <= MAX_INT256 -> is_int256 e2 ->
  calcExpectedProfit id e2 input s t = Ok r s' t' ->
  r = saturate (e2 - input).
Proof.
  unfold is_int256, calcExpectedProfit, subInt, negInt, checkedInt.
  intros Hin He2.
  assert ((0 <=? input) = true) as -> by (apply Z.leb_le; lia).
  assert ((input <? 0) = false) as -> by (apply Z.ltb_ge; lia).
  rewrite !andb_true_r, !andb_false_r.
  repeat first
    [ progress run | progress cbn [andb]
    | match goal with
      | |- context [?a <=? ?b] => destruct (Z.leb_spec a b)
      | |- context [?a <? ?b] => destruct (Z.ltb_spec a b)
      end ];
    intros Hrun; inversion Hrun; subst; unfold saturate;
    repeat match goal with
    | |- context [?a <? ?b] => destruct (Z.ltb_spec a b)
    end;
    unfold MAX_INT256, MIN_INT256 in *; lia.
Qed.

Lemma settle_values p ini e2 fin s t r s' t' :
  executeArbitrageInternal_settle p ini e2 fin s t = Ok r s' t' ->
  is_uint256 (amount p) -> is_int256 (expectedSecondOutput p) ->
  tradeFinalBalance (tradeContextOf s' (executionId p)) =
    saturate (safeToInt256 (amount p) + r) /\
  exists l,
    t' = l ++ [Emit (ArbitrageExecuted (sourceToken p) (targetToken p)
                       (amount p) fin
                       (saturate (safeToInt256 (amount p) + r)) r
                       (saturate (expectedSecondOutput p -
                                  safeToInt256 (amount p)))
                       (testMode p))].
Proof.
  intros H [Hamt _] He2.
  pose proof (safeToInt256_range (amount p) Hamt) as Hin.
  pose proof (settle_ok _ _ _ _ _ _ _ _ _ H) as (Hr & _).
  pose proof (saturate_range (fin - ini)) as Hrange. rewrite <- Hr in Hrange.
  unfold executeArbitrageInternal_settle in H. cbv zeta in H.
  bind_inv H fab s1 t1 H1. inversion H1; subst fab s1 t1; clear H1.
  bind_inv H u s2 t2 H2. inversion H2; subst s2 t2; clear H2.
  bind_inv H tp s3 t3 H3.
  match type of H3 with
  | calcTradeProfit ?i ?f ?n ?st ?tr = _ =>
      destruct (calcTradeProfit_value i f n st tr) as (stage & data & Hv)
  end.
  rewrite Hv in H3. inversion H3; subst tp s3 t3; clear H3 Hv.
  rewrite <- Hr in H.
  bind_inv H tfb s4 t4 H4.
  pose proof (calcTradeFinalBalance_value _ _ _ _ _ _ _ _ Hin Hrange H4)
    as Htfb.
  apply readonly_calcTradeFinalBalance in H4 as ->.
  bind_inv H u2 s5 t5 H5. inversion H5; subst s5 t5; clear H5.
  bind_inv H ep s6 t6 H6.
  pose proof (calcExpectedProfit_value _ _ _ _ _ _ _ _ Hin He2 H6) as Hep.
  apply readonly_calcExpectedProfit in H6 as ->.
  bind_inv H fbe s7 t7 H7.
  assert (s7 = updTrade (executionId p) (set_tradeResult tfb r) s) as ->.
  { destruct (0 <? tfb); unfold bind, emit, ret in H7; inversion H7;
      reflexivity. }
  clear H7.
  bind_inv H u3 s8 t8 H8. inversion H8; subst s8 t8; clear H8.
  bind_inv H u4 s9 t9 H9. inversion H9; subst s9 t9; clear H9.
  bind_inv H u5 s10 t10 H10.
  bind_inv H u6 s11 t11 H11. apply bump_ok in H11 as [-> ->].
  bind_inv H u7 s12 t12 H12. inversion H12; subst s12 t12; clear H12.
  inversion H; subst s' t'; clear H.
  assert (tradeContexts s10 =
          tradeContexts (updTrade (executionId p) (set_tradeResult tfb r) s))
    as Htc.
  { destruct (0 <? r).
    - bind_inv H10 v1 sa ta Ha. apply bump_ok in Ha as [-> ->].
      bind_inv H10 v2 sb tb Hb. apply bump_ok in Hb as [-> ->].
      inversion H10; subst. reflexivity.
    - bind_inv H10 v1 sa ta Ha.
      destruct (testMode p); cbn [negb] in Ha.
      + inversion Ha; subst. inversion H10; subst. reflexivity.
      + unfold bind, emit, revert in Ha. discriminate. }
  split.
  - unfold tradeContextOf. cbn [tradeContexts updMetrics set_metrics].
    rewrite Htc. cbn [tradeContexts updTrade set_tradeContexts].
    rewrite lookup_insert_eq. cbn. exact Htfb.
  - rewrite <- Htfb, <- Hep. eexists. reflexivity.
Qed.

(** * The configuration registry and the administration *)

(** What [configurePool] does when the owner calls it. *)
Lemma configurePool_by_owner sender pool fee minLiquidity dexName s t :
  owner s = sender ->
  (pool <> 0 -> dex_isEnabled (dexConfigOf s dexName) = true ->
   fee < MAX_BPS -> dex_router (dexConfigOf s dexName) <> 0 ->
   configurePool sender pool fee minLiquidity dexName s t =
     Ok tt
       (updDex dexName (add_dex_supportedPool pool)
          (set_poolConfigs
             (<[pool := mkPoolConfig true fee minLiquidity
                          (dex_router (dexConfigOf s dexName))]>
                (poolConfigs s)) s))
       (t ++ [Emit (PoolConfigured pool fee minLiquidity
                      (dex_router (dexConfigOf s dexName)))])) /\
  (forall r s' t',
     configurePool sender pool fee minLiquidity dexName s t = Ok r s' t' ->
     pool <> 0 /\ dex_isEnabled (dexConfigOf s dexName) = true /\
     fee < MAX_BPS /\ dex_router (dexConfigOf s dexName) <> 0).
Proof.
  intros Hown. unfold configurePool, onlyOwner. run.
  rewrite Hown, Z.eqb_refl. run. split.
  - intros Hpool Hen Hfee Hrouter.
    apply Z.eqb_neq in Hpool, Hrouter. apply Z.leb_gt in Hfee.
    rewrite Hpool. run. rewrite Hen. cbn [negb]. run. rewrite Hfee. run.
    rewrite Hrouter. run. reflexivity.
  - intros r s' t'.
    destruct (pool =? 0) eqn:Hpool; [discriminate |]. run.
    destruct (dex_isEnabled (dexConfigOf s dexName)) eqn:Hen;
      [| discriminate].
    cbn [negb]. run.
    destruct (MAX_BPS <=? fee) eqn:Hfee; [discriminate |]. run.
    destruct (dex_router (dexConfigOf s dexName) =? 0) eqn:Hrouter;
      [discriminate |].
    intros _. apply Z.eqb_neq in Hpool, Hrouter. apply Z.leb_gt in Hfee.
    repeat split; assumption.
Qed.

(** What [configureToken] does when the owner calls it. *)
Lemma configureToken_by_owner sender token maxAmount minAmount decimals s t :
  owner s = sender ->
  (token <> 0 -> minAmount < maxAmount -> decimals <= 18 ->
   configureToken sender token maxAmount minAmount decimals s t =
     Ok tt
       (set_tokenConfigs
          (<[token := mkTokenConfig true maxAmount minAmount decimals]>
             (tokenConfigs s)) s)
       (t ++ [Emit (TokenConfigured token maxAmount minAmount decimals)])) /\
  (token <> 0 -> minAmount < maxAmount -> 18 < decimals ->
   configureToken sender token maxAmount minAmount decimals s t =
     Revert (InvalidSetup 9) t) /\
  (forall r s' t',
     configureToken sender token maxAmount minAmount decimals s t =
       Ok r s' t' ->
     token <> 0 /\ minAmount < maxAmount /\ decimals <= 18).
Proof.
  intros Hown. unfold configureToken, onlyOwner. run.
  rewrite Hown, Z.eqb_refl. run. split; [| split].
  - intros Htok Hlt Hdec.
    apply Z.eqb_neq in Htok. rewrite Htok. run.
    assert ((maxAmount <=? minAmount) = false) as -> by (apply Z.leb_gt; lia).
    run.
    assert ((18 <? decimals) = false) as -> by (apply Z.ltb_ge; lia).
    run. reflexivity.
  - intros Htok Hlt Hdec.
    apply Z.eqb_neq in Htok. rewrite Htok. run.
    assert ((maxAmount <=? minAmount) = false) as -> by (apply Z.leb_gt; lia).
    run.
    assert ((18 <? decimals) = true) as -> by (apply Z.ltb_lt; lia).
    reflexivity.
  - intros r s' t'.
    destruct (token =? 0) eqn:Htok; [discriminate |]. run.
    destruct (maxAmount <=? minAmount) eqn:Hle; [discriminate |]. run.
    destruct (18 <? decimals) eqn:Hdec; [discriminate |].
    intros _. apply Z.eqb_neq in Htok. apply Z.leb_gt in Hle.
    apply Z.ltb_ge in Hdec. repeat split; assumption.
Qed.

(** The loop over the fee tiers adds each tier to the supported fees of
    the DEX and touches nothing else. *)
Lemma recordFeeTiers_adds dexName tiers s t r s' t' :
  recordFeeTiers dexName tiers s t = Ok r s' t' ->
  t' = t /\
  (forall fee,
     fee ∈ dex_supportedFees (dexConfigOf s' dexName) <->
     In fee tiers \/ fee ∈ dex_supportedFees (dexConfigOf s dexName)) /\
  dex_supportedPools (dexConfigOf s' dexName) =
    dex_supportedPools (dexConfigOf s dexName) /\
  getDexConfig s' dexName = getDexConfig s dexName /\
  (forall other, other <> dexName ->
     dexConfigs s' !! other = dexConfigs s !! other) /\
  poolConfigs s' = poolConfigs s /\ tokenConfigs s' = tokenConfigs s /\
  uniswapRouterAddress s' = uniswapRouterAddress s /\
  traderJoeRouterAddress s' = traderJoeRouterAddress s /\
  Forall (fun fee => fee < MAX_BPS) tiers.
Proof.
  revert s. induction tiers as [|fee rest IH]; intros s; cbn [recordFeeTiers].
  - intros H; inversion H; subst.
    repeat split; try reflexivity; try tauto; try constructor.
    intros [[] | H']; exact H'.
  - destruct (MAX_BPS <=? fee) eqn:Hfee; [discriminate |].
    apply Z.leb_gt in Hfee. run. intros H.
    apply IH in H as (Ht & Hfees & Hpools & Hcfg & Hother & Hp & Htk & Hu
                      & Hj & Hall).
    assert (Hd : dexConfigOf (updDex dexName (add_dex_supportedFee fee) s)
                   dexName =
                 add_dex_supportedFee fee (dexConfigOf s dexName)).
    { unfold dexConfigOf at 1. storage. rewrite lookup_insert_eq.
      reflexivity. }
    split; [exact Ht |]. split; [| split; [| split; [| split]]].
    + intros f. rewrite Hfees, Hd. cbn [dex_supportedFees add_dex_supportedFee
                                         In].
      rewrite elem_of_union, elem_of_singleton.
      split; intros [H | H]; try tauto; destruct H; auto.
    + rewrite Hpools, Hd. reflexivity.
    + rewrite Hcfg. unfold getDexConfig. cbv zeta. rewrite Hd. reflexivity.
    + intros other Hne. rewrite (Hother other Hne). storage.
      apply lookup_insert_ne. congruence.
    + rewrite Hp, Htk, Hu, Hj. repeat split; try reflexivity.
      constructor; assumption.
Qed.

(** What a call of [configureDex] that returns has written. *)
Lemma configureDex_writes sender dexName router defaultFee maxGasUsage tiers
    s t r s' t' :
  configureDex sender dexName router defaultFee maxGasUsage tiers s t =
    Ok r s' t' ->
  (forall fee,
     isDexFeeTierSupported s' dexName fee = true <->
     In fee tiers \/ isDexFeeTierSupported s dexName fee = true) /\
  dex_supportedPools (dexConfigOf s' dexName) =
    dex_supportedPools (dexConfigOf s dexName) /\
  (forall other, other <> dexName ->
     dexConfigs s' !! other = dexConfigs s !! other) /\
  poolConfigs s' = poolConfigs s /\ tokenConfigs s' = tokenConfigs s /\
  uniswapRouterAddress s' =
    (if _compareStrings dexName "uniswap" then router
     else uniswapRouterAddress s) /\
  traderJoeRouterAddress s' =
    (if _compareStrings dexName "uniswap" then traderJoeRouterAddress s
     else if _compareStrings dexName "traderjoe" then router
     else traderJoeRouterAddress s).
Proof.
  unfold configureDex, onlyOwner. run.
  destruct (owner s =? sender); [| discriminate]. run.
  destruct ((router =? 0) || (strlen dexName =? 0)); [discriminate |]. run.
  set (s1 := updDex dexName (set_dex_settings router defaultFee maxGasUsage) s).
  assert (Hd : dexConfigOf s1 dexName =
               set_dex_settings router defaultFee maxGasUsage
                 (dexConfigOf s dexName)).
  { unfold s1, dexConfigOf at 1. storage. rewrite lookup_insert_eq.
    reflexivity. }
  assert (Ho : forall other, other <> dexName ->
               dexConfigs s1 !! other = dexConfigs s !! other).
  { intros other Hne. unfold s1. storage. apply lookup_insert_ne.
    congruence. }
  assert (Hgo : forall s2,
    dexConfigs s2 = dexConfigs s1 -> poolConfigs s2 = poolConfigs s ->
    tokenConfigs s2 = tokenConfigs s ->
    bind (recordFeeTiers dexName tiers)
      (fun _ => emit (DexConfigured dexName router defaultFee maxGasUsage))
      s2 t = Ok r s' t' ->
    (forall fee,
       isDexFeeTierSupported s' dexName fee = true <->
       In fee tiers \/ isDexFeeTierSupported s dexName fee = true) /\
    dex_supportedPools (dexConfigOf s' dexName) =
      dex_supportedPools (dexConfigOf s dexName) /\
    (forall other, other <> dexName ->
       dexConfigs s' !! other = dexConfigs s !! other) /\
    poolConfigs s' = poolConfigs s /\ tokenConfigs s' = tokenConfigs s /\
    uniswapRouterAddress s' = uniswapRouterAddress s2 /\
    traderJoeRouterAddress s' = traderJoeRouterAddress s2).
  { intros s2 Hdex Hpool Htoken H.
    bind_inv H u s3 t3 H3. inversion H; subst; clear H.
    apply recordFeeTiers_adds in H3
      as (_ & Hfees & Hpools & _ & Hother & Hp & Htk & Hu & Hj & _).
    assert (Hd2 : dexConfigOf s2 dexName = dexConfigOf s1 dexName)
      by (unfold dexConfigOf; rewrite Hdex; reflexivity).
    split; [| split; [| split; [| repeat split]]].
    - intros fee. unfold isDexFeeTierSupported.
      rewrite !bool_decide_eq_true, Hfees, Hd2, Hd. reflexivity.
    - rewrite Hpools, Hd2, Hd. reflexivity.
    - intros other Hne. rewrite (Hother other Hne), Hdex. apply Ho, Hne.
    - congruence.
    - congruence.
    - exact Hu.
    - exact Hj. }
  destruct (_compareStrings dexName "uniswap");
    [| destruct (_compareStrings dexName "traderjoe")]; run; intros H;
    apply Hgo in H; try reflexivity;
    destruct H as (H1 & H2 & H3 & H4 & H5 & H6 & H7);
    unfold s1 in H6, H7; cbn in H6, H7;
    exact (conj H1 (conj H2 (conj H3 (conj H4 (conj H5 (conj H6 H7)))))).
Qed.

Lemma converted_tiers_fit (fees : list Z) :
  Forall (fun fee => 0 <= fee < 1000000) fees ->
  Forall (fun fee => fee < MAX_BPS) (map convertUniswapFeeToContractFee fees).
Proof.
  intros H. induction H as [| fee rest Hfee _ IH]; cbn [map];
    constructor; [| exact IH].
  unfold convertUniswapFeeToContractFee, MAX_BPS.
  apply Z.div_lt_upper_bound; lia.
Qed.

(** ** Approvals and withdrawals *)

Section Tokens.

Context {C : Type} (reenter : C -> State -> Trace -> State * Trace).

(** [_safeApprove] when the first [approve] is accepted: no second call. *)
Lemma safeApprove_direct token spender amt w data s t :
  outcome (w_directApprove w) = Returned data ->
  data = "" \/ abiDecodeBool data = Some true ->
  _safeApprove reenter token spender amt w s t =
    Ok tt
      (fst (reenter (reentry (w_directApprove w)) s
              (t ++ [CallTo token "approve"])))
      (snd (reenter (reentry (w_directApprove w)) s
              (t ++ [CallTo token "approve"])) ++
       [Emit (ApprovalUpdated token spender amt)]).
Proof.
  intros Hout Hdata. unfold _safeApprove.
  rewrite (run_external_returned _ _ _ _ _ _ _ _ Hout).
  destruct Hdata as [-> | Hdec].
  - cbn [strlen String.length Z.of_nat Z.ltb Z.compare]. run. reflexivity.
  - destruct (0 <? strlen data); [rewrite Hdec |]; cbn [negb]; run;
      reflexivity.
Qed.

(** [_safeApprove] when the first [approve] is refused (it reverts, or
    answers [false]): the allowance is reset, whatever comes of that, and
    [approve] is called again.  A failure of that call is passed on; its
    answer is not looked at. *)
Lemma safeApprove_retry token spender amt w s t :
  (exists e, outcome (w_directApprove w) = Reverted e) \/
  (exists data, outcome (w_directApprove w) = Returned data /\
                abiDecodeBool data = Some false) ->
  (exists e, outcome (w_resetApprove w) = Reverted e) \/
  (exists data answer, outcome (w_resetApprove w) = Returned data /\
                       abiDecodeBool data = Some answer) ->
  (forall e, outcome (w_retryApprove w) = Reverted e ->
     exists t', _safeApprove reenter token spender amt w s t = Revert e t') /\
  (forall data answer,
     outcome (w_retryApprove w) = Returned data ->
     abiDecodeBool data = Some answer ->
     exists s1 t1,
       _safeApprove reenter token spender amt w s t =
         Ok tt
           (fst (reenter (reentry (w_retryApprove w)) s1
                   (t1 ++ [CallTo token "approve"])))
           (snd (reenter (reentry (w_retryApprove w)) s1
                   (t1 ++ [CallTo token "approve"])) ++
            [Emit (ApprovalUpdated token spender amt)])).
Proof.
  intros Hdirect _. unfold _safeApprove, callDiscardBool.
  assert (Hrejected : exists s0 t0, forall B (f : bool -> M B),
    (let* r := external reenter token "approve" (w_directApprove w) in
     let* rejected :=
       match r with
       | Reverted _ => ret true
       | Returned result =>
           if 0 <? strlen result then
             match abiDecodeBool result with
             | Some b => ret (negb b)
             | None => revert (RawRevert "")
             end
           else ret false
       end in
     f rejected) s t = f true s0 t0).
  { destruct Hdirect as [(e & Hout) | (data & Hout & Hdec)].
    - do 2 eexists. intros B f.
      rewrite (run_external_reverted _ _ _ _ _ _ _ _ Hout). run.
      reflexivity.
    - do 2 eexists. intros B f.
      rewrite (run_external_returned _ _ _ _ _ _ _ _ Hout).
      assert ((0 <? strlen data) = true) as ->.
      { destruct data; [discriminate Hdec | reflexivity]. }
      rewrite Hdec. cbn [negb]. run. reflexivity. }
  destruct Hrejected as (s0 & t0 & Hrej).
  assert (Hreset : exists s1 t1, forall B (f : Outcome -> M B),
    exists r,
      bind (external reenter token "approve" (w_resetApprove w)) f s0 t0 =
        f r s1 t1).
  { destruct (outcome (w_resetApprove w)) as [data | e] eqn:Hout.
    - do 2 eexists. intros B f. eexists.
      rewrite (run_external_returned _ _ _ _ _ _ _ _ Hout). reflexivity.
    - do 2 eexists. intros B f. eexists.
      rewrite (run_external_reverted _ _ _ _ _ _ _ _ Hout). reflexivity. }
  destruct Hreset as (s1 & t1 & Hres).
  split.
  - intros e Hout. rewrite Hrej. run.
    match goal with
    | |- context [bind (external _ _ _ (w_resetApprove w)) ?f] =>
        destruct (Hres _ f) as (r & ->)
    end.
    run. rewrite (run_external_reverted _ _ _ _ _ _ _ _ Hout).
    eexists. reflexivity.
  - intros data answer Hout Hdec. exists s1, t1. rewrite Hrej. run.
    match goal with
    | |- context [bind (external _ _ _ (w_resetApprove w)) ?f] =>
        destruct (Hres _ f) as (r & ->)
    end.
    run. rewrite (run_external_returned _ _ _ _ _ _ _ _ Hout).
    rewrite Hdec. run. reflexivity.
Qed.

End Tokens.

(** * Further properties of the flash-loan flow *)

(** X14. The callback rejects what it cannot match with a stored request.
    Called by the vault with user data shorter than a 32-byte word it
    fails in decoding, before any effect; with an execution id other than
    zero for which no context is stored it fails with
    [InvalidExecutionId], having logged that the context is invalid.  (A
    missing context reads as the zero context, whose id is zero.) *)
Theorem X14_callback_rejects_unknown_requests (this : Z)
    (enc : Error -> string) {C : Type}
    (reenter : C -> State -> Trace -> State * Trace)
    sender amounts feeAmounts userData (w : CallbackWorld C) s t :
  sender = balancerVault s ->
  ((String.length userData < 32)%nat ->
   receiveFlashLoan this enc reenter sender amounts feeAmounts userData w s t
     = Revert (RawRevert "") t) /\
  (forall id,
     abiDecodeWord userData = Some id ->
     flashLoanContexts s !! id = None -> id <> 0 ->
     receiveFlashLoan this enc reenter sender amounts feeAmounts userData w
       s t =
     Revert InvalidExecutionId
       (t ++ [Emit (StateLog id "ContextRetrieval" "Invalid")])).
Proof.
  intros ->. unfold receiveFlashLoan. cbv zeta. run. rewrite Z.eqb_refl.
  run. split.
  - intros Hlen. apply readBytes_none with (acc := 0) in Hlen.
    unfold abiDecodeWord. rewrite Hlen. reflexivity.
  - intros id Hid Hnone Hnz. rewrite Hid. run.
    unfold flashLoanContextOf. rewrite Hnone.
    cbn [default zeroFlashLoanContext executionId].
    assert ((0 =? id) = false) as -> by (apply Z.eqb_neq; congruence).
    run. reflexivity.
Qed.

Lemma X14_callback_rejects_unknown_requests_witness :
  receiveFlashLoan exThis exEncode (reenterAt exThis exKeccak exEncode 0)
    exVault [100] [0] (abiEncodeWord 78) (exCallback (exTrade 1005))
    exPending [] =
  Revert InvalidExecutionId [Emit (StateLog 78 "ContextRetrieval" "Invalid")].
Proof.
  apply (proj2 (X14_callback_rejects_unknown_requests exThis exEncode
                  (reenterAt exThis exKeccak exEncode 0) exVault [100] [0]
                  (abiEncodeWord 78) (exCallback (exTrade 1005)) exPending []
                  eq_refl) 78).
  - vm_compute. reflexivity.
  - vm_compute. reflexivity.
  - lia.
Defined.

(** X15. A callback that returns has repaid the loan.  The caller was the
    vault; the user data held the id of a stored request; the amount and
    fee arrays were not empty and their sum fits a [uint256]; outside test
    mode the balance covered the repayment, and in test mode a shortfall
    was covered by a [transferFrom] that went through; the token's
    [transfer] to the vault was called and returned; the completion event
    is the last log entry, after whatever was called back during that
    transfer; and the stored request is deleted. *)
Theorem X15_callback_that_returns_has_repaid (this : Z)
    (enc : Error -> string) {C : Type}
    (reenter : C -> State -> Trace -> State * Trace)
    sender amounts feeAmounts userData (w : CallbackWorld C) s t u s' t' :
  receiveFlashLoan this enc reenter sender amounts feeAmounts userData w s t
    = Ok u s' t' ->
  sender = balancerVault s /\
  exists id principal fee profit s3 t3,
    abiDecodeWord userData = Some id /\
    executionId (flashLoanContextOf s id) = id /\
    hd_error amounts = Some principal /\
    hd_error feeAmounts = Some fee /\
    principal + fee <= MAX_UINT256 /\
    (testMode (flashLoanContextOf s id) = false ->
     principal + fee <= w_currentBalance w) /\
    (w_currentBalance w < principal + fee ->
     exists data, outcome (w_transferFrom w) = Returned data) /\
    (exists data, outcome (w_transfer w) = Returned data) /\
    t' =
      snd (reenter (reentry (w_transfer w)) s3
             (t3 ++ [CallTo (sourceToken (flashLoanContextOf s id))
                       "transfer"])) ++
      [Emit (FlashLoanEvent id 2 (sourceToken (flashLoanContextOf s id))
               (amount (flashLoanContextOf s id)) profit)] /\
    flashLoanContexts s' !! id = None.
Proof.
  unfold receiveFlashLoan. cbv zeta. run.
  destruct (sender =? balancerVault s) eqn:Hs; [| discriminate].
  apply Z.eqb_eq in Hs. run.
  destruct (abiDecodeWord userData) as [id |] eqn:Hid; [| discriminate]. run.
  destruct (executionId (flashLoanContextOf s id) =? id) eqn:Hctx;
    [| discriminate].
  apply Z.eqb_eq in Hctx. run.
  intros H. split; [exact Hs |]. exists id.
  bind_inv H attempt s1 t1 H1. clear H1.
  bind_inv H pr s2 t2 H2. destruct pr as [success profit]. clear H2.
  bind_inv H u1 s3 t3 H3. clear H3.
  bind_inv H principal s4 t4 H4.
  destruct amounts as [| p0 amounts]; [discriminate |].
  inversion H4; subst; clear H4.
  bind_inv H fee s5 t5 H5.
  destruct feeAmounts as [| f0 feeAmounts]; [discriminate |].
  inversion H5; subst; clear H5.
  bind_inv H repay s6 t6 H6. unfold checkedAdd in H6.
  destruct (principal + fee <=? MAX_UINT256) eqn:Hfit; [| discriminate].
  apply Z.leb_le in Hfit. inversion H6; subst; clear H6.
  revert H. run. intros H.
  bind_inv H u2 s7 t7 H7.
  bind_inv H u3 s8 t8 H8.
  revert H. run. intros H. inversion H; subst; clear H.
  unfold callDiscardBool in H8. bind_inv H8 r s9 t9 H9.
  unfold external in H9.
  destruct (outcome (w_transfer w)) as [data | e] eqn:Hout.
  2:{ inversion H9; subst. discriminate. }
  destruct (reenter (reentry (w_transfer w)) s7 _) as [s10 t10] eqn:Hre.
  inversion H9; subst; clear H9.
  destruct (abiDecodeBool data); [| discriminate].
  inversion H8; subst; clear H8.
  exists principal, fee, profit, s7, t7.
  split; [reflexivity |]. split; [exact Hctx |].
  split; [reflexivity |]. split; [reflexivity |]. split; [exact Hfit |].
  split; [| split; [| split; [eauto | split]]].
  - intros Htm.
    destruct (w_currentBalance w <? principal + fee) eqn:Hlt;
      [| apply Z.ltb_ge in Hlt; exact Hlt].
    rewrite Htm in H7. unfold bind, emit, revert in H7. discriminate.
  - intros Hlt. apply Z.ltb_lt in Hlt. rewrite Hlt in H7.
    destruct (testMode _);
      [| unfold bind, emit, revert in H7; discriminate].
    bind_inv H7 r s11 t11 H11. unfold external in H11.
    destruct (outcome (w_transferFrom w)) as [d2 | e2]; [eauto |].
    inversion H11; subst. unfold bind, emit, revert in H7. discriminate.
  - rewrite Hre. reflexivity.
  - storage. apply lookup_delete_eq.
Qed.

Lemma X15_callback_that_returns_has_repaid_witness :
  exists s' t',
    receiveFlashLoan exThis exEncode (reenterAt exThis exKeccak exEncode 0)
      exVault [100] [0] (abiEncodeWord 77) (exCallback (exTrade 1005))
      exPending [] = Ok tt s' t' /\
    flashLoanContexts s' !! 77 = None /\
    100 + 0 <= w_currentBalance (exCallback (exTrade 1005)).
Proof.
  destruct (receiveFlashLoan exThis exEncode
              (reenterAt exThis exKeccak exEncode 0) exVault [100] [0]
              (abiEncodeWord 77) (exCallback (exTrade 1005)) exPending [])
    as [u s' t' | e t'] eqn:E; [| vm_compute in E; discriminate].
  destruct u. exists s', t'. split; [reflexivity |].
  destruct (X15_callback_that_returns_has_repaid _ _ _ _ _ _ _ _ _ _ _ _ _ E)
    as (_ & id & principal & fee & profit & s3 & t3 & Hid & _ & Hp & Hf & _
        & Hbal & _ & _ & _ & Hdel).
  assert (id = 77) as -> by (vm_compute in Hid; congruence).
  assert (principal = 100) as -> by (cbn in Hp; congruence).
  assert (fee = 0) as -> by (cbn in Hf; congruence).
  split; [exact Hdel | apply Hbal; reflexivity].
Defined.

(** X16. A failed arbitrage is still repaid.  When the vault calls back
    for a stored request and the run of the engine fails, with whatever
    error, the failure is caught and nothing the run did remains: no
    execution id is marked and no counter has moved; only the trade
    context of the id is flagged as not executed.  If the balance covers
    principal and fee and the token's [transfer] returns a [bool], the
    callback returns: the completion event carries a profit of 0 and the
    stored request is deleted. *)
Theorem X16_failed_arbitrage_is_still_repaid (this : Z)
    (enc : Error -> string) {C : Type}
    (reenter : C -> State -> Trace -> State * Trace)
    sender amounts feeAmounts userData (w : CallbackWorld C) s t
    id principal fee data answer :
  sender = balancerVault s ->
  abiDecodeWord userData = Some id ->
  executionId (flashLoanContextOf s id) = id ->
  let context := flashLoanContextOf s id in
  (forall t0, exists e te,
     executeArbitrageWrapper this enc reenter this
       (mkArbitrageParams (sourceToken context) (targetToken context)
          (amount context) (firstSwapData context) (secondSwapData context)
          (firstRouter context) (secondRouter context) (testMode context)
          (expectedFirstOutput context) (expectedSecondOutput context) id)
       (w_engine w) s t0 = Revert e te) ->
  hd_error amounts = Some principal -> hd_error feeAmounts = Some fee ->
  principal + fee <= MAX_UINT256 ->
  principal + fee <= w_currentBalance w ->
  outcome (w_transfer w) = Returned data ->
  abiDecodeBool data = Some answer ->
  let unmarked := updTrade id (set_executed false) s in
  executedTrades unmarked = executedTrades s /\
  metrics unmarked = metrics s /\
  exists t1,
    let after :=
      reenter (reentry (w_transfer w)) unmarked
        (t1 ++ [CallTo (sourceToken context) "transfer"]) in
    receiveFlashLoan this enc reenter sender amounts feeAmounts userData w
      s t =
    Ok tt
      (set_flashLoanContexts
         (delete id (flashLoanContexts (fst after))) (fst after))
      (snd after ++
       [Emit (FlashLoanEvent id 2 (sourceToken context) (amount context)
                0)]).
Proof.
  intros Hs Hid Hctx context Hfails Hp Hf Hfit Hbal Hout Hdec unmarked.
  split; [reflexivity | split; [reflexivity |]].
  destruct amounts as [| p0 amounts]; [discriminate |].
  destruct feeAmounts as [| f0 feeAmounts]; [discriminate |].
  cbn in Hp, Hf. injection Hp as ->. injection Hf as ->.
  apply Z.eqb_eq in Hs, Hctx. apply Z.leb_le in Hfit.
  assert (Hcover : (w_currentBalance w <? principal + fee) = false)
    by (apply Z.ltb_ge; exact Hbal).
  unfold receiveFlashLoan. cbv zeta. run. rewrite Hs. run. rewrite Hid. run.
  rewrite Hctx. run. fold context.
  match goal with
  | |- context [bind (tryCall (executeArbitrageWrapper _ _ _ _ _ _)) _ _ ?t0] =>
      destruct (Hfails t0) as (e & te & Hrun)
  end.
  rewrite (run_tryCall_reverted _ _ _ _ _ _ Hrun).
  unfold arbitrageFailure, firstElement, checkedAdd, callDiscardBool.
  destruct (classify e); run; rewrite Hfit; run; rewrite Hcover; run;
    rewrite (run_external_returned _ _ _ _ _ _ _ _ Hout); rewrite Hdec; run;
    fold unmarked; eexists; cbv zeta; reflexivity.
Qed.

Lemma X16_failed_arbitrage_is_still_repaid_witness :
  exists s' l,
    receiveFlashLoan exThis exEncode (reenterAt exThis exKeccak exEncode 0)
      exVault [100] [0] (abiEncodeWord 77) (exCallback exFirstSwapFails)
      exPending [] =
    Ok tt s' (l ++ [Emit (FlashLoanEvent 77 2 5 100 0)]) /\
    isExecuted s' 77 = false.
Proof.
  destruct (X16_failed_arbitrage_is_still_repaid exThis exEncode
              (reenterAt exThis exKeccak exEncode 0) exVault [100] [0]
              (abiEncodeWord 77) (exCallback exFirstSwapFails) exPending []
              77 100 0 (abiEncodeWord 1) true)
    as (_ & _ & t1 & E); try reflexivity; try (vm_compute; congruence).
  - intros t0. do 2 eexists. reflexivity.
  - do 2 eexists. split; [exact E |]. reflexivity.
Defined.

(** X17. The flash-loan request fails only on its own account.  Whatever
    the vault, the callback and the engine do, a call of
    [executeFlashLoanArbitrage] that fails does so with the error of one of
    its two modifiers, of one of its four validations, or with
    [Panic(0x11)] from a counter.  Where the vault address is not zero it
    never fails with [InvalidVaultAddress]; that is so after deployment
    and any sequence of transactions, the constructor having refused the
    zero address. *)
Theorem X17_errors_of_the_loan_request
    (keccak : Z -> Z -> Z -> Z -> Z -> Z -> Z -> Z -> Z)
    (enc : Error -> string) {C : Type}
    (reenter : C -> State -> Trace -> State * Trace)
    sender blockTimestamp blockNumber src tgt amt data1 data2 router1 router2
    mode expected1 expected2 (w : LoanWorld C) s t e t' :
  executeFlashLoanArbitrage keccak enc reenter sender blockTimestamp
    blockNumber src tgt amt data1 data2 router1 router2 mode expected1
    expected2 w s t = Revert e t' ->
  In e loanRequestErrors /\
  (balancerVault s <> 0 -> e <> InvalidVaultAddress) /\
  (forall this n (txs : list (Z * Op (Calls n))) deployer vault s0,
     deploy deployer vault = inl s0 ->
     s = runAll this keccak enc n txs s0 ->
     e <> InvalidVaultAddress).
Proof.
  intros H.
  assert (Hvault : balancerVault s <> 0 -> e <> InvalidVaultAddress).
  { intros Hvault ->.
    eapply executeFlashLoanArbitrage_vault; [exact Hvault | exact H]. }
  split; [eapply raises_executeFlashLoanArbitrage, H | split; [exact Hvault |]].
  intros this n txs deployer vault s0 Hd ->. apply Hvault.
  destruct (runAll_tally this keccak enc n txs s0) as (-> & _).
  unfold deploy in Hd. destruct (vault =? 0) eqn:Hz; inversion Hd; subst.
  cbn. apply Z.eqb_neq. exact Hz.
Qed.

Lemma X17_errors_of_the_loan_request_witness :
  In DisabledToken loanRequestErrors /\ DisabledToken <> InvalidVaultAddress.
Proof.
  destruct (X17_errors_of_the_loan_request exKeccak exEncode
              (reenterAt exThis exKeccak exEncode 0) 2 1000 10 6 5 100 "" ""
              11 12 false 50 105 exLoanFails exState [] DisabledToken [])
    as (Hin & Hvault & _).
  - vm_compute. reflexivity.
  - split; [exact Hin | apply Hvault; vm_compute; congruence].
Defined.

(** X18. The validations of the request are all there is.  A call of
    [executeFlashLoanArbitrage] outside a running request, on a contract
    that is not paused, with two different tokens, an amount other than
    zero, the vault address set and the source token enabled, is not
    refused: it returns, or it fails with [Panic(0x11)] on a counter.
    Neither the amount limits of the token, nor the target token's
    configuration, nor the routers are looked at. *)
Theorem X18_request_passes_validation
    (keccak : Z -> Z -> Z -> Z -> Z -> Z -> Z -> Z -> Z)
    (enc : Error -> string) {C : Type}
    (reenter : C -> State -> Trace -> State * Trace)
    sender blockTimestamp blockNumber src tgt amt data1 data2 router1 router2
    mode expected1 expected2 (w : LoanWorld C) s t :
  entered s = false -> paused s = false ->
  src <> tgt -> amt <> 0 -> balancerVault s <> 0 ->
  token_isEnabled (tokenConfigOf s src) = true ->
  (exists r s' t',
     executeFlashLoanArbitrage keccak enc reenter sender blockTimestamp
       blockNumber src tgt amt data1 data2 router1 router2 mode expected1
       expected2 w s t = Ok r s' t') \/
  (exists t',
     executeFlashLoanArbitrage keccak enc reenter sender blockTimestamp
       blockNumber src tgt amt data1 data2 router1 router2 mode expected1
       expected2 w s t = Revert (Panic 17) t').
Proof.
  intros Hent Hpaused Htok Hamt Hvault Hen.
  apply Z.eqb_neq in Htok, Hamt, Hvault.
  unfold executeFlashLoanArbitrage, nonReentrant, whenNotPaused. cbv zeta.
  run. rewrite Hent. run. storage. rewrite Hpaused.
  rewrite Htok. run. rewrite Hamt. run. storage. rewrite Hvault. run.
  unfold tokenConfigOf in *. storage. rewrite Hen. cbn [negb]. run.
  match goal with
  | |- (exists r s' t', ?m ?s1 ?t1 = _) \/ _ =>
      assert (Hr : raises (fun e => e = Panic 17) m);
      [| destruct (m s1 t1) as [r s' t' | e t'] eqn:E;
         [left; eauto | right; apply Hr in E; subst; eauto]]
  end.
  unfold flashLoanFailure, bump, staticcall.
  repeat raises_step ltac:(reflexivity).
Qed.

Lemma X18_request_passes_validation_witness :
  exists r s' t',
    executeFlashLoanArbitrage exKeccak exEncode
      (reenterAt exThis exKeccak exEncode 0) 2 1000 10 5 6 2000000 "" "" 0 0
      false 50 105 exLoanGranted exState [] = Ok r s' t'.
Proof.
  destruct (X18_request_passes_validation exKeccak exEncode
              (reenterAt exThis exKeccak exEncode 0) 2 1000 10 5 6 2000000
              "" "" 0 0 false 50 105 exLoanGranted exState [])
    as [H | (t' & H)]; try reflexivity; try (vm_compute; congruence).
  - exact H.
  - vm_compute in H. discriminate.
Defined.

(** X19. A request whose loan goes through.  When the call passes its
    guards and validations and the vault's [flashLoan] returns,
    [executeFlashLoanArbitrage] returns the balance the source token
    answers afterwards; in the storage the calls made during the loan have
    left, [flashLoanExecutions] and [flashLoanSuccessful] are each one
    higher and the reentrancy flag is cleared, and nothing else is
    changed: the stored request is left to the callback to delete.  The
    two counters are assumed not to be at the largest [uint256]. *)
Theorem X19_granted_loan_request_returns
    (keccak : Z -> Z -> Z -> Z -> Z -> Z -> Z -> Z -> Z)
    (enc : Error -> string) {C : Type}
    (reenter : C -> State -> Trace -> State * Trace)
    sender blockTimestamp blockNumber src tgt amt data1 data2 router1 router2
    mode expected1 expected2 (w : LoanWorld C) s t data :
  entered s = false -> paused s = false ->
  src <> tgt -> amt <> 0 -> balancerVault s <> 0 ->
  token_isEnabled (tokenConfigOf s src) = true ->
  outcome (w_flashLoan w) = Returned data ->
  let id :=
    keccak src tgt amt router1 router2 blockTimestamp blockNumber sender in
  let pending :=
    set_flashLoanContexts
      (<[id := mkArbitrageParams src tgt amt data1 data2 router1 router2
                 mode expected1 expected2 id]> (flashLoanContexts s))
      (set_entered true s) in
  let during :=
    reenter (reentry (w_flashLoan w)) pending
      (t ++ [Emit (StateLog 0 "ExpectedValues"
                     ("First: " +:+ int2str expected1 +:+
                      ", Second: " +:+ int2str expected2 +:+
                      ", TestMode: " +:+ boolText mode));
             Emit (FlashLoanEvent id 1 src amt 0);
             CallTo src "balanceOf";
             CallTo (balancerVault s) "flashLoan"]) in
  flashLoanExecutions (metrics (fst during)) < MAX_UINT256 ->
  flashLoanSuccessful (metrics (fst during)) < MAX_UINT256 ->
  executeFlashLoanArbitrage keccak enc reenter sender blockTimestamp
    blockNumber src tgt amt data1 data2 router1 router2 mode expected1
    expected2 w s t =
  Ok (w_postCallBalance w)
     (set_entered false
        (updMetrics
           (fun m =>
              set_flashLoanSuccessful (flashLoanSuccessful m + 1)
                (set_flashLoanExecutions (flashLoanExecutions m + 1) m))
           (fst during)))
     (snd during ++
      [CallTo src "balanceOf";
       Emit (StateLog id "BalanceChange"
               ("Pre: " +:+ uint2str (w_preCallBalance w) +:+
                ", Post: " +:+ uint2str (w_postCallBalance w)));
       Emit (StateLog id "FlashLoanComplete" "Success")]).
Proof.
  intros Hent Hpaused Htok Hamt Hvault Hen Hout id pending during Hc1 Hc2.
  apply Z.eqb_neq in Htok, Hamt, Hvault.
  unfold executeFlashLoanArbitrage, nonReentrant, whenNotPaused. cbv zeta.
  run. rewrite Hent. run. storage. rewrite Hpaused.
  rewrite Htok. run. rewrite Hamt. run. storage. rewrite Hvault. run.
  unfold tokenConfigOf in *. storage. rewrite Hen. cbn [negb]. run. storage.
  rewrite (run_external_returned _ _ _ _ _ _ _ _ Hout).
  fold id. rewrite <- !app_assoc. cbn [app]. fold pending. fold during.
  unfold bump, checkedAdd. run.
  assert ((flashLoanExecutions (metrics (fst during)) + 1 <=? MAX_UINT256)
          = true) as -> by (apply Z.leb_le; lia).
  run. storage.
  cbn [flashLoanSuccessful set_flashLoanExecutions].
  assert ((flashLoanSuccessful (metrics (fst during)) + 1 <=? MAX_UINT256)
          = true) as -> by (apply Z.leb_le; lia).
  run. rewrite <- !app_assoc. cbn [app]. reflexivity.
Qed.

Lemma X19_granted_loan_request_returns_witness :
  exists s' t',
    executeFlashLoanArbitrage exKeccak exEncode
      (reenterAt exThis exKeccak exEncode 0) 2 1000 10 5 6 100 "" "" 11 12
      false 50 105 exLoanGranted exState [] = Ok 1005 s' t' /\
    flashLoanContexts s' !! 77 = Some exParams.
Proof.
  do 2 eexists. split.
  - apply (X19_granted_loan_request_returns exKeccak exEncode
             (reenterAt exThis exKeccak exEncode 0) 2 1000 10 5 6 100 "" ""
             11 12 false 50 105 exLoanGranted exState [] "");
      first [ reflexivity | vm_compute; congruence ].
  - vm_compute. reflexivity.
Defined.

(** X20. What a run of the engine that returns has recorded.  With the
    amount a [uint256] and the expected second output an [int256], and
    [input] the amount clamped to the largest [int256]: the last log entry
    is [ArbitrageExecuted] with the trade's final balance [input + profit]
    and the expected profit [expectedSecondOutput - input], each clamped
    to the [int256] range, and [getTradeContext] of the execution id gives
    that final balance, the profit as the actual second output, and
    [executed = true]. *)
Theorem X20_engine_records_the_trade (enc : Error -> string) {C : Type}
    (reenter : C -> State -> Trace -> State * Trace)
    (p : ArbitrageParams) (w : EngineWorld C) s t r s' t' :
  executeArbitrageInternal enc reenter p w s t = Ok r s' t' ->
  is_uint256 (amount p) -> is_int256 (expectedSecondOutput p) ->
  let input := safeToInt256 (amount p) in
  (exists l,
     t' = l ++ [Emit (ArbitrageExecuted (sourceToken p) (targetToken p)
                        (amount p) (w_finalAccountBalance w)
                        (saturate (input + r)) r
                        (saturate (expectedSecondOutput p - input))
                        (testMode p))]) /\
  exists tradeInputAmount expectedFirst actualFirst expectedSecond,
    getTradeContext s' (executionId p) =
      (tradeInputAmount, saturate (input + r), expectedFirst, actualFirst,
       expectedSecond, r, true).
Proof.
  intros H Hamt He2 input. unfold executeArbitrageInternal in H.
  apply bind_ok in H as ([ini e2] & s1 & t1 & _ & H).
  destruct (settle_values _ _ _ _ _ _ _ _ _ H Hamt He2) as (Htfb & Hlog).
  apply settle_ok in H as (_ & Hrec & Hex & _).
  split; [exact Hlog |].
  unfold getTradeContext. cbv zeta. rewrite Htfb, Hrec, Hex.
  do 4 eexists. reflexivity.
Qed.

Lemma X20_engine_records_the_trade_witness :
  exists tradeInputAmount expectedFirst actualFirst expectedSecond,
    getTradeContext exAfterTrade 77 =
      (tradeInputAmount, saturate (safeToInt256 100 + 5), expectedFirst,
       actualFirst, expectedSecond, 5, true).
Proof.
  refine (proj2 (X20_engine_records_the_trade exEncode
                   (reenterAt exThis exKeccak exEncode 0) exParams
                   (exTrade 1005) exState [] 5 exAfterTrade _ _ _ _)).
  - vm_compute. reflexivity.
  - vm_compute. split; congruence.
  - vm_compute. split; congruence.
Defined.

(** * Further properties of the administration *)

(** X21. How [approveRouter] takes the answers of the token.  Called by
    the owner: if the token's [approve] returns no data or [true], that is
    the only call and [ApprovalUpdated] is logged.  If it reverts or
    answers [false], the allowance is reset (a reset that reverts is
    ignored) and [approve] is called again: a revert of that second call
    is passed on, but its answer is not looked at, so [ApprovalUpdated] is
    logged and the call returns even when the token answered [false]
    again. *)
Theorem X21_approveRouter_and_the_token {C : Type}
    (reenter : C -> State -> Trace -> State * Trace)
    sender token router amount (w : ApproveWorld C) s t :
  owner s = sender ->
  (forall data,
     outcome (w_directApprove w) = Returned data ->
     data = "" \/ abiDecodeBool data = Some true ->
     approveRouter reenter sender token router amount w s t =
       Ok tt
         (fst (reenter (reentry (w_directApprove w)) s
                 (t ++ [CallTo token "approve"])))
         (snd (reenter (reentry (w_directApprove w)) s
                 (t ++ [CallTo token "approve"])) ++
          [Emit (ApprovalUpdated token router amount)])) /\
  ((exists e, outcome (w_directApprove w) = Reverted e) \/
   (exists data, outcome (w_directApprove w) = Returned data /\
                 abiDecodeBool data = Some false) ->
   (exists e, outcome (w_resetApprove w) = Reverted e) \/
   (exists data answer, outcome (w_resetApprove w) = Returned data /\
                        abiDecodeBool data = Some answer) ->
   (forall e, outcome (w_retryApprove w) = Reverted e ->
      exists t',
        approveRouter reenter sender token router amount w s t =
          Revert e t') /\
   (forall data answer,
      outcome (w_retryApprove w) = Returned data ->
      abiDecodeBool data = Some answer ->
      exists s1 t1,
        approveRouter reenter sender token router amount w s t =
          Ok tt
            (fst (reenter (reentry (w_retryApprove w)) s1
                    (t1 ++ [CallTo token "approve"])))
            (snd (reenter (reentry (w_retryApprove w)) s1
                    (t1 ++ [CallTo token "approve"])) ++
             [Emit (ApprovalUpdated token router amount)]))).
Proof.
  intros Hown.
  assert (Hgo : approveRouter reenter sender token router amount w s t =
                _safeApprove reenter token router amount w s t).
  { unfold approveRouter, onlyOwner. run. rewrite Hown, Z.eqb_refl. run.
    reflexivity. }
  rewrite Hgo. split.
  - intros data Hout Hdata. eapply safeApprove_direct; eassumption.
  - intros Hdirect Hreset. apply safeApprove_retry; assumption.
Qed.

Lemma X21_approveRouter_and_the_token_witness :
  exists s' l,
    approveRouter (reenterAt exThis exKeccak exEncode 0) exOwner 5 11 1000
      exRefusedApprove exState [] =
    Ok tt s' (l ++ [Emit (ApprovalUpdated 5 11 1000)]).
Proof.
  destruct (X21_approveRouter_and_the_token
              (reenterAt exThis exKeccak exEncode 0) exOwner 5 11 1000
              exRefusedApprove exState [] eq_refl) as [_ Hretry].
  destruct Hretry as [_ Hanswer].
  - right. exists (abiEncodeWord 0). split; reflexivity.
  - left. eexists. reflexivity.
  - destruct (Hanswer (abiEncodeWord 0) false eq_refl eq_refl)
      as (s1 & t1 & E).
    do 2 eexists. exact E.
Defined.

(** X22. Withdrawals that move nothing.  Called by the owner for a token
    other than the zero address: [emergencyWithdraw] returns [false]
    without calling [transfer] when the contract holds nothing of the
    token, and [withdrawFunds] does when it holds less than the amount;
    [withdrawFunds] of an amount of zero fails with [InvalidSetup(8)]. 
    When there is something to send and the token's [transfer] answers
    [false], both fail with the error of [SafeERC20]; when it returns no
    data or [true], both return [true]. *)
Theorem X22_withdrawals {C : Type}
    (reenter : C -> State -> Trace -> State * Trace)
    sender token amount (w : WithdrawWorld C) s t :
  owner s = sender -> token <> 0 ->
  (w_balance w = 0 ->
   emergencyWithdraw reenter sender token w s t =
     Ok false s (t ++ [CallTo token "balanceOf"])) /\
  (amount = 0 ->
   withdrawFunds reenter sender token amount w s t =
     Revert (InvalidSetup 8) t) /\
  (amount <> 0 -> w_balance w < amount ->
   withdrawFunds reenter sender token amount w s t =
     Ok false s (t ++ [CallTo token "balanceOf"])) /\
  (forall data,
     outcome (w_safeTransfer w) = Returned data ->
     abiDecodeBool data = Some false ->
     (w_balance w <> 0 ->
      exists t',
        emergencyWithdraw reenter sender token w s t =
          Revert (ErrorString "SafeERC20: ERC20 operation did not succeed")
            t') /\
     (amount <> 0 -> amount <= w_balance w ->
      exists t',
        withdrawFunds reenter sender token amount w s t =
          Revert (ErrorString "SafeERC20: ERC20 operation did not succeed")
            t')) /\
  (forall data,
     outcome (w_safeTransfer w) = Returned data ->
     data = "" \/ abiDecodeBool data = Some true ->
     (w_balance w <> 0 ->
      exists s' t', emergencyWithdraw reenter sender token w s t =
                      Ok true s' t') /\
     (amount <> 0 -> amount <= w_balance w ->
      exists s' t', withdrawFunds reenter sender token amount w s t =
                      Ok true s' t')).
Proof.
  intros Hown Htok. apply Z.eqb_neq in Htok.
  unfold emergencyWithdraw, withdrawFunds, safeTransfer, onlyOwner.
  run. rewrite Hown, Z.eqb_refl. run. rewrite Htok. run.
  assert (Hlen : forall data b,
            abiDecodeBool data = Some b -> (0 <? strlen data) = true).
  { intros data b Hdec. destruct data; [discriminate Hdec | reflexivity]. }
  split; [| split; [| split; [| split]]].
  - intros ->. reflexivity.
  - intros ->. reflexivity.
  - intros Hamt Hlt. apply Z.eqb_neq in Hamt. apply Z.ltb_lt in Hlt.
    rewrite Hamt. run. rewrite Hlt. reflexivity.
  - intros data Hout Hdec. split.
    + intros Hbal. apply Z.eqb_neq in Hbal. rewrite Hbal. run.
      rewrite (run_external_returned _ _ _ _ _ _ _ _ Hout).
      rewrite (Hlen _ _ Hdec), Hdec. eexists. reflexivity.
    + intros Hamt Hle. apply Z.eqb_neq in Hamt. rewrite Hamt. run.
      assert ((w_balance w <? amount) = false) as ->
        by (apply Z.ltb_ge; lia).
      run. rewrite (run_external_returned _ _ _ _ _ _ _ _ Hout).
      rewrite (Hlen _ _ Hdec), Hdec. eexists. reflexivity.
  - intros data Hout Hdata. split.
    + intros Hbal. apply Z.eqb_neq in Hbal. rewrite Hbal. run.
      rewrite (run_external_returned _ _ _ _ _ _ _ _ Hout).
      destruct Hdata as [-> | Hdec].
      * cbn [strlen String.length Z.of_nat Z.ltb Z.compare]. run.
        do 2 eexists. reflexivity.
      * rewrite (Hlen _ _ Hdec), Hdec. run. do 2 eexists. reflexivity.
    + intros Hamt Hle. apply Z.eqb_neq in Hamt. rewrite Hamt. run.
      assert ((w_balance w <? amount) = false) as ->
        by (apply Z.ltb_ge; lia).
      run. rewrite (run_external_returned _ _ _ _ _ _ _ _ Hout).
      destruct Hdata as [-> | Hdec].
      * cbn [strlen String.length Z.of_nat Z.ltb Z.compare]. run.
        do 2 eexists. reflexivity.
      * rewrite (Hlen _ _ Hdec), Hdec. run. do 2 eexists. reflexivity.
Qed.

Lemma X22_withdrawals_witness :
  emergencyWithdraw (reenterAt exThis exKeccak exEncode 0) exOwner 5
    exNothingHeld exState [] = Ok false exState [CallTo 5 "balanceOf"] /\
  exists t',
    withdrawFunds (reenterAt exThis exKeccak exEncode 0) exOwner 5 40
      exTransferRefused exState [] =
    Revert (ErrorString "SafeERC20: ERC20 operation did not succeed") t'.
Proof.
  split.
  - refine (proj1 (X22_withdrawals (reenterAt exThis exKeccak exEncode 0)
                     exOwner 5 40 exNothingHeld exState [] eq_refl _) _);
      [vm_compute; congruence | reflexivity].
  - refine (proj2 (proj1 (proj2 (proj2 (proj2
              (X22_withdrawals (reenterAt exThis exKeccak exEncode 0)
                 exOwner 5 40 exTransferRefused exState [] eq_refl _))))
              (abiEncodeWord 0) eq_refl eq_refl) _ _);
      first [ vm_compute; congruence | lia ].
Defined.

(** X23. Pausing.  Called by the owner of a contract that is not paused,
    [pause] sets the flag and logs [Paused], [triggerCircuitBreaker] does
    the same and then logs its reason, and [unpause] fails with "Pausable:
    not paused"; a following [unpause] leaves the storage exactly as it
    was before the pause.  On a paused contract [pause] and
    [triggerCircuitBreaker] fail with "Pausable: paused" and [unpause]
    clears the flag. *)
Theorem X23_pause_and_unpause sender s t :
  owner s = sender ->
  (paused s = false ->
   pause sender s t = Ok tt (set_paused true s) (t ++ [Emit (Paused sender)])
   /\
   (forall reason,
      triggerCircuitBreaker sender reason s t =
        Ok tt (set_paused true s)
          (t ++ [Emit (Paused sender);
                 Emit (StateLog 0 "CircuitBreakerTriggered" reason)])) /\
   unpause sender s t = Revert (ErrorString "Pausable: not paused") t /\
   (forall t2,
      unpause sender (set_paused true s) t2 =
        Ok tt s (t2 ++ [Emit (Unpaused sender)]))) /\
  (paused s = true ->
   pause sender s t = Revert (ErrorString "Pausable: paused") t /\
   (forall reason,
      triggerCircuitBreaker sender reason s t =
        Revert (ErrorString "Pausable: paused") t) /\
   unpause sender s t =
     Ok tt (set_paused false s) (t ++ [Emit (Unpaused sender)])).
Proof.
  intros Hown.
  unfold pause, unpause, triggerCircuitBreaker, _pause, _unpause,
    whenNotPaused, whenPaused, onlyOwner.
  split; intros Hp.
  - split; [| split; [| split]].
    + run. rewrite Hown, Z.eqb_refl. run. rewrite Hp. run. reflexivity.
    + intros reason. run. rewrite Hown, Z.eqb_refl. run. rewrite Hp. run.
      unfold emit. rewrite <- app_assoc. reflexivity.
    + run. rewrite Hown, Z.eqb_refl. run. rewrite Hp. reflexivity.
    + intros t2. run. storage. rewrite Hown, Z.eqb_refl. run. storage. run.
      f_equal. destruct s; cbn in *; subst. reflexivity.
  - split; [| split].
    + run. rewrite Hown, Z.eqb_refl. run. rewrite Hp. reflexivity.
    + intros reason. run. rewrite Hown, Z.eqb_refl. run. rewrite Hp.
      reflexivity.
    + run. rewrite Hown, Z.eqb_refl. run. rewrite Hp. run. reflexivity.
Qed.

Lemma X23_pause_and_unpause_witness :
  pause exOwner exState [] = Ok tt (set_paused true exState)
                               [Emit (Paused exOwner)] /\
  unpause exOwner (set_paused true exState) [Emit (Paused exOwner)] =
    Ok tt exState [Emit (Paused exOwner); Emit (Unpaused exOwner)].
Proof.
  destruct (proj1 (X23_pause_and_unpause exOwner exState [] eq_refl) eq_refl)
    as (Hpause & _ & _ & Hback).
  split; [exact Hpause | exact (Hback [Emit (Paused exOwner)])].
Defined.

(** * Further properties of the configuration registry *)

(** X24. [configurePool], called by the owner, returns exactly when the
    pool is not the zero address, the named DEX is enabled and has a
    router, and the fee is below 10000 bps.  It then logs
    [PoolConfigured]; [getPoolConfig] of the pool gives (true, fee,
    minLiquidity, the router of the DEX); the pool is among the supported
    pools of the DEX; the settings of the DEX and the configuration of
    every other pool are as before. *)
Theorem X24_configurePool_then_getPoolConfig sender pool fee minLiquidity
    dexName s t :
  owner s = sender ->
  ((exists s' t',
      configurePool sender pool fee minLiquidity dexName s t = Ok tt s' t')
   <->
   (pool <> 0 /\ dex_isEnabled (dexConfigOf s dexName) = true /\
    fee < MAX_BPS /\ dex_router (dexConfigOf s dexName) <> 0)) /\
  (forall r s' t',
     configurePool sender pool fee minLiquidity dexName s t = Ok r s' t' ->
     t' = t ++ [Emit (PoolConfigured pool fee minLiquidity
                        (dex_router (dexConfigOf s dexName)))] /\
     getPoolConfig s' pool =
       (true, fee, minLiquidity, dex_router (dexConfigOf s dexName)) /\
     pool ∈ dex_supportedPools (dexConfigOf s' dexName) /\
     getDexConfig s' dexName = getDexConfig s dexName /\
     (forall other, other <> pool ->
        getPoolConfig s' other = getPoolConfig s other)).
Proof.
  intros Hown.
  destruct (configurePool_by_owner sender pool fee minLiquidity dexName s t
              Hown) as [Hok Hconds].
  split.
  - split.
    + intros (s' & t' & E). apply (Hconds _ _ _ E).
    + intros (H1 & H2 & H3 & H4). rewrite (Hok H1 H2 H3 H4). eauto.
  - intros r s' t' E.
    destruct (Hconds _ _ _ E) as (H1 & H2 & H3 & H4).
    rewrite (Hok H1 H2 H3 H4) in E. inversion E; subst; clear E.
    split; [reflexivity |].
    unfold getPoolConfig, getDexConfig, poolConfigOf. cbv zeta.
    assert (Hd : dexConfigOf
                   (updDex dexName (add_dex_supportedPool pool)
                      (set_poolConfigs
                         (<[pool := mkPoolConfig true fee minLiquidity
                                      (dex_router (dexConfigOf s dexName))]>
                            (poolConfigs s)) s)) dexName =
                 add_dex_supportedPool pool (dexConfigOf s dexName)).
    { unfold dexConfigOf at 1. storage. rewrite lookup_insert_eq.
      reflexivity. }
    rewrite Hd. storage.
    split; [| split; [| split]].
    + rewrite lookup_insert_eq. reflexivity.
    + cbn [dex_supportedPools add_dex_supportedPool].
      apply elem_of_union_l, elem_of_singleton. reflexivity.
    + reflexivity.
    + intros other Hne. rewrite lookup_insert_ne by congruence. reflexivity.
Qed.

Lemma X24_configurePool_then_getPoolConfig_witness :
  exists s' t',
    configurePool exOwner 21 30 1000 "uniswap" exWithDex [] = Ok tt s' t' /\
    getPoolConfig s' 21 = (true, 30, 1000, ROUTER_A).
Proof.
  destruct (X24_configurePool_then_getPoolConfig exOwner 21 30 1000
              "uniswap" exWithDex [] eq_refl) as [Hiff Hget].
  destruct (proj2 Hiff) as (s' & t' & E).
  - vm_compute. repeat split; congruence.
  - exists s', t'. split; [exact E |].
    destruct (Hget _ _ _ E) as (_ & Hcfg & _). exact Hcfg.
Defined.

(** X25. [configureToken], called by the owner, returns exactly when the
    token is not the zero address, [minAmount < maxAmount] and the
    decimals are at most 18; with more than 18 decimals (and the first two
    in order) it fails with [InvalidSetup(9)].  When it returns it has
    logged [TokenConfigured], [getTokenConfig] of the token gives (true,
    maxAmount, minAmount, decimals), so a token that had been disabled is
    enabled again, and the configuration of every other token is as
    before. *)
Theorem X25_configureToken_then_getTokenConfig sender token maxAmount
    minAmount decimals s t :
  owner s = sender ->
  ((exists s' t',
      configureToken sender token maxAmount minAmount decimals s t =
        Ok tt s' t')
   <-> (token <> 0 /\ minAmount < maxAmount /\ decimals <= 18)) /\
  (token <> 0 -> minAmount < maxAmount -> 18 < decimals ->
   configureToken sender token maxAmount minAmount decimals s t =
     Revert (InvalidSetup 9) t) /\
  (forall r s' t',
     configureToken sender token maxAmount minAmount decimals s t =
       Ok r s' t' ->
     t' = t ++ [Emit (TokenConfigured token maxAmount minAmount decimals)] /\
     getTokenConfig s' token = (true, maxAmount, minAmount, decimals) /\
     (forall other, other <> token ->
        getTokenConfig s' other = getTokenConfig s other)).
Proof.
  intros Hown.
  destruct (configureToken_by_owner sender token maxAmount minAmount decimals
              s t Hown) as (Hok & Hdec & Hconds).
  split; [| split; [exact Hdec |]].
  - split.
    + intros (s' & t' & E). apply (Hconds _ _ _ E).
    + intros (H1 & H2 & H3). rewrite (Hok H1 H2 H3). eauto.
  - intros r s' t' E.
    destruct (Hconds _ _ _ E) as (H1 & H2 & H3).
    rewrite (Hok H1 H2 H3) in E. inversion E; subst; clear E.
    split; [reflexivity |].
    unfold getTokenConfig, tokenConfigOf. cbv zeta. storage.
    rewrite lookup_insert_eq. split; [reflexivity |].
    intros other Hne. rewrite lookup_insert_ne by congruence. reflexivity.
Qed.

Lemma X25_configureToken_then_getTokenConfig_witness :
  exists s' t',
    configureToken exOwner 7 10 1 18 exState [] = Ok tt s' t' /\
    getTokenConfig s' 7 = (true, 10, 1, 18) /\
    getTokenConfig s' 5 = getTokenConfig exState 5.
Proof.
  destruct (X25_configureToken_then_getTokenConfig exOwner 7 10 1 18 exState
              [] eq_refl) as (Hiff & _ & Hget).
  destruct (proj2 Hiff) as (s' & t' & E).
  - repeat split; lia.
  - exists s', t'. split; [exact E |].
    destruct (Hget _ _ _ E) as (_ & Hcfg & Hother).
    split; [exact Hcfg | apply Hother; lia].
Defined.

(** X26. [configureDex] adds fee tiers and never removes one.  After a
    call that returns, a fee tier is supported for the DEX exactly when it
    is in the list supplied or was supported before; the supported pools
    of the DEX are as before; every other DEX, every pool and every token
    is as before; and the stored router address of Uniswap, or of Trader
    Joe, is the new router when the name is "uniswap", or "traderjoe", and
    is otherwise as before. *)
Theorem X26_configureDex_keeps_fee_tiers sender dexName router defaultFee
    maxGasUsage (supportedFeeTiers : list Z) s t r s' t' :
  configureDex sender dexName router defaultFee maxGasUsage supportedFeeTiers
    s t = Ok r s' t' ->
  (forall fee,
     isDexFeeTierSupported s' dexName fee = true <->
     In fee supportedFeeTiers \/ isDexFeeTierSupported s dexName fee = true)
  /\
  dex_supportedPools (dexConfigOf s' dexName) =
    dex_supportedPools (dexConfigOf s dexName) /\
  (forall other, other <> dexName ->
     getDexConfig s' other = getDexConfig s other /\
     forall fee,
       isDexFeeTierSupported s' other fee =
         isDexFeeTierSupported s other fee) /\
  poolConfigs s' = poolConfigs s /\ tokenConfigs s' = tokenConfigs s /\
  uniswapRouterAddress s' =
    (if _compareStrings dexName "uniswap" then router
     else uniswapRouterAddress s) /\
  traderJoeRouterAddress s' =
    (if _compareStrings dexName "uniswap" then traderJoeRouterAddress s
     else if _compareStrings dexName "traderjoe" then router
     else traderJoeRouterAddress s).
Proof.
  intros H.
  destruct (configureDex_writes _ _ _ _ _ _ _ _ _ _ _ H)
    as (H1 & H2 & H3 & H4 & H5 & H6 & H7).
  split; [exact H1 | split; [exact H2 | split]].
  - intros other Hne.
    unfold getDexConfig, isDexFeeTierSupported, dexConfigOf. cbv zeta.
    rewrite (H3 other Hne). split; [reflexivity | intros fee; reflexivity].
  - exact (conj H4 (conj H5 (conj H6 H7))).
Qed.

Lemma X26_configureDex_keeps_fee_tiers_witness :
  exists s' t',
    configureDex exOwner "uniswap" ROUTER_A 30 3000000 [5] exWithDex [] =
      Ok tt s' t' /\
    isDexFeeTierSupported s' "uniswap" 5 = true /\
    isDexFeeTierSupported s' "uniswap" 30 = true.
Proof.
  destruct (configureDex exOwner "uniswap" ROUTER_A 30 3000000 [5] exWithDex
              []) as [u s' t' | e t'] eqn:E; [| vm_compute in E; discriminate].
  destruct u. exists s', t'. split; [reflexivity |].
  destruct (X26_configureDex_keeps_fee_tiers _ _ _ _ _ _ _ _ _ _ _ E)
    as (Hfees & _).
  split; apply Hfees; [left; left; reflexivity | right; vm_compute; reflexivity].
Defined.

(** X27. The deployment script and the contract.  The script converts
    the fee tiers of Uniswap with [convertUniswapFeeToContractFee] before
    it calls [configureDex].  For every list of Uniswap fees from 0 to
    below 1000000 (100%), the call of the owner with a router other than
    zero, a name that is not empty and the converted list returns, and
    every converted tier is supported afterwards. *)
Theorem X27_converted_fee_tiers_are_accepted sender dexName router
    defaultFee maxGasUsage (uniswapFees : list Z) s t :
  owner s = sender -> router <> 0 -> dexName <> "" ->
  Forall (fun fee => 0 <= fee < 1000000) uniswapFees ->
  exists s',
    configureDex sender dexName router
      (convertUniswapFeeToContractFee defaultFee) maxGasUsage
      (map convertUniswapFeeToContractFee uniswapFees) s t =
    Ok tt s'
      (t ++ [Emit (DexConfigured dexName router
                     (convertUniswapFeeToContractFee defaultFee)
                     maxGasUsage)]) /\
    forall fee,
      In fee uniswapFees ->
      isDexFeeTierSupported s' dexName (convertUniswapFeeToContractFee fee)
        = true.
Proof.
  intros Hown Hrouter Hname Hfees.
  destruct (configureDex_by_owner sender dexName router
              (convertUniswapFeeToContractFee defaultFee) maxGasUsage
              (map convertUniswapFeeToContractFee uniswapFees) s t Hown)
    as (_ & _ & Hok).
  destruct (Hok Hrouter Hname (converted_tiers_fit _ Hfees)) as (s' & E & _).
  exists s'. split; [exact E |].
  intros fee Hin.
  destruct (configureDex_writes _ _ _ _ _ _ _ _ _ _ _ E) as (Hsup & _).
  apply Hsup. left. apply in_map. exact Hin.
Qed.

Lemma X27_converted_fee_tiers_are_accepted_witness :
  exists s',
    configureDex exOwner "uniswap" ROUTER_A 30 3000000 [1; 5; 30; 100]
      exState [] =
    Ok tt s' [Emit (DexConfigured "uniswap" ROUTER_A 30 3000000)] /\
    isDexFeeTierSupported s' "uniswap" 100 = true.
Proof.
  destruct (X27_converted_fee_tiers_are_accepted exOwner "uniswap" ROUTER_A
              3000 3000000 POOL_FEES exState [] eq_refl)
    as (s' & E & Hsup).
  - vm_compute. congruence.
  - discriminate.
  - unfold POOL_FEES. repeat constructor; lia.
  - exists s'. split; [exact E |].
    apply (Hsup 10000). unfold POOL_FEES. cbn. tauto.
Defined.

(** X28. Disabling a token stops the requests for it.  After the owner
    has called [setTokenEnabled(token, false)] for a configured token (one
    whose decimals are not 0), every call of [executeFlashLoanArbitrage]
    with that token as source token that passes the guards and the checks
    made before fails with [DisabledToken], before any effect. *)
Theorem X28_disabled_token_stops_requests
    (keccak : Z -> Z -> Z -> Z -> Z -> Z -> Z -> Z -> Z)
    (enc : Error -> string) {C : Type}
    (reenter : C -> State -> Trace -> State * Trace)
    owner_ token s t :
  owner s = owner_ -> token <> 0 ->
  token_decimals (tokenConfigOf s token) <> 0 ->
  exists s',
    setTokenEnabled owner_ token false s t = Ok tt s' t /\
    forall sender blockTimestamp blockNumber tgt amt data1 data2 router1
           router2 mode expected1 expected2 (w : LoanWorld C) t2,
      entered s = false -> paused s = false ->
      token <> tgt -> amt <> 0 -> balancerVault s <> 0 ->
      executeFlashLoanArbitrage keccak enc reenter sender blockTimestamp
        blockNumber token tgt amt data1 data2 router1 router2 mode expected1
        expected2 w s' t2 = Revert DisabledToken t2.
Proof.
  intros Hown Htok Hdec. apply Z.eqb_neq in Htok, Hdec.
  eexists. split.
  - unfold setTokenEnabled, onlyOwner. run. storage.
    rewrite Hown, Z.eqb_refl. run. rewrite Htok. run. rewrite Hdec. run.
    reflexivity.
  - intros sender ts bn tgt amt d1 d2 r1 r2 mode e1 e2 w t2 Hent Hpaused
      Hne Hamt Hvault.
    apply Z.eqb_neq in Hne, Hamt, Hvault.
    unfold executeFlashLoanArbitrage, nonReentrant, whenNotPaused. cbv zeta.
    run. storage. rewrite Hent. run. storage. rewrite Hpaused.
    rewrite Hne. run. rewrite Hamt. run. storage. rewrite Hvault. run.
    unfold tokenConfigOf. storage. rewrite lookup_insert_eq. reflexivity.
Qed.

Lemma X28_disabled_token_stops_requests_witness :
  exists s',
    setTokenEnabled exOwner 5 false exState [] = Ok tt s' [] /\
    executeFlashLoanArbitrage exKeccak exEncode
      (reenterAt exThis exKeccak exEncode 0) 2 1000 10 5 6 100 "" "" 11 12
      false 50 105 exLoanGranted s' [] = Revert DisabledToken [].
Proof.
  destruct (X28_disabled_token_stops_requests exKeccak exEncode
              (reenterAt exThis exKeccak exEncode 0) exOwner 5 exState []
              eq_refl) as (s' & E & Hstop).
  - lia.
  - vm_compute. congruence.
  - exists s'. split; [exact E |].
    apply Hstop; first [ reflexivity | vm_compute; congruence ].
Defined.

(** * The text of the log entries *)

Lemma digitOf_digit m :
  0 <= m < 10 -> digitOf (byteOf (48 + m)) = Some m.
Proof.
  intros H.
  assert (m = 0 \/ m = 1 \/ m = 2 \/ m = 3 \/ m = 4 \/ m = 5 \/ m = 6 \/
          m = 7 \/ m = 8 \/ m = 9) as Hm by lia.
  repeat (destruct Hm as [-> | Hm]; [reflexivity |]). subst. reflexivity.
Qed.

Lemma uint2str_digits_nonempty fuel i c buffer :
  uint2str_digits fuel i (String c buffer) <> EmptyString.
Proof.
  revert i c buffer. induction fuel as [| fuel IH]; intros i c buffer;
    cbn [uint2str_digits]; [discriminate |].
  destruct (i =? 0); [discriminate | apply IH].
Qed.

Lemma uint2str_digits_step fuel i buffer :
  uint2str_digits (S fuel) i buffer =
    if i =? 0 then buffer
    else uint2str_digits fuel (i / 10)
           (String (byteOf (48 + i mod 10)) buffer).
Proof. reflexivity. Qed.

(** The digits written in front of the buffer read back as [i]. *)
Lemma uint2str_digits_parse fuel :
  forall i buffer,
    0 <= i < 10 ^ Z.of_nat fuel ->
    exists k,
      0 <= k /\
      forall acc,
        parseDigits acc (uint2str_digits fuel i buffer) =
          parseDigits (acc * 10 ^ k + i) buffer.
Proof.
  induction fuel as [| fuel IH]; intros i buffer Hi.
  - exists 0. split; [lia |]. intros acc. cbn [uint2str_digits].
    cbn in Hi. f_equal. lia.
  - cbn [uint2str_digits]. destruct (i =? 0) eqn:Hz.
    + apply Z.eqb_eq in Hz. subst. exists 0. split; [lia |].
      intros acc. f_equal. lia.
    + apply Z.eqb_neq in Hz.
      rewrite Nat2Z.inj_succ, Z.pow_succ_r in Hi by lia.
      destruct (IH (i / 10) (String (byteOf (48 + i mod 10)) buffer))
        as (k & Hk & Hparse).
      { split; [apply Z.div_pos; lia |].
        apply Z.div_lt_upper_bound; lia. }
      exists (k + 1). split; [lia |]. intros acc.
      rewrite Hparse. cbn [parseDigits].
      rewrite digitOf_digit by (apply Z.mod_pos_bound; lia).
      f_equal. rewrite Z.pow_add_r by lia.
      pose proof (Z.div_mod i 10). lia.
Qed.

Lemma uint2str_parse i :
  0 <= i <= MAX_UINT256 -> parseUint (uint2str i) = Some i.
Proof.
  intros Hi. unfold uint2str. destruct (i =? 0) eqn:Hz.
  - apply Z.eqb_eq in Hz. subst. reflexivity.
  - apply Z.eqb_neq in Hz.
    destruct (uint2str_digits_parse 78 i EmptyString) as (k & _ & Hparse).
    { split; [lia |]. unfold MAX_UINT256 in Hi.
      eapply Z.le_lt_trans; [apply Hi |]. reflexivity. }
    specialize (Hparse 0). cbn [parseDigits] in Hparse.
    replace (0 * 10 ^ k + i) with i in Hparse by lia.
    unfold parseUint.
    destruct (uint2str_digits 78 i EmptyString) eqn:E; [| exact Hparse].
    exfalso. rewrite (uint2str_digits_step 77) in E.
    apply Z.eqb_neq in Hz. rewrite Hz in E.
    eapply uint2str_digits_nonempty, E.
Qed.

(** X29. The numbers in the log read back.  [uint2str] writes a
    [uint256] in decimal digits, and [int2str] an [int256], with a minus
    sign when it is negative: reading the text back gives the number.  This
    covers the text [int2str] holds ready for the smallest [int256],
    which it cannot negate. *)
Theorem X29_numbers_read_back (i v : Z) :
  0 <= i <= MAX_UINT256 -> is_int256 v ->
  parseUint (uint2str i) = Some i /\ parseInt (int2str v) = Some v.
Proof.
  intros Hi [Hlo Hhi]. split; [apply uint2str_parse, Hi |].
  unfold int2str.
  destruct (v =? 0) eqn:Hz; [apply Z.eqb_eq in Hz; subst; reflexivity |].
  apply Z.eqb_neq in Hz.
  destruct (v =? MIN_INT256) eqn:Hmin.
  { apply Z.eqb_eq in Hmin. subst. vm_compute. reflexivity. }
  apply Z.eqb_neq in Hmin.
  assert (Hmax : MAX_INT256 < MAX_UINT256) by (vm_compute; reflexivity).
  assert (Hneg : - MIN_INT256 = MAX_INT256 + 1) by (vm_compute; reflexivity).
  destruct (v <? 0) eqn:Hsign.
  - apply Z.ltb_lt in Hsign.
    change ("-" +:+ uint2str (- v)) with (String "-" (uint2str (- v))).
    cbn [parseInt]. rewrite Ascii.eqb_refl, uint2str_parse by lia.
    cbn [option_map]. f_equal. lia.
  - apply Z.ltb_ge in Hsign.
    pose proof (uint2str_parse v) as Hparse.
    destruct (uint2str v) as [| c d]; [apply Hparse; lia |].
    cbn [parseInt]. destruct (Ascii.eqb c "-") eqn:Hc; [| apply Hparse; lia].
    apply Ascii.eqb_eq in Hc. subst.
    assert (0 <= v <= MAX_UINT256) as Hv by lia.
    apply Hparse in Hv. discriminate Hv.
Qed.

Lemma X29_numbers_read_back_witness :
  parseUint (uint2str MAX_UINT256) = Some MAX_UINT256 /\
  parseInt (int2str MIN_INT256) = Some MIN_INT256.
Proof.
  apply (X29_numbers_read_back MAX_UINT256 MIN_INT256).
  - vm_compute. split; congruence.
  - vm_compute. split; congruence.
Defined.

(** * The entries of the registry *)

Lemma StaysWellFormed_refl s : StaysWellFormed s s.
Proof. intros H. exact H. Qed.

Lemma StaysWellFormed_trans s s1 s2 :
  StaysWellFormed s s1 -> StaysWellFormed s1 s2 -> StaysWellFormed s s2.
Proof. unfold StaysWellFormed. auto. Qed.

(** An assignment that touches no entry of the registry. *)
Ltac wf_side := intros ? HI; exact HI.

Lemma dexConfigOf_stored s name c :
  dexConfigs s !! name = Some c -> dexConfigOf s name = c.
Proof. unfold dexConfigOf. intros ->. reflexivity. Qed.

Lemma dexConfigOf_enabled s name :
  dex_isEnabled (dexConfigOf s name) = true ->
  dexConfigs s !! name = Some (dexConfigOf s name).
Proof.
  unfold dexConfigOf. destruct (dexConfigs s !! name); [reflexivity |].
  discriminate.
Qed.

Lemma dexConfigOf_router s name :
  dex_router (dexConfigOf s name) <> 0 ->
  dexConfigs s !! name = Some (dexConfigOf s name).
Proof.
  unfold dexConfigOf. destruct (dexConfigs s !! name); [reflexivity |].
  intros H. contradiction H. reflexivity.
Qed.

Lemma tokenConfigOf_decimals s token :
  token_decimals (tokenConfigOf s token) <> 0 ->
  tokenConfigs s !! token = Some (tokenConfigOf s token).
Proof.
  unfold tokenConfigOf. destruct (tokenConfigs s !! token); [reflexivity |].
  intros H. contradiction H. reflexivity.
Qed.

Lemma wf_configureDex sender dexName router defaultFee maxGasUsage tiers :
  keeps StaysWellFormed
    (configureDex sender dexName router defaultFee maxGasUsage tiers).
Proof.
  intros s t r s' t' H (Hdex & Hpool & Htoken).
  pose proof (configureDex_writes _ _ _ _ _ _ _ _ _ _ _ H)
    as (Hfees & _ & Hother & Hp & Htk & _).
  assert (Hcfg : router <> 0 /\ Forall (fun fee => fee < MAX_BPS) tiers /\
                 dex_router (dexConfigOf s' dexName) = router).
  { revert H. unfold configureDex, onlyOwner. run.
    destruct (owner s =? sender) eqn:Ho; [| discriminate].
    apply Z.eqb_eq in Ho. run.
    destruct (router =? 0) eqn:Hr; [discriminate |]. apply Z.eqb_neq in Hr.
    destruct (strlen dexName =? 0) eqn:Hn; [discriminate |].
    cbn [orb]. run. intros H.
    assert (Hname : dexName <> "").
    { intros ->. discriminate Hn. }
    destruct (tiers_ok_or_not tiers) as [Hall | Hex].
    - destruct (configureDex_by_owner sender dexName router defaultFee
                  maxGasUsage tiers s t Ho) as (_ & _ & Hok).
      destruct (Hok Hr Hname Hall) as (s2 & E & Hget).
      assert (E' : configureDex sender dexName router defaultFee maxGasUsage
                     tiers s t = Ok r s' t').
      { unfold configureDex, onlyOwner. run. rewrite Ho, Z.eqb_refl. run.
        apply Z.eqb_neq in Hr. rewrite Hr, Hn. cbn [orb]. run. exact H. }
      rewrite E in E'. inversion E'; subst.
      unfold getDexConfig in Hget. cbv zeta in Hget.
      injection Hget as Hrouter _ _ _.
      split; [exact Hr | split; [exact Hall | exact Hrouter]].
    - destruct (configureDex_by_owner sender dexName router defaultFee
                  maxGasUsage tiers s t Ho) as (_ & Hbad & _).
      assert (E' : configureDex sender dexName router defaultFee maxGasUsage
                     tiers s t = Ok r s' t').
      { unfold configureDex, onlyOwner. run. rewrite Ho, Z.eqb_refl. run.
        apply Z.eqb_neq in Hr. rewrite Hr, Hn. cbn [orb]. run. exact H. }
      rewrite (Hbad Hr Hname Hex) in E'. discriminate. }
  destruct Hcfg as (Hr & Hall & Hrouter).
  split; [| split].
  - intros name c Hc. destruct (decide (name = dexName)) as [-> | Hne].
    + pose proof (dexConfigOf_stored _ _ _ Hc) as Hof. split.
      * rewrite <- Hof, Hrouter. exact Hr.
      * intros fee Hin. rewrite <- Hof in Hin.
        assert (Hsup : isDexFeeTierSupported s' dexName fee = true)
          by (apply bool_decide_eq_true_2; exact Hin).
        apply Hfees in Hsup as [Hnew | Hold].
        -- rewrite Forall_forall in Hall. apply Hall.
           apply list_elem_of_In. exact Hnew.
        -- apply bool_decide_eq_true_1 in Hold. unfold dexConfigOf in Hold.
           destruct (dexConfigs s !! dexName) as [c0 |] eqn:E0.
           ++ apply (Hdex _ _ E0). exact Hold.
           ++ cbn in Hold. set_solver.
    + rewrite (Hother name Hne) in Hc. apply (Hdex _ _ Hc).
  - rewrite Hp. exact Hpool.
  - rewrite Htk. exact Htoken.
Qed.

Lemma wf_configurePool sender pool fee minLiquidity dexName :
  keeps StaysWellFormed (configurePool sender pool fee minLiquidity dexName).
Proof.
  intros s t r s' t' H (Hdex & Hpool & Htoken).
  assert (Ho : owner s = sender).
  { revert H. unfold configurePool, onlyOwner. run.
    destruct (owner s =? sender) eqn:Ho; [| discriminate].
    intros _. apply Z.eqb_eq. exact Ho. }
  destruct (configurePool_by_owner sender pool fee minLiquidity dexName s t
              Ho) as [Hok Hconds].
  destruct (Hconds _ _ _ H) as (H1 & H2 & H3 & H4).
  rewrite (Hok H1 H2 H3 H4) in H. inversion H; subst; clear H.
  pose proof (dexConfigOf_enabled _ _ H2) as Hstored.
  split; [| split].
  - intros name c. storage. rewrite lookup_insert_Some.
    intros [[<- <-] | [_ Hc]]; [| apply (Hdex _ _ Hc)].
    unfold dexConfigOf at 1 2. storage. fold (dexConfigOf s dexName).
    cbn [dex_router dex_supportedFees add_dex_supportedPool].
    apply (Hdex _ _ Hstored).
  - intros p c. storage. rewrite lookup_insert_Some.
    intros [[<- <-] | [_ Hc]]; [| apply (Hpool _ _ Hc)].
    cbn. repeat split; assumption.
  - exact Htoken.
Qed.

Lemma wf_configureToken sender token maxAmount minAmount decimals :
  keeps StaysWellFormed
    (configureToken sender token maxAmount minAmount decimals).
Proof.
  intros s t r s' t' H (Hdex & Hpool & Htoken).
  assert (Ho : owner s = sender).
  { revert H. unfold configureToken, onlyOwner. run.
    destruct (owner s =? sender) eqn:Ho; [| discriminate].
    intros _. apply Z.eqb_eq. exact Ho. }
  destruct (configureToken_by_owner sender token maxAmount minAmount decimals
              s t Ho) as (Hok & _ & Hconds).
  destruct (Hconds _ _ _ H) as (H1 & H2 & H3).
  rewrite (Hok H1 H2 H3) in H. inversion H; subst; clear H.
  split; [exact Hdex | split; [exact Hpool |]].
  intros tk c. storage. rewrite lookup_insert_Some.
  intros [[<- <-] | [_ Hc]]; [| apply (Htoken _ _ Hc)].
  cbn. split; assumption.
Qed.

Lemma wf_setTokenEnabled sender token isEnabled :
  keeps StaysWellFormed (setTokenEnabled sender token isEnabled).
Proof.
  intros s t r s' t' H (Hdex & Hpool & Htoken). revert H.
  unfold setTokenEnabled, onlyOwner. run.
  destruct (owner s =? sender); [| discriminate]. run.
  destruct (token =? 0); [discriminate |]. run.
  destruct (token_decimals (tokenConfigOf s token) =? 0) eqn:Hdec;
    [discriminate |].
  apply Z.eqb_neq in Hdec. run. intros H; inversion H; subst; clear H.
  pose proof (tokenConfigOf_decimals _ _ Hdec) as Hstored.
  split; [exact Hdex | split; [exact Hpool |]].
  intros tk c. storage. rewrite lookup_insert_Some.
  intros [[<- <-] | [_ Hc]]; [| apply (Htoken _ _ Hc)].
  cbn [token_minAmount token_maxAmount token_decimals set_token_isEnabled].
  apply (Htoken _ _ Hstored).
Qed.

Lemma wf_setDexEnabled sender dexName isEnabled :
  keeps StaysWellFormed (setDexEnabled sender dexName isEnabled).
Proof.
  intros s t r s' t' H (Hdex & Hpool & Htoken). revert H.
  unfold setDexEnabled, onlyOwner. run.
  destruct (owner s =? sender); [| discriminate]. run.
  destruct (dex_router (dexConfigOf s dexName) =? 0) eqn:Hr; [discriminate |].
  apply Z.eqb_neq in Hr. run. intros H; inversion H; subst; clear H.
  pose proof (dexConfigOf_router _ _ Hr) as Hstored.
  split; [| split; [exact Hpool | exact Htoken]].
  intros name c. storage. rewrite lookup_insert_Some.
  intros [[<- <-] | [_ Hc]]; [| apply (Hdex _ _ Hc)].
  cbn [dex_router dex_supportedFees set_dex_isEnabled].
  apply (Hdex _ _ Hstored).
Qed.

Section Registry.

Variable this : Z.
Variable keccak : Z -> Z -> Z -> Z -> Z -> Z -> Z -> Z -> Z.
Variable enc : Error -> string.
Context {C : Type} (reenter : C -> State -> Trace -> State * Trace).

Hypothesis reenter_wf :
  forall c s t, StaysWellFormed s (fst (reenter c s t)).

Ltac wf1 :=
  keeps_step StaysWellFormed_refl StaysWellFormed_trans wf_side
    ltac:(intros; apply reenter_wf).

Lemma wf_dispatch sender op :
  keeps StaysWellFormed (dispatch this keccak enc reenter sender op).
Proof.
  destruct op; unfold dispatch, returning;
    (apply (keeps_bind _ _ _ _ _ StaysWellFormed_trans);
     [| intros ?; apply keeps_ret, StaysWellFormed_refl]).
  - apply wf_configureDex.
  - apply wf_configurePool.
  - apply wf_configureToken.
  - unfold executeFlashLoanArbitrage, nonReentrant, whenNotPaused,
      flashLoanFailure, bump, staticcall.
    cbv zeta. repeat wf1.
  - unfold receiveFlashLoan, arbitrageFailure, firstElement, callDiscardBool,
      executeArbitrageWrapper, executeArbitrageInternal,
      executeArbitrageInternal_legs, executeArbitrageInternal_settle,
      calcTradeProfit, calcTradeFinalBalance, calcExpectedProfit, subInt,
      addInt, negInt, _safeApprove, callDiscardBool, bump, staticcall.
    cbv zeta. repeat wf1.
  - unfold executeArbitrageWrapper, executeArbitrageInternal,
      executeArbitrageInternal_legs, executeArbitrageInternal_settle,
      calcTradeProfit, calcTradeFinalBalance, calcExpectedProfit, subInt,
      addInt, negInt, _safeApprove, callDiscardBool, bump, staticcall.
    cbv zeta. repeat wf1.
  - unfold emergencyWithdraw, safeTransfer, onlyOwner, staticcall.
    repeat wf1.
  - unfold withdrawFunds, safeTransfer, onlyOwner, staticcall. repeat wf1.
  - unfold pause, _pause, whenNotPaused, onlyOwner. repeat wf1.
  - unfold unpause, _unpause, whenPaused, onlyOwner. repeat wf1.
  - unfold triggerCircuitBreaker, _pause, whenNotPaused, onlyOwner.
    repeat wf1.
  - apply wf_setTokenEnabled.
  - apply wf_setDexEnabled.
  - unfold approveRouter, _safeApprove, callDiscardBool, onlyOwner.
    repeat wf1.
  - unfold setRouterAddresses, onlyOwner. repeat wf1.
  - unfold transferOwnership, _transferOwnership, onlyOwner. repeat wf1.
  - unfold renounceOwnership, _transferOwnership, onlyOwner. repeat wf1.
  - unfold fallback. repeat wf1.
Qed.

End Registry.

Section RegistryNested.

Variable this : Z.
Variable keccak : Z -> Z -> Z -> Z -> Z -> Z -> Z -> Z -> Z.
Variable enc : Error -> string.

Lemma reenterAt_wf n :
  forall c s t,
    StaysWellFormed s (fst (reenterAt this keccak enc n c s t)).
Proof.
  induction n as [|n IH]; intros c s t.
  - cbn. apply StaysWellFormed_refl.
  - cbn [reenterAt]. revert s t.
    induction c as [|[sender op] rest IHc]; intros s t; cbn [reenterWith].
    + apply StaysWellFormed_refl.
    + destruct (dispatch _ _ _ _ _ _ _ _) as [r s1 t1|e t1] eqn:E.
      * eapply StaysWellFormed_trans; [| apply IHc].
        eapply (wf_dispatch this keccak enc _ IH); exact E.
      * apply IHc.
Qed.

Lemma runAll_wf n txs s :
  StaysWellFormed s (runAll this keccak enc n txs s).
Proof.
  revert s. induction txs as [|[sender op] rest IH]; intros s; cbn [runAll].
  - apply StaysWellFormed_refl.
  - eapply StaysWellFormed_trans; [| apply IH].
    unfold transact, exec.
    destruct (dispatch _ _ _ _ _ _ _ _) as [r s' t'|e t'] eqn:E; cbn [fst].
    + eapply (wf_dispatch this keccak enc _ (reenterAt_wf n)); exact E.
    + apply StaysWellFormed_refl.
Qed.

End RegistryNested.

(** X30. The registry holds only entries that passed the checks.  After
    deployment and any sequence of transactions: an enabled DEX has a
    router other than the zero address, so that [configurePool] never
    fails with [InvalidSetup(6)]; every supported fee tier is below 10000
    bps; an enabled pool has a fee below 10000 bps and a router, and a pool
    that is not enabled was never configured (no entry point disables a
    pool); an enabled token has [minAmount < maxAmount] and at most 18
    decimals. *)
Theorem X30_registry_entries_passed_the_checks this keccak enc n
    (txs : list (Z * Op (Calls n))) deployer vault s0 :
  deploy deployer vault = inl s0 ->
  let s := runAll this keccak enc n txs s0 in
  (forall name router defaultFee maxGasUsage,
     getDexConfig s name = (router, defaultFee, maxGasUsage, true) ->
     router <> 0) /\
  (forall sender pool fee minLiquidity name t t',
     configurePool sender pool fee minLiquidity name s t <>
       Revert (InvalidSetup 6) t') /\
  (forall name tier,
     isDexFeeTierSupported s name tier = true -> tier < MAX_BPS) /\
  (forall pool fee minLiquidity router,
     (getPoolConfig s pool = (true, fee, minLiquidity, router) ->
      fee < MAX_BPS /\ router <> 0) /\
     (getPoolConfig s pool = (false, fee, minLiquidity, router) ->
      fee = 0 /\ minLiquidity = 0 /\ router = 0)) /\
  (forall token maxAmount minAmount decimals,
     getTokenConfig s token = (true, maxAmount, minAmount, decimals) ->
     minAmount < maxAmount /\ decimals <= 18).
Proof.
  intros Hd s.
  assert (Hwf : WellFormed s).
  { apply runAll_wf. unfold deploy in Hd.
    destruct (vault =? 0); inversion Hd; subst.
    split; [| split]; intros k c Hc; cbn in Hc; rewrite lookup_empty in Hc;
      discriminate. }
  destruct Hwf as (Hdex & Hpool & Htoken).
  assert (Hrouter : forall name,
            dex_isEnabled (dexConfigOf s name) = true ->
            dex_router (dexConfigOf s name) <> 0).
  { intros name Hen. apply dexConfigOf_enabled in Hen.
    apply (Hdex _ _ Hen). }
  split; [| split; [| split; [| split]]].
  - intros name router defaultFee maxGasUsage Hget.
    unfold getDexConfig in Hget. cbv zeta in Hget.
    injection Hget as <- _ _ Hen. apply Hrouter, Hen.
  - intros sender pool fee minLiquidity name t t'.
    unfold configurePool, onlyOwner. run.
    destruct (owner s =? sender); [| discriminate]. run.
    destruct (pool =? 0); [discriminate |]. run.
    destruct (dex_isEnabled (dexConfigOf s name)) eqn:Hen; [| discriminate].
    cbn [negb]. run.
    destruct (MAX_BPS <=? fee); [discriminate |]. run.
    apply Hrouter, Z.eqb_neq in Hen. rewrite Hen. run. discriminate.
  - intros name tier Hsup. apply bool_decide_eq_true_1 in Hsup.
    unfold dexConfigOf in Hsup.
    destruct (dexConfigs s !! name) as [c |] eqn:E.
    + apply (Hdex _ _ E). exact Hsup.
    + cbn in Hsup. set_solver.
  - intros pool fee minLiquidity router.
    unfold getPoolConfig, poolConfigOf. cbv zeta.
    destruct (poolConfigs s !! pool) as [c |] eqn:E; cbn [default].
    + destruct (Hpool _ _ E) as (Hen & Hfee & Hr). split.
      * intros Hget. injection Hget as _ <- _ <-. split; assumption.
      * intros Hget. injection Hget as Hen' _ _ _. congruence.
    + cbn. split; [discriminate |].
      intros Hget. injection Hget as <- <- <-. repeat split.
  - intros token maxAmount minAmount decimals.
    unfold getTokenConfig, tokenConfigOf. cbv zeta.
    destruct (tokenConfigs s !! token) as [c |] eqn:E; cbn [default].
    + intros Hget. injection Hget as _ <- <- <-. apply (Htoken _ _ E).
    + cbn. discriminate.
Qed.

Lemma X30_registry_entries_passed_the_checks_witness :
  getTokenConfig (runAll exThis exKeccak exEncode 1 exHistory exDeployed) 5 =
    (true, 1000000, 1, 18) /\
  (1 < 1000000 /\ 18 <= 18).
Proof.
  split; [vm_compute; reflexivity |].
  refine (proj2 (proj2 (proj2 (proj2
            (X30_registry_entries_passed_the_checks exThis exKeccak exEncode
               1 exHistory exOwner exVault exDeployed _)))) 5 1000000 1 18 _).
  - reflexivity.
  - vm_compute. reflexivity.
Defined.
